(** * FastAPI bridge between the Flexge enrollment API and the Asaas billing API

    Shallow embedding of [main.py]: the helpers that talk to the two remote
    platforms, the inactivity scan, the boleto workflows and the
    billing-type switch, together with the evaluation of the module's
    top-level statements.

    Python values are modelled by an inductive type of JSON-like values,
    exceptions by an inductive type, and the effects of the program
    (remote calls, [print], background tasks) by a state-and-exception
    monad over an arbitrary remote state machine.  The two [while True]
    loops that walk the pages of students take a bound on the number of
    pages, and a run that exhausts it is told apart from a result and from
    an exception. *)

From Stdlib Require Import ZArith List String Ascii Bool Lia.
Import ListNotations.

Open Scope string_scope.
Open Scope Z_scope.

(* ================================================================= *)
(** ** Python strings (byte strings, ASCII semantics)

    A text is the list of its bytes.  [lower], [strip], [split] and the
    class [\D] are those of Python on ASCII text: the letters A to Z, the
    ASCII blanks and the digits 0 to 9.  On text with other letters, blanks
    or decimal digits Python's [str] methods do more than these. *)

Module PyStr.

Definition code (c : ascii) : Z := Z.of_nat (nat_of_ascii c).

Definition is_digit (c : ascii) : bool := (48 <=? code c) && (code c <=? 57).

(** [str.isspace] on ASCII: TAB..CR, FS..US and the blank. *)
Definition is_space (c : ascii) : bool :=
  let n := code c in
  ((9 <=? n) && (n <=? 13)) || ((28 <=? n) && (n <=? 32)).

Definition lower_char (c : ascii) : ascii :=
  let n := code c in
  if (65 <=? n) && (n <=? 90) then ascii_of_nat (Z.to_nat (n + 32)) else c.

(** [s.lower()] *)
Fixpoint lower (s : string) : string :=
  match s with
  | EmptyString => EmptyString
  | String c r => String (lower_char c) (lower r)
  end.

Fixpoint lstrip (s : string) : string :=
  match s with
  | EmptyString => EmptyString
  | String c r => if is_space c then lstrip r else s
  end.

Fixpoint rev_string (s acc : string) : string :=
  match s with
  | EmptyString => acc
  | String c r => rev_string r (String c acc)
  end.

Definition rstrip (s : string) : string :=
  rev_string (lstrip (rev_string s "")) "".

(** [s.strip()] *)
Definition strip (s : string) : string := rstrip (lstrip s).

(** The first maximal run of non-blank characters of an already
    left-stripped string. *)
Fixpoint take_word (s : string) : string :=
  match s with
  | EmptyString => EmptyString
  | String c r => if is_space c then EmptyString else String c (take_word r)
  end.

(** [s.split()[0]]: [None] stands for the [IndexError] of indexing the
    empty list that [split] returns on a blank string. *)
Definition split_first (s : string) : option string :=
  match lstrip s with
  | EmptyString => None
  | w => Some (take_word w)
  end.

(** [re.sub(r"\D", "", s)] *)
Fixpoint digits_only (s : string) : string :=
  match s with
  | EmptyString => EmptyString
  | String c r => if is_digit c then String c (digits_only r) else digits_only r
  end.

(** [s[-n:]] for a positive [n] *)
Definition last_n (n : nat) (s : string) : string :=
  substring (String.length s - n) n s.

(** [s.replace("Z", "+00:00")] *)
Fixpoint replace_Z (s : string) : string :=
  match s with
  | EmptyString => EmptyString
  | String c r =>
      if Ascii.eqb c "Z"%char then "+00:00" ++ replace_Z r
      else String c (replace_Z r)
  end.

Definition digit_char (d : Z) : ascii := ascii_of_nat (Z.to_nat (48 + d)).

Fixpoint digits_fuel (fuel : nat) (n : Z) (acc : string) : string :=
  match fuel with
  | O => acc
  | S f =>
      let acc' := String (digit_char (n mod 10)) acc in
      if n <? 10 then acc' else digits_fuel f (n / 10) acc'
  end.

(** [str(n)] for an integer *)
Definition of_Z (n : Z) : string :=
  if n <? 0 then String "-"%char (digits_fuel (S (Z.to_nat (Z.log2 (- n)))) (- n) "")
  else digits_fuel (S (Z.to_nat (Z.log2 n))) n "".

(** [k] zeros before [s] *)
Fixpoint pad_left (k : nat) (s : string) : string :=
  match k with
  | O => s
  | S k' => String "0"%char (pad_left k' s)
  end.

(** [n] rendered on at least [w] digits, as [%02d] and [%04d] do for a
    non-negative [n]. *)
Definition zfill (w : nat) (n : Z) : string :=
  let d := of_Z n in pad_left (w - String.length d)%nat d.

End PyStr.

(* ================================================================= *)
(** ** Python values and exceptions *)

(** The JSON-like values the program handles: request bodies, decoded
    responses and the student dictionaries.  A [float] is carried as the
    decimal it was read from (an integer count of hundredths); the program
    never computes on one. *)
#[warnings="-register-all"]
Inductive value : Type :=
| VNone
| VBool (b : bool)
| VInt (n : Z)
| VFloat (hundredths : Z)
| VStr (s : string)
| VList (l : list value)
| VDict (d : list (string * value)).

(** The exception classes that can reach the program.  All of them are
    subclasses of [Exception]; [HTTPError] is [requests.exceptions.HTTPError]
    (raised by [raise_for_status]), [RequestException] stands for the other
    failures of the [requests] library (connection errors, timeouts) and
    [HTTPException] is FastAPI's. *)
Inductive exn : Type :=
| NameError (name : string)
| KeyError (key : string)
| IndexError
| TypeError (msg : string)
| AttributeError (msg : string)
| ValueError (msg : string)
| JSONDecodeError
| RequestException (msg : string)
| HTTPError (status : Z) (url : string)
| HTTPException (status : Z) (detail : string).

(** [isinstance(e, requests.exceptions.HTTPError)] *)
Definition is_HTTPError (e : exn) : bool :=
  match e with HTTPError _ _ => true | _ => false end.

(** [str(e)].  For [HTTPError] the text [raise_for_status] builds (without
    the reason phrase); for [HTTPException] Starlette's
    ["{status_code}: {detail}"]. *)
Definition str_exn (e : exn) : string :=
  match e with
  | NameError n => "name '" ++ n ++ "' is not defined"
  | KeyError k => "'" ++ k ++ "'"
  | IndexError => "list index out of range"
  | TypeError m => m
  | AttributeError m => m
  | ValueError m => m
  | JSONDecodeError => "Expecting value: line 1 column 1 (char 0)"
  | RequestException m => m
  | HTTPError st u => PyStr.of_Z st ++ " Error for url: " ++ u
  | HTTPException st d => PyStr.of_Z st ++ ": " ++ d
  end.

Module Py.

(** Truth value of an object, as [if v], [not v] and [v or w] test it. *)
Definition truthy (v : value) : bool :=
  match v with
  | VNone => false
  | VBool b => b
  | VInt n => negb (n =? 0)
  | VFloat n => negb (n =? 0)
  | VStr s => negb (String.eqb s "")
  | VList l => match l with [] => false | _ => true end
  | VDict d => match d with [] => false | _ => true end
  end.

(** [a or b] *)
Definition or_ (a b : value) : value := if truthy a then a else b.

Fixpoint assoc (k : string) (d : list (string * value)) : option value :=
  match d with
  | [] => None
  | (k', v) :: r => if String.eqb k k' then Some v else assoc k r
  end.

(** [v[k]] for a string key *)
Definition getitem (v : value) (k : string) : exn + value :=
  match v with
  | VDict d => match assoc k d with Some x => inr x | None => inl (KeyError k) end
  | VList _ => inl (TypeError "list indices must be integers or slices, not str")
  | VStr _ => inl (TypeError "string indices must be integers")
  | _ => inl (TypeError "object is not subscriptable")
  end.

(** [v[0]] *)
Definition first (v : value) : exn + value :=
  match v with
  | VList (x :: _) => inr x
  | VList [] => inl IndexError
  | VStr (String c _) => inr (VStr (String c ""))
  | VStr EmptyString => inl IndexError
  | VDict _ => inl (KeyError "0")
  | _ => inl (TypeError "object is not subscriptable")
  end.

(** [v.get(k, default)]; [v.get(k)] is [get v k VNone]. *)
Definition get (v : value) (k : string) (default : value) : exn + value :=
  match v with
  | VDict d => match assoc k d with Some x => inr x | None => inr default end
  | _ => inl (AttributeError "object has no attribute 'get'")
  end.

(** The receiver of a [str] method such as [lower], [strip], [split]
    or [replace]. *)
Definition as_str (v : value) : exn + string :=
  match v with
  | VStr s => inr s
  | _ => inl (AttributeError "object has no such str method")
  end.

(** The subject of [re.sub], which accepts only a string. *)
Definition re_subject (v : value) : exn + string :=
  match v with
  | VStr s => inr s
  | _ => inl (TypeError "expected string or bytes-like object")
  end.

(** [str(x)] for a float given in hundredths: the shortest decimal. *)
Definition str_float (n : Z) : string :=
  let a := Z.abs n in
  let frac := a mod 100 in
  (if n <? 0 then "-" else "") ++ PyStr.of_Z (a / 100) ++ "."
  ++ (if frac mod 10 =? 0 then PyStr.of_Z (frac / 10) else PyStr.zfill 2 frac).

Definition quote : ascii := "'"%char.
Definition double_quote : ascii := ascii_of_nat 34.
Definition backslash : ascii := ascii_of_nat 92.

Fixpoint has_char (c : ascii) (s : string) : bool :=
  match s with
  | EmptyString => false
  | String d r => Ascii.eqb c d || has_char c r
  end.

Definition hex_digit (n : Z) : ascii :=
  if n <? 10 then PyStr.digit_char n else ascii_of_nat (Z.to_nat (87 + n)).

(** The characters of [repr] of a string between its quotes [q]: the
    backslash and the quote are escaped, TAB, LF and CR are written with
    their letter, the other control characters in hexadecimal. *)
Fixpoint escape (q : ascii) (s : string) : string :=
  match s with
  | EmptyString => EmptyString
  | String c r =>
      let n := PyStr.code c in
      (if Ascii.eqb c backslash || Ascii.eqb c q then String backslash (String c "")
       else if n =? 9 then String backslash "t"
       else if n =? 10 then String backslash "n"
       else if n =? 13 then String backslash "r"
       else if (n <? 32) || (n =? 127)
       then String backslash (String "x"%char
              (String (hex_digit (n / 16)) (String (hex_digit (n mod 16)) "")))
       else String c "")
      ++ escape q r
  end.

(** [repr(s)] for a string: between single quotes, or between double
    quotes when [s] holds a single quote and no double quote. *)
Definition repr_str (s : string) : string :=
  let q := if has_char quote s && negb (has_char double_quote s)
           then double_quote else quote in
  String q (escape q s ++ String q "").

(** [repr(v)] *)
Fixpoint repr (v : value) : string :=
  match v with
  | VNone => "None"
  | VBool true => "True"
  | VBool false => "False"
  | VInt n => PyStr.of_Z n
  | VFloat n => str_float n
  | VStr s => repr_str s
  | VList l =>
      "[" ++ (fix items (l : list value) : string :=
                match l with
                | [] => ""
                | x :: r => repr x ++ match r with [] => "" | _ => ", " ++ items r end
                end) l ++ "]"
  | VDict d =>
      "{" ++ (fix items (d : list (string * value)) : string :=
                match d with
                | [] => ""
                | (k, x) :: r =>
                    repr_str k ++ ": " ++ repr x
                    ++ match r with [] => "" | _ => ", " ++ items r end
                end) d ++ "}"
  end.

(** [str(v)], also what an f-string renders: the text itself for a
    string, [repr(v)] for the rest. *)
Definition str (v : value) : string :=
  match v with
  | VStr s => s
  | VInt n => PyStr.of_Z n
  | VBool true => "True"
  | VBool false => "False"
  | VNone => "None"
  | VFloat n => str_float n
  | VList _ | VDict _ => repr v
  end.

(** [s or None] for a string [s] *)
Definition str_or_none (s : string) : value :=
  if String.eqb s "" then VNone else VStr s.

End Py.

(* ================================================================= *)
(** ** [datetime] *)

Module DT.

(** A [datetime.datetime]; [tzinfo] is the UTC offset in microseconds of
    an aware value and [None] for a naive one. *)
Record datetime : Type := mkDT {
  year : Z; month : Z; day : Z;
  hour : Z; minute : Z; second : Z; microsecond : Z;
  tzinfo : option Z
}.

Definition is_leap (y : Z) : bool :=
  ((y mod 4 =? 0) && negb (y mod 100 =? 0)) || (y mod 400 =? 0).

Definition days_in_month (y m : Z) : Z :=
  if m =? 2 then (if is_leap y then 29 else 28)
  else if (m =? 4) || (m =? 6) || (m =? 9) || (m =? 11) then 30 else 31.

Definition days_before_year (y : Z) : Z :=
  let p := y - 1 in p * 365 + p / 4 - p / 100 + p / 400.

Fixpoint days_before_month_fuel (y : Z) (k : nat) : Z :=
  match k with
  | O => 0
  | S k' => days_before_month_fuel y k' + days_in_month y (Z.of_nat k)
  end.

(** Days of the year [y] that precede the first of month [m] *)
Definition days_before_month (y m : Z) : Z :=
  days_before_month_fuel y (Z.to_nat (m - 1)).

(** [date.toordinal()]: 0001-01-01 is day 1 *)
Definition toordinal (d : datetime) : Z :=
  days_before_year (year d) + days_before_month (year d) (month d) + day d.

(** [datetime.utcnow()] hands the reading of the clock back as a naive
    value: without [tzinfo]. *)
Definition naive (d : datetime) : datetime :=
  mkDT (year d) (month d) (day d) (hour d) (minute d) (second d) (microsecond d) None.

Definition us_per_second : Z := 1000000.
Definition us_per_day : Z := 86400 * us_per_second.

(** Microseconds since 0001-01-01T00:00 of the wall-clock reading *)
Definition wall_us (d : datetime) : Z :=
  toordinal d * us_per_day
  + ((hour d * 60 + minute d) * 60 + second d) * us_per_second
  + microsecond d.

(** [a - b], a [timedelta] given by its total of microseconds.  Python
    refuses to subtract a naive and an aware value. *)
Definition sub (a b : datetime) : exn + Z :=
  match tzinfo a, tzinfo b with
  | None, None => inr (wall_us a - wall_us b)
  | Some oa, Some ob => inr ((wall_us a - oa) - (wall_us b - ob))
  | _, _ => inl (TypeError "can't subtract offset-naive and offset-aware datetimes")
  end.

(** [timedelta.days]: a timedelta is normalised with
    [0 <= seconds < 86400], so [days] is the floor of the quotient. *)
Definition days (delta_us : Z) : Z := delta_us / us_per_day.

Definition valid (d : datetime) : bool :=
  (1 <=? year d) && (year d <=? 9999)
  && (1 <=? month d) && (month d <=? 12)
  && (1 <=? day d) && (day d <=? days_in_month (year d) (month d))
  && (0 <=? hour d) && (hour d <=? 23)
  && (0 <=? minute d) && (minute d <=? 59)
  && (0 <=? second d) && (second d <=? 59)
  && (0 <=? microsecond d) && (microsecond d <=? 999999)
  && match tzinfo d with
     | None => true
     | Some o => (- us_per_day <? o) && (o <? us_per_day)
     end.

(** [d.strftime("%Y-%m-%d")] and [date.isoformat()] *)
Definition strftime_ymd (d : datetime) : string :=
  PyStr.zfill 4 (year d) ++ "-" ++ PyStr.zfill 2 (month d) ++ "-" ++ PyStr.zfill 2 (day d).

(** *** [datetime.fromisoformat]

    The texts [YYYY-MM-DD[*HH[:MM[:SS[.fff[fff]]]][+HH:MM[:SS[.ffffff]]]]]
    that Python 3.7 to 3.10 document, parsed as the [datetime] module of
    these versions does; any other text is refused with [ValueError]. *)

Fixpoint chars (s : string) : list ascii :=
  match s with
  | EmptyString => []
  | String c r => c :: chars r
  end.

Fixpoint number (l : list ascii) (acc : Z) : option Z :=
  match l with
  | [] => Some acc
  | c :: r => if PyStr.is_digit c then number r (acc * 10 + (PyStr.code c - 48)) else None
  end.

(** The integer written by exactly the first [n] characters of [l],
    with the rest of [l]. *)
Definition take_number (n : nat) (l : list ascii) : option (Z * list ascii) :=
  if Nat.ltb (List.length l) n then None
  else match number (firstn n l) 0 with
       | Some v => Some (v, skipn n l)
       | None => None
       end.

Definition expect (c : ascii) (l : list ascii) : option (list ascii) :=
  match l with
  | d :: r => if Ascii.eqb c d then Some r else None
  | [] => None
  end.

(** [YYYY-MM-DD] at the head of the text *)
Definition parse_date (l : list ascii) : option (Z * Z * Z * list ascii) :=
  match take_number 4 l with
  | Some (y, l1) =>
      match expect "-"%char l1 with
      | Some l2 =>
          match take_number 2 l2 with
          | Some (m, l3) =>
              match expect "-"%char l3 with
              | Some l4 =>
                  match take_number 2 l4 with
                  | Some (d, l5) => Some (y, m, d, l5)
                  | None => None
                  end
              | None => None
              end
          | None => None
          end
      | None => None
      end
  | None => None
  end.

(** [HH[:MM[:SS]]] followed by nothing or by [.fff] or [.ffffff]:
    hour, minute, second, microsecond. *)
Definition parse_hh_mm_ss_ff (l : list ascii) : option (Z * Z * Z * Z) :=
  let fraction (h m s : Z) (rest : list ascii) :=
    match rest with
    | [] => Some (h, m, s, 0)
    | c :: f =>
        if Ascii.eqb c "."%char then
          match List.length f, number f 0 with
          | 3%nat, Some v => Some (h, m, s, v * 1000)
          | 6%nat, Some v => Some (h, m, s, v)
          | _, _ => None
          end
        else None
    end in
  match take_number 2 l with
  | None => None
  | Some (h, []) => Some (h, 0, 0, 0)
  | Some (h, c1 :: l1) =>
      if negb (Ascii.eqb c1 ":"%char) then None
      else match take_number 2 l1 with
           | None => None
           | Some (m, []) => Some (h, m, 0, 0)
           | Some (m, c2 :: l2) =>
               if negb (Ascii.eqb c2 ":"%char) then None
               else match take_number 2 l2 with
                    | None => None
                    | Some (s, rest) => fraction h m s rest
                    end
           end
  end.

(** Splits a time text at its first [+] or [-]: the time, and the sign
    and text of the offset when there is one. *)
Fixpoint split_tz (l : list ascii) : list ascii * option (Z * list ascii) :=
  match l with
  | [] => ([], None)
  | c :: r =>
      if Ascii.eqb c "+"%char then ([], Some (1, r))
      else if Ascii.eqb c "-"%char then ([], Some (-1, r))
      else let '(t, z) := split_tz r in (c :: t, z)
  end.

Definition parse_tz (sign : Z) (l : list ascii) : option Z :=
  match List.length l with
  | 5%nat | 8%nat | 15%nat =>
      match parse_hh_mm_ss_ff l with
      | Some (h, m, s, us) =>
          Some (sign * (((h * 60 + m) * 60 + s) * us_per_second + us))
      | None => None
      end
  | _ => None
  end.

Definition invalid (s : string) : exn :=
  ValueError ("Invalid isoformat string: '" ++ s ++ "'").

Definition checked (s : string) (d : datetime) : exn + datetime :=
  if valid d then inr d else inl (invalid s).

Definition fromisoformat (s : string) : exn + datetime :=
  match parse_date (chars s) with
  | None => inl (invalid s)
  | Some (y, m, d, []) => checked s (mkDT y m d 0 0 0 0 None)
  | Some (y, m, d, _sep :: t) =>
      let '(tm, tz) := split_tz t in
      match parse_hh_mm_ss_ff tm with
      | None => inl (invalid s)
      | Some (hh, mi, ss, us) =>
          match tz with
          | None => checked s (mkDT y m d hh mi ss us None)
          | Some (sign, z) =>
              match parse_tz sign z with
              | Some off => checked s (mkDT y m d hh mi ss us (Some off))
              | None => inl (invalid s)
              end
          end
      end
  end.

End DT.

(* ================================================================= *)
(** ** Remote calls and the effect monad *)

Inductive http_method : Type := GET | POST | PUT | PATCH.

(** One call of [requests.get], [requests.post], [requests.put] or
    [requests.patch] with the keyword arguments the program uses.
    [timeout = None] is a call made without the [timeout] argument, which
    [requests] then lets wait without bound. *)
Record request : Type := mkReq {
  meth : http_method;
  url : string;
  headers : list (string * string);
  params : list (string * value);
  json : option value;
  timeout : option Z
}.

(** A received response: [body = None] when the text is not JSON. *)
Record response : Type := mkResp {
  status_code : Z;
  text : string;
  body : option value
}.

(** What a call comes back with: a response, or a failure of the transport
    (connection error, timeout), which [requests] raises. *)
Inductive outcome : Type :=
| Reply (r : response)
| NoReply (msg : string).

Record Settings : Type := mkSettings {
  FLEXGE_API_BASE : string;
  FLEXGE_API_KEY : string;
  ZAIA_API_KEY : string;
  ZAIA_BASE : string;
  ZAIA_AGENT_ID : Z;
  ASAAS_API_KEY : string;
  ASAAS_BASE : string
}.

(** The clock readings of one run: [datetime.datetime.utcnow()],
    [datetime.date.today()] and [str(time.time())]. *)
Record Clock : Type := mkClock {
  utcnow : DT.datetime;
  today : DT.datetime;
  time_time : string
}.

(** A task handed to FastAPI's [BackgroundTasks]:
    [send_inactivity_email(recipient, first_name)]. *)
Inductive task : Type :=
| send_inactivity_email (recipient : value) (first_name : string).

Inductive result (A : Type) : Type :=
| Val (a : A)
| Exc (e : exn)
| OutOfFuel.

Arguments Val {A} a.
Arguments Exc {A} e.
Arguments OutOfFuel {A}.

Section Effects.

(** The remote platforms together form one state machine. *)
Variable W : Type.
Variable serve : W -> request -> outcome * W.

Record state : Type := mkState {
  remote : W;
  trace : list request;      (* the calls issued so far, oldest first *)
  log : list string;         (* what [print] wrote, oldest first *)
  tasks : list task          (* background tasks added, oldest first *)
}.

Definition M (A : Type) : Type := state -> result A * state.

Definition ret {A} (a : A) : M A := fun st => (Val a, st).

Definition raise {A} (e : exn) : M A := fun st => (Exc e, st).

Definition diverge {A} : M A := fun st => (OutOfFuel, st).

Definition bind {A B} (m : M A) (k : A -> M B) : M B :=
  fun st =>
    match m st with
    | (Val a, st') => k a st'
    | (Exc e, st') => (Exc e, st')
    | (OutOfFuel, st') => (OutOfFuel, st')
    end.

(** [try: m  except Exception as e: handler e] *)
Definition try_except {A} (m : M A) (handler : exn -> M A) : M A :=
  fun st =>
    match m st with
    | (Exc e, st') => handler e st'
    | r => r
    end.

Definition lift {A} (r : exn + A) : M A :=
  match r with inr a => ret a | inl e => raise e end.

Definition print (s : string) : M unit :=
  fun st => (Val tt, mkState (remote st) (trace st) (log st ++ [s]) (tasks st)).

Definition add_task (t : task) : M unit :=
  fun st => (Val tt, mkState (remote st) (trace st) (log st) (tasks st ++ [t])).

(** The call itself: the request is recorded, the remote machine answers
    and moves on. *)
Definition requests (rq : request) : M response :=
  fun st =>
    let '(o, w) := serve (remote st) rq in
    let st' := mkState w (trace st ++ [rq]) (log st) (tasks st) in
    match o with
    | Reply r => (Val r, st')
    | NoReply msg => (Exc (RequestException msg), st')
    end.

(** [resp.json()] *)
Definition resp_json (r : response) : M value :=
  match body r with Some v => ret v | None => raise JSONDecodeError end.

(** [resp.raise_for_status()] *)
Definition raise_for_status (rq_url : string) (r : response) : M unit :=
  if (400 <=? status_code r) && (status_code r <? 600)
  then raise (HTTPError (status_code r) rq_url)
  else ret tt.

End Effects.

Arguments ret {W A} a.
Arguments raise {W A} e.
Arguments diverge {W A}.
Arguments bind {W A B} m k.
Arguments try_except {W A} m handler.
Arguments lift {W A} r.
Arguments print {W} s.
Arguments add_task {W} t.
Arguments requests {W} serve rq.
Arguments resp_json {W} r.
Arguments raise_for_status {W} rq_url r.
Arguments mkState {W}.
Arguments remote {W}.
Arguments trace {W}.
Arguments log {W}.
Arguments tasks {W}.

Declare Scope py_scope.
Delimit Scope py_scope with py.
Notation "x <- m ;; k" := (bind m (fun x => k))
  (at level 61, m at next level, right associativity) : py_scope.
Notation "m ;; k" := (bind m (fun _ => k))
  (at level 61, right associativity) : py_scope.
Open Scope py_scope.

(* ================================================================= *)
(** ** The program *)

(** [for x in v]: the elements a [for] loop or a generator visits. *)
Definition iter_values (v : value) : exn + list value :=
  match v with
  | VList l => inr l
  | VStr s => inr (map (fun c => VStr (String c "")) (DT.chars s))
  | VDict d => inr (map (fun kv => VStr (fst kv)) d)
  | _ => inl (TypeError "object is not iterable")
  end.

(** [v == "..."] against a string literal *)
Definition eq_str (v : value) (s : string) : bool :=
  match v with VStr t => String.eqb t s | _ => false end.

Section Program.

Variable W : Type.
Variable serve : W -> request -> outcome * W.
Variable settings : Settings.
Variable clock : Clock.

(** *** Flexge helpers *)

Definition generate_headers : list (string * string) :=
  [ ("x-api-key", FLEXGE_API_KEY settings);
    ("accept", "application/json");
    ("Content-Type", "application/json");
    ("X-Request-ID", time_time clock) ].

Definition get_students (page : Z) : M W value :=
  let url := FLEXGE_API_BASE settings ++ "/students?page=" ++ PyStr.of_Z page in
  resp <- requests serve (mkReq GET url generate_headers [] None (Some 10)) ;;
  if status_code resp =? 200 then resp_json resp else ret VNone.

(** The [for] loop of [buscar_aluno_por_email]: the first student of the
    page whose email is [email] up to case. *)
Fixpoint find_aluno (email : string) (docs : list value) : exn + option value :=
  match docs with
  | [] => inr None
  | aluno :: rest =>
      match Py.getitem aluno "email" with
      | inl e => inl e
      | inr em =>
          match Py.as_str em with
          | inl e => inl e
          | inr s =>
              if String.eqb (PyStr.lower s) (PyStr.lower email)
              then inr (Some aluno)
              else find_aluno email rest
          end
      end
  end.

(** [not data or not data.get("docs")] *)
Definition no_docs (data : value) : exn + bool :=
  if negb (Py.truthy data) then inr true
  else match Py.get data "docs" VNone with
       | inl e => inl e
       | inr docs => inr (negb (Py.truthy docs))
       end.

(** The [while True] loop of [buscar_aluno_por_email], from page [page];
    [fuel] bounds the number of pages fetched. *)
Fixpoint buscar_aluno_from (fuel : nat) (email : string) (page : Z) : M W value :=
  match fuel with
  | O => diverge
  | S fuel' =>
      data <- get_students page ;;
      stop <- lift (no_docs data) ;;
      if (stop : bool) then ret VNone
      else
        docs <- lift (Py.getitem data "docs") ;;
        l <- lift (iter_values docs) ;;
        hit <- lift (find_aluno email l) ;;
        match hit with
        | Some aluno => ret aluno
        | None => buscar_aluno_from fuel' email (page + 1)
        end
  end.

Definition buscar_aluno_por_email (fuel : nat) (email : string) : M W value :=
  buscar_aluno_from fuel email 1.

Definition patch_student_action (student_id : value) (action : string) : M W response :=
  let url := FLEXGE_API_BASE settings ++ "/students/" ++ action in
  let payload := VDict [("students", VList [student_id])] in
  requests serve (mkReq PATCH url generate_headers [] (Some payload) (Some 10)).

(** *** Asaas helpers *)

Definition asaas_headers : list (string * string) :=
  [ ("accept", "application/json");
    ("Content-Type", "application/json");
    ("User-Agent", "FastAPIFlexgeZaia");
    ("access-token", ASAAS_API_KEY settings) ].

(** [re.sub(r"\D", "", str(student.get(key) or ""))[-n:] or None] *)
Definition digits_field (student : value) (key : string) (n : nat) : exn + value :=
  match Py.get student key VNone with
  | inl e => inl e
  | inr v =>
      inr (Py.str_or_none
             (PyStr.last_n n (PyStr.digits_only (Py.str (Py.or_ v (VStr ""))))))
  end.

Definition customers_url : string := ASAAS_BASE settings ++ "/customers".

(** The key under which a student is looked up:
    [student["email"].lower().strip()]. *)
Definition customer_email (student : value) : exn + string :=
  match Py.getitem student "email" with
  | inl e => inl e
  | inr em =>
      match Py.as_str em with
      | inl e => inl e
      | inr s => inr (PyStr.strip (PyStr.lower s))
      end
  end.

Definition customer_lookup (email : string) : request :=
  mkReq GET customers_url asaas_headers [("email", VStr email)] None None.

Definition customer_creation (payload : value) : request :=
  mkReq POST customers_url asaas_headers [] (Some payload) None.

Definition customer_payload (student : value) (email : string) : exn + value :=
  match Py.getitem student "name" with
  | inl e => inl e
  | inr nm =>
      match Py.as_str nm with
      | inl e => inl e
      | inr name =>
          match digits_field student "phone" 11 with
          | inl e => inl e
          | inr phone =>
              match digits_field student "cpf" 14 with
              | inl e => inl e
              | inr cpf =>
                  inr (VDict [ ("name", VStr (PyStr.strip name));
                               ("email", VStr email);
                               ("mobilePhone", phone);
                               ("cpfCnpj", cpf) ])
              end
          end
      end
  end.

(** The creation of the customer: the call, its status check and the id
    of the answer. *)
Definition post_customer (payload : value) : M W value :=
  response <- requests serve (customer_creation payload) ;;
  raise_for_status customers_url response ;;
  created <- resp_json response ;;
  lift (Py.getitem created "id").

Definition get_or_create_customer (student : value) : M W value :=
  email <- lift (customer_email student) ;;
  response <- requests serve (customer_lookup email) ;;
  found <- (if status_code response =? 200
            then data <- resp_json response ;;
                 d <- lift (Py.get data "data" VNone) ;;
                 ret (Py.truthy d)
            else ret false) ;;
  if (found : bool) then
    data <- resp_json response ;;
    d <- lift (Py.getitem data "data") ;;
    c <- lift (Py.first d) ;;
    lift (Py.getitem c "id")
  else
    payload <- lift (customer_payload student email) ;;
    post_customer payload.

Definition payments_url : string := ASAAS_BASE settings ++ "/payments".

Definition payment_payload (customer_id : value) (hundredths : Z)
           (due_date : DT.datetime) (description : string) : value :=
  VDict [ ("customer", customer_id);
          ("billingType", VStr "BOLETO");
          ("value", VFloat hundredths);
          ("dueDate", VStr (DT.strftime_ymd due_date));
          ("description", VStr description) ].

Definition payment_creation (payload : value) : request :=
  mkReq POST payments_url asaas_headers [] (Some payload) (Some 10).

Definition create_payment (customer_id : value) (hundredths : Z)
           (due_date : DT.datetime) (description : string) : M W value :=
  let payload := payment_payload customer_id hundredths due_date description in
  try_except
    (resp <- requests serve (payment_creation payload) ;;
     if status_code resp =? 200 then resp_json resp
     else
       print ("[ERRO] Asaas POST /payments " ++ PyStr.of_Z (status_code resp)
              ++ " - " ++ text resp) ;;
       raise (HTTPException 500
                ("Erro Asaas (" ++ PyStr.of_Z (status_code resp)
                 ++ ") ao criar pagamento")))
    (fun e =>
       print ("[EXCEÇÃO] Erro inesperado ao criar pagamento: " ++ str_exn e) ;;
       raise (HTTPException 500 "Erro interno ao gerar pagamento")).

Definition latest_unpaid_query (customer_id : value) : request :=
  mkReq GET payments_url []
    [ ("customer", customer_id);
      ("status", VStr "PENDING");
      ("billingType", VStr "BOLETO");
      ("limit", VInt 1);
      ("offset", VInt 0);
      ("sort", VStr "dueDate");
      ("order", VStr "ASC");
      ("access_token", VStr (ASAAS_API_KEY settings)) ]
    None (Some 10).

(** [None] is returned as [VNone]. *)
Definition get_latest_unpaid_payment (customer_id : value) : M W value :=
  try_except
    (resp <- requests serve (latest_unpaid_query customer_id) ;;
     if status_code resp =? 200 then
       data <- resp_json resp ;;
       d <- lift (Py.get data "data" VNone) ;;
       if Py.truthy d then
         d' <- lift (Py.getitem data "data") ;;
         lift (Py.first d')
       else
         print "[INFO] Nenhum boleto pendente encontrado para esse cliente." ;;
         ret VNone
     else
       print ("[ERRO] Asaas GET /payments " ++ PyStr.of_Z (status_code resp)
              ++ " - " ++ text resp) ;;
       raise (HTTPException 500
                ("Erro Asaas (" ++ PyStr.of_Z (status_code resp)
                 ++ ") ao buscar cobrança pendente")))
    (fun e =>
       print ("[EXCEÇÃO] Erro inesperado ao buscar cobrança pendente: " ++ str_exn e) ;;
       raise (HTTPException 500 "Erro interno ao consultar cobrança")).

(** *** Zaia helper *)

Definition zaia_url : string :=
  ZAIA_BASE settings ++ "/external-generative-message/create".

Definition zaia_message (phone_e164 text : string) (chat_id : option string) : request :=
  let chat :=
    match chat_id with
    | Some c => if String.eqb c "" then []
                else [("externalGenerativeChatExternalId", VStr c)]
    | None => []
    end in
  let payload :=
    ([ ("agentId", VInt (ZAIA_AGENT_ID settings));
       ("prompt", VStr text);
       ("streaming", VBool false);
       ("asMarkdown", VBool true);
       ("custom", VDict [("whatsapp", VStr phone_e164)]) ] ++ chat)%list in
  mkReq POST zaia_url
    [ ("Authorization", "Bearer " ++ ZAIA_API_KEY settings);
      ("Content-Type", "application/json") ]
    [] (Some (VDict payload)) (Some 10).

Definition send_whatsapp_via_zaia (phone_e164 text : string)
           (chat_id : option string) : M W value :=
  if String.eqb (ZAIA_API_KEY settings) "" || (ZAIA_AGENT_ID settings =? 0)
  then ret VNone
  else
    r <- requests serve (zaia_message phone_e164 text chat_id) ;;
    raise_for_status zaia_url r ;;
    resp_json r.

End Program.

Definition nl : string := String (ascii_of_nat 10) "".

(** [o.get("bankSlipUrl") or o.get("invoiceUrl")] *)
Definition link_of (o : value) : exn + value :=
  match Py.get o "bankSlipUrl" VNone with
  | inl e => inl e
  | inr slip => if Py.truthy slip then inr slip else Py.get o "invoiceUrl" VNone
  end.

Section Endpoints.

Variable W : Type.
Variable serve : W -> request -> outcome * W.
Variable settings : Settings.
Variable clock : Clock.

Local Abbreviation get_students := (get_students W serve settings clock).
Local Abbreviation buscar_aluno_por_email := (buscar_aluno_por_email W serve settings clock).
Local Abbreviation patch_student_action := (patch_student_action W serve settings clock).
Local Abbreviation get_or_create_customer := (get_or_create_customer W serve settings).
Local Abbreviation create_payment := (create_payment W serve settings).
Local Abbreviation send_whatsapp_via_zaia := (send_whatsapp_via_zaia W serve settings).

(** *** GET /check-inatividade *)

(** [(hoje - datetime.fromisoformat(last.replace("Z", "+00:00"))).days] *)
Definition dias_sem_acesso (hoje : DT.datetime) (last : value) : exn + Z :=
  match Py.as_str last with
  | inl e => inl e
  | inr s =>
      match DT.fromisoformat (PyStr.replace_Z s) with
      | inl e => inl e
      | inr t =>
          match DT.sub hoje t with
          | inl e => inl e
          | inr delta => inr (DT.days delta)
          end
      end
  end.

(** [aluno["name"].split()[0]] *)
Definition first_name (aluno : value) : exn + string :=
  match Py.getitem aluno "name" with
  | inl e => inl e
  | inr nm =>
      match Py.as_str nm with
      | inl e => inl e
      | inr s =>
          match PyStr.split_first s with
          | Some w => inr w
          | None => inl IndexError
          end
      end
  end.

(** The body of the [for aluno in dados["docs"]] loop; the counters are
    [(bloqueados, avisados)]. *)
Definition visit_aluno (hoje : DT.datetime) (aluno : value) (counts : Z * Z)
  : M W (Z * Z) :=
  last <- lift (Py.get aluno "lastAccess" VNone) ;;
  if negb (Py.truthy last) then ret counts
  else
    dias <- lift (dias_sem_acesso hoje last) ;;
    if dias >=? 10 then
      id <- lift (Py.getitem aluno "id") ;;
      patch_student_action id "disable" ;;
      ret (fst counts + 1, snd counts)
    else if dias >=? 8 then
      email <- lift (Py.getitem aluno "email") ;;
      name <- lift (first_name aluno) ;;
      add_task (send_inactivity_email email name) ;;
      ret (fst counts, snd counts + 1)
    else ret counts.

Fixpoint visit_page (hoje : DT.datetime) (docs : list value) (counts : Z * Z)
  : M W (Z * Z) :=
  match docs with
  | [] => ret counts
  | aluno :: rest =>
      counts' <- visit_aluno hoje aluno counts ;;
      visit_page hoje rest counts'
  end.

(** The [while True] loop of the scan, [fuel] bounding the pages. *)
Fixpoint scan_from (fuel : nat) (hoje : DT.datetime) (page : Z) (counts : Z * Z)
  : M W (Z * Z) :=
  match fuel with
  | O => diverge
  | S fuel' =>
      dados <- get_students page ;;
      stop <- lift (no_docs dados) ;;
      if (stop : bool) then ret counts
      else
        docs <- lift (Py.getitem dados "docs") ;;
        l <- lift (iter_values docs) ;;
        counts' <- visit_page hoje l counts ;;
        scan_from fuel' hoje (page + 1) counts'
  end.

Definition check_inatividade (fuel : nat) : M W value :=
  try_except
    (counts <- scan_from fuel (DT.naive (utcnow clock)) 1 (0, 0) ;;
     ret (VDict [("bloqueados", VInt (fst counts)); ("avisados", VInt (snd counts))]))
    (fun e => raise (HTTPException 500 (str_exn e))).

(** *** POST /enviar-boleto *)

Definition boleto_message (name : string) (link : value) : string :=
  "Olá " ++ name ++ "! 👋" ++ nl ++ nl ++ "Aqui está o seu boleto: " ++ Py.str link
  ++ nl ++ nl ++ "Qualquer dúvida estou à disposição.".

(** [re.sub(r"\D", "", aluno.get("phone", ""))] *)
Definition whatsapp_of (aluno : value) : exn + string :=
  match Py.get aluno "phone" (VStr "") with
  | inl e => inl e
  | inr phone =>
      match Py.re_subject phone with
      | inl e => inl e
      | inr subject => inr (PyStr.digits_only subject)
      end
  end.

(** What follows the creation of the payment inside the [try] block. *)
Definition deliver_boleto (aluno pay : value) : M W value :=
  link <- lift (link_of pay) ;;
  whatsapp <- lift (whatsapp_of aluno) ;;
  (if negb (String.eqb whatsapp "") then
     name <- lift (first_name aluno) ;;
     send_whatsapp_via_zaia whatsapp (boleto_message name link) None ;;
     ret tt
   else ret tt) ;;
  ret (VDict [("status", VStr "enviado"); ("link", link)]).

Definition enviar_boleto (fuel : nat) (email : string) (valor : Z)
           (vencimento : string) : M W value :=
  aluno <- buscar_aluno_por_email fuel email ;;
  if negb (Py.truthy aluno)
  then raise (HTTPException 404 "Aluno não encontrado")
  else
    try_except
      (cid <- get_or_create_customer aluno ;;
       due <- lift (DT.fromisoformat vencimento) ;;
       pay <- create_payment cid valor due "Mensalidade" ;;
       deliver_boleto aluno pay)
      (fun e => raise (HTTPException 500 (str_exn e))).

(** *** POST /zaia/reenviar-boleto *)

Definition subscriptions_url : string := ASAAS_BASE settings ++ "/subscriptions".

(** [next((s for s in assinaturas if s["status"] == "ACTIVE"), None)] *)
Fixpoint first_active (assinaturas : list value) : exn + value :=
  match assinaturas with
  | [] => inr VNone
  | s :: rest =>
      match Py.getitem s "status" with
      | inl e => inl e
      | inr st => if eq_str st "ACTIVE" then inr s else first_active rest
      end
  end.

Definition erro (msg : string) : value := VDict [("erro", VStr msg)].

Definition subscription_listing (cid : value) : request :=
  mkReq GET subscriptions_url (asaas_headers settings) [("customer", cid)] None None.

Definition pending_listing (subscription_id : value) : request :=
  mkReq GET (payments_url settings) (asaas_headers settings)
    [("subscription", subscription_id); ("status", VStr "PENDING")] None None.

Definition reenviar_body (email : string) : M W value :=
  if String.eqb email "" then ret (erro "Email é obrigatório")
  else
    let aluno := VDict [("email", VStr email); ("name", VStr email)] in
    print "🔍 Buscando ou criando cliente no Asaas..." ;;
    cid <- get_or_create_customer aluno ;;
    print ("👤 Cliente encontrado: " ++ Py.str cid) ;;
    response <- requests serve (subscription_listing cid) ;;
    raise_for_status subscriptions_url response ;;
    data <- resp_json response ;;
    assinaturas <- lift (Py.get data "data" (VList [])) ;;
    l <- lift (iter_values assinaturas) ;;
    assinatura_ativa <- lift (first_active l) ;;
    if negb (Py.truthy assinatura_ativa)
    then ret (erro "Nenhuma assinatura ativa encontrada")
    else
      subscription_id <- lift (Py.getitem assinatura_ativa "id") ;;
      print ("📦 Assinatura ativa encontrada: " ++ Py.str subscription_id) ;;
      response <- requests serve (pending_listing subscription_id) ;;
      raise_for_status (payments_url settings) response ;;
      data <- resp_json response ;;
      cobrancas <- lift (Py.get data "data" (VList [])) ;;
      if negb (Py.truthy cobrancas)
      then ret (erro "Nenhuma cobrança pendente encontrada")
      else
        cobranca <- lift (Py.first cobrancas) ;;
        cob_id <- lift (Py.getitem cobranca "id") ;;
        print ("💸 Cobrança pendente encontrada: " ++ Py.str cob_id) ;;
        nome <- lift (Py.getitem aluno "name") ;;
        vencimento <- lift (Py.getitem cobranca "dueDate") ;;
        valor <- lift (Py.getitem cobranca "value") ;;
        link <- lift (link_of cobranca) ;;
        ret (VDict [ ("nome", nome); ("vencimento", vencimento);
                     ("valor", valor); ("boleto_url", link) ]).

Definition zaia_reenviar_boleto (email : string) : M W value :=
  try_except (reenviar_body email)
    (fun e =>
       if is_HTTPError e then
         print ("[ERRO HTTP] " ++ str_exn e) ;;
         ret (erro ("Erro HTTP: " ++ str_exn e))
       else
         print ("[ERRO GERAL] " ++ str_exn e) ;;
         ret (erro ("Erro inesperado: " ++ str_exn e))).

(** *** POST /trocar-assinatura-cartao and POST /trocar-assinatura-boleto *)

Definition switch_headers : list (string * string) :=
  [ ("Content-Type", "application/json");
    ("Accept", "application/json");
    ("User-Agent", "FastAPIFlexgeZaia");
    ("access_token", ASAAS_API_KEY settings) ].

Definition active_subscription_query (cid : value) : request :=
  mkReq GET subscriptions_url switch_headers
    [("customer", cid); ("status", VStr "ACTIVE"); ("limit", VInt 1)]
    None (Some 10).

Definition subscription_update (sub_id : value) (billing_type : string) : request :=
  mkReq PUT (subscriptions_url ++ "/" ++ Py.str sub_id) switch_headers []
    (Some (VDict [ ("billingType", VStr billing_type);
                   ("updatePendingPayments", VBool true);
                   ("status", VStr "ACTIVE");
                   ("nextDueDate", VStr (DT.strftime_ymd (today clock))) ]))
    (Some 10).

(** The two routes differ only in the billing type they set and in the
    message they answer with. *)
Definition trocar_assinatura (billing_type mensagem : string) (fuel : nat)
           (email : string) : M W value :=
  try_except
    (aluno <- buscar_aluno_por_email fuel email ;;
     if negb (Py.truthy aluno)
     then raise (HTTPException 404 "Aluno não encontrado")
     else
       cid <- get_or_create_customer aluno ;;
       assinatura_r <- requests serve (active_subscription_query cid) ;;
       raise_for_status subscriptions_url assinatura_r ;;
       assinatura_data <- resp_json assinatura_r ;;
       d <- lift (Py.get assinatura_data "data" VNone) ;;
       if negb (Py.truthy d)
       then raise (HTTPException 404 "Assinatura ativa não encontrada")
       else
         d' <- lift (Py.getitem assinatura_data "data") ;;
         s <- lift (Py.first d') ;;
         sub_id <- lift (Py.getitem s "id") ;;
         put_r <- requests serve (subscription_update sub_id billing_type) ;;
         raise_for_status (subscriptions_url ++ "/" ++ Py.str sub_id) put_r ;;
         response_data <- resp_json put_r ;;
         next_due <- lift (Py.get response_data "nextDueDate" VNone) ;;
         tipo <- lift (Py.get response_data "billingType" VNone) ;;
         ret (VDict [ ("mensagem", VStr mensagem);
                      ("assinatura_id", sub_id);
                      ("proxima_cobranca", next_due);
                      ("tipo_pagamento", tipo) ]))
    (fun e =>
       if is_HTTPError e then
         print ("[ERRO HTTP] " ++ str_exn e) ;;
         raise (HTTPException 500 ("Erro HTTP: " ++ str_exn e))
       else
         print ("[ERRO GERAL] " ++ str_exn e) ;;
         raise (HTTPException 500 ("Erro inesperado: " ++ str_exn e))).

Definition trocar_assinatura_cartao : nat -> string -> M W value :=
  trocar_assinatura "CREDIT_CARD" "Assinatura atualizada para cartão com sucesso.".

Definition trocar_assinatura_boleto : nat -> string -> M W value :=
  trocar_assinatura "BOLETO" "Assinatura atualizada para boleto com sucesso.".

End Endpoints.

(* ================================================================= *)
(** ** Evaluation of the module's top-level statements *)

Module Loader.

(** What importing [main.py] builds up: the global names bound so far and
    the routes registered on [app] so far, oldest first. *)
Record mstate : Type := mkM {
  globals : list string;
  routes : list (http_method * string)
}.

Definition L (A : Type) : Type := mstate -> (exn + A) * mstate.

Definition ok {A} (a : A) : L A := fun st => (inr a, st).

Definition fail {A} (e : exn) : L A := fun st => (inl e, st).

Definition andthen {A B} (m : L A) (k : A -> L B) : L B :=
  fun st =>
    match m st with
    | (inr a, st') => k a st'
    | (inl e, st') => (inl e, st')
    end.

Definition seq (m k : L unit) : L unit := andthen m (fun _ => k).

Fixpoint bound (n : string) (g : list string) : bool :=
  match g with
  | [] => false
  | x :: r => String.eqb n x || bound n r
  end.

(** Reading a global name: [NameError] when nothing bound it. *)
Definition load (n : string) : L unit :=
  fun st => if bound n (globals st) then (inr tt, st) else (inl (NameError n), st).

(** Binding a global name. *)
Definition store (n : string) : L unit :=
  fun st => (inr tt, mkM (n :: globals st) (routes st)).

Fixpoint loads (ns : list string) : L unit :=
  match ns with
  | [] => ok tt
  | n :: r => seq (load n) (loads r)
  end.

Fixpoint stores (ns : list string) : L unit :=
  match ns with
  | [] => ok tt
  | n :: r => seq (store n) (stores r)
  end.

Fixpoint block (stmts : list (L unit)) : L unit :=
  match stmts with
  | [] => ok tt
  | s :: r => seq s (block r)
  end.

(** [import ...] and [from ... import ...] *)
Definition import_ (names : list string) : L unit := stores names.

(** [x = e] where [e] reads the names [uses] *)
Definition assign (x : string) (uses : list string) : L unit :=
  seq (loads uses) (store x).

(** An expression statement reading the names [uses] *)
Definition expr (uses : list string) : L unit := loads uses.

(** [class C(bases): ...] and [def f(params): ...]: the bases, the
    annotations, the defaults and the class-level right-hand sides are
    evaluated, a function body is not. *)
Definition define (name : string) (uses : list string) : L unit :=
  seq (loads uses) (store name).

(** [@app.get(path)] or [@app.post(path)] over [async def f(params)] *)
Definition route (m : http_method) (path fname : string) (uses : list string) : L unit :=
  fun st =>
    match seq (load "app") (loads uses) st with
    | (inr _, st') => (inr tt, mkM (fname :: globals st') (routes st' ++ [(m, path)]))
    | (inl e, st') => (inl e, st')
    end.

(** The [try] statement that stands between two routes, at module level.
    The arguments of [requests.post] are evaluated left to right before the
    call; [answer] is what the call would come back with. *)
Definition stray_change_billing_type (answer : outcome) : L unit :=
  fun st =>
    let body :=
      andthen (loads ["requests"; "settings"; "sub_id"; "settings"]) (fun _ =>
      match answer with
      | NoReply msg => fail (RequestException msg)
      | Reply r =>
          andthen (store "r") (fun _ =>
          if (400 <=? status_code r) && (status_code r <? 600)
          then fail (HTTPError (status_code r) "changeBillingType")
          else ok r)
      end) in
    match body st with
    | (inr _, st') => (inr tt, st')
    | (inl e, st') =>
        (* except requests.exceptions.HTTPError as e *)
        if is_HTTPError e then
          match answer with
          | Reply r =>
              if status_code r =? 404
              then (inl (HTTPException 404
                           "Assinatura não encontrada no Asaas. Verifique se ela foi criada corretamente."),
                    st')
              else (inl (HTTPException 500 (str_exn e)), st')
          | NoReply _ => (inl e, st')
          end
        else (inl e, st')
    end.

Definition builtins : list string :=
  ["print"; "int"; "str"; "float"; "bytes"; "dict"; "set"; "__name__"].

Definition initial : mstate := mkM builtins [].

(** The statements of [main.py], top to bottom. *)
Definition main_py (answer : outcome) : L unit :=
  block
    [ import_ ["os"; "re"; "requests"; "time"; "json"; "smtplib"; "base64"; "datetime"];
      import_ ["BytesIO"; "Optional"; "List"; "Dict"; "Any"];
      import_ ["FastAPI"; "UploadFile"; "File"; "HTTPException"; "status";
               "BackgroundTasks"; "Request"; "Form"];
      import_ ["JSONResponse"; "CORSMiddleware"; "BaseModel"; "BaseSettings";
               "MIMEMultipart"; "MIMEText"; "OpenAI"; "Image"];
      assign "app" ["FastAPI"];
      expr ["app"; "CORSMiddleware"];
      define "Settings" ["BaseSettings"; "str"; "os"; "int"; "set"];
      assign "settings" ["Settings"];
      expr ["print"];
      assign "client" ["OpenAI"; "settings"];
      define "EmailRequest" ["BaseModel"; "str"];
      define "EnableStudentRequest" ["BaseModel"; "str"];
      define "PaymentRequest" ["BaseModel"; "str"; "float"];
      define "ZaiaWebhookRequest" ["BaseModel"; "str"; "Optional"];
      define "generate_headers" [];
      define "get_students" ["int"];
      define "buscar_aluno_por_email" ["str"];
      define "patch_student_action" ["str"];
      define "buscar_erros_gramatica" ["str"];
      define "asaas_headers" [];
      define "get_or_create_customer" ["dict"];
      define "create_payment" ["str"; "float"; "datetime"];
      define "get_latest_unpaid_payment" ["str"];
      define "create_checkout_flexivel" ["str"; "float"];
      define "send_whatsapp_via_zaia" ["str"; "Optional"];
      define "listar_cobrancas_assinatura" ["str"];
      define "allowed_file" ["str"];
      define "resize_image" ["bytes"; "int"];
      define "analyze_image_with_gpt4" ["str"];
      define "send_inactivity_email" ["str"];
      define "gerar_resposta_gpt" ["str"];
      route POST "/analisar-imagem" "analisar_imagem" ["UploadFile"; "File"];
      route POST "/explicacao-gramatica" "explicacao_gramatica" ["EmailRequest"];
      route POST "/habilitar-aluno" "habilitar_aluno" ["EnableStudentRequest"];
      route GET "/check-inatividade" "check_inatividade" ["BackgroundTasks"];
      route POST "/enviar-boleto" "enviar_boleto" ["PaymentRequest"];
      route POST "/zaia/reenviar-boleto" "zaia_reenviar_boleto" ["EmailRequest"];
      stray_change_billing_type answer;
      route POST "/trocar-assinatura-cartao" "trocar_assinatura_cartao" ["EmailRequest"];
      route POST "/trocar-assinatura-boleto" "trocar_assinatura_boleto" ["EmailRequest"];
      expr ["__name__"] ].

(** The routes the file declares. *)
Definition declared_routes : list (http_method * string) :=
  [ (POST, "/analisar-imagem"); (POST, "/explicacao-gramatica");
    (POST, "/habilitar-aluno"); (GET, "/check-inatividade");
    (POST, "/enviar-boleto"); (POST, "/zaia/reenviar-boleto");
    (POST, "/trocar-assinatura-cartao"); (POST, "/trocar-assinatura-boleto") ].

(** Importing the module succeeds and leaves every declared route on
    [app]. *)
Definition loads_fully (answer : outcome) : Prop :=
  exists st, main_py answer initial = (inr tt, st) /\ routes st = declared_routes.

End Loader.

(* ================================================================= *)
(** ** Remote platforms to run the program against *)

(** A remote that keeps no state: every request is answered by a fixed
    table. *)
Module Scripted.

Definition serve (answers : request -> outcome) (w : unit) (rq : request)
  : outcome * unit := (answers rq, w).

Definition start : state unit := mkState tt [] [] [].

(** A response with status [st] carrying the JSON value [v]. *)
Definition json_reply (st : Z) (v : value) : outcome :=
  Reply (mkResp st "" (Some v)).

(** A response with status [st] whose text is [t], not JSON. *)
Definition text_reply (st : Z) (t : string) : outcome :=
  Reply (mkResp st t None).

End Scripted.

(** A reference model of the part of the billing platform's REST interface
    that the program calls: customers and payments kept in the order of
    their creation, payments listed by the query parameters [customer],
    [status], [billingType] and [subscription], ordered by due date and cut
    by [offset] and [limit].  It belongs to the environment of the program,
    not to the program. *)
Module Asaas.

Record platform : Type := mkPlatform {
  customers : list value;
  payments : list value;
  counter : Z;               (* numbers the objects created *)
  current_date : string      (* the platform's date, as YYYY-MM-DD *)
}.

Definition field (o : value) (k : string) : value :=
  match Py.get o k VNone with inr v => v | inl _ => VNone end.

(** A list filter: an absent parameter constrains nothing. *)
Definition meets (ps : list (string * value)) (k : string) (o : value) : bool :=
  match Py.assoc k ps with
  | None => true
  | Some (VStr s) => eq_str (field o k) s
  | Some _ => false
  end.

Definition selected (ps : list (string * value)) (o : value) : bool :=
  meets ps "customer" o && meets ps "status" o
  && meets ps "billingType" o && meets ps "subscription" o.

Definition due_of (o : value) : string := Py.str (field o "dueDate").

Fixpoint insert_by_due (o : value) (l : list value) : list value :=
  match l with
  | [] => [o]
  | x :: r => if String.leb (due_of o) (due_of x) then o :: l else x :: insert_by_due o r
  end.

Fixpoint sort_by_due (l : list value) : list value :=
  match l with
  | [] => []
  | x :: r => insert_by_due x (sort_by_due r)
  end.

Definition nat_param (ps : list (string * value)) (k : string) (default : nat) : nat :=
  match Py.assoc k ps with
  | Some (VInt n) => Z.to_nat n
  | _ => default
  end.

Definition listing (ps : list (string * value)) (l : list value) : value :=
  let hits := filter (selected ps) l in
  let ordered := if eq_str (field (VDict ps) "sort") "dueDate"
                 then sort_by_due hits else hits in
  VDict [("object", VStr "list");
         ("data", VList (firstn (nat_param ps "limit" 10)
                           (skipn (nat_param ps "offset" 0) ordered)))].

(** The obligation a payment request creates: pending when it is not yet
    past due at the platform's date. *)
Definition new_payment (p : platform) (payload : value) : value :=
  let id := "pay_" ++ PyStr.of_Z (counter p) in
  VDict [ ("object", VStr "payment");
          ("id", VStr id);
          ("customer", field payload "customer");
          ("billingType", field payload "billingType");
          ("value", field payload "value");
          ("dueDate", field payload "dueDate");
          ("description", field payload "description");
          ("status", VStr (if String.leb (current_date p) (due_of payload)
                           then "PENDING" else "OVERDUE"));
          ("invoiceUrl", VStr ("https://www.asaas.com/i/" ++ id));
          ("bankSlipUrl", if eq_str (field payload "billingType") "BOLETO"
                          then VStr ("https://www.asaas.com/b/pdf/" ++ id)
                          else VNone) ].

Definition new_customer (p : platform) (payload : value) : value :=
  VDict [ ("object", VStr "customer");
          ("id", VStr ("cus_" ++ PyStr.of_Z (counter p)));
          ("name", field payload "name");
          ("email", field payload "email");
          ("mobilePhone", field payload "mobilePhone");
          ("cpfCnpj", field payload "cpfCnpj") ].

Definition has_email (email : value) (c : value) : bool :=
  match email with
  | VStr e => eq_str (field c "email") e
  | _ => false
  end.

Definition reply (st : Z) (v : value) : outcome := Reply (mkResp st "" (Some v)).

Definition not_found : outcome :=
  Reply (mkResp 404 "" (Some (VDict [("errors", VList [])]))).

Definition serve (settings : Settings) (p : platform) (rq : request)
  : outcome * platform :=
  if String.eqb (url rq) (payments_url settings) then
    match meth rq, json rq with
    | GET, _ => (reply 200 (listing (params rq) (payments p)), p)
    | POST, Some payload =>
        let ob := new_payment p payload in
        (reply 200 ob,
         mkPlatform (customers p) (payments p ++ [ob]) (counter p + 1) (current_date p))
    | _, _ => (not_found, p)
    end
  else if String.eqb (url rq) (customers_url settings) then
    match meth rq, json rq with
    | GET, _ =>
        let hits := match Py.assoc "email" (params rq) with
                    | Some e => filter (has_email e) (customers p)
                    | None => customers p
                    end in
        (reply 200 (VDict [("object", VStr "list"); ("data", VList hits)]), p)
    | POST, Some payload =>
        let c := new_customer p payload in
        (reply 200 c,
         mkPlatform (customers p ++ [c]) (payments p) (counter p + 1) (current_date p))
    | _, _ => (not_found, p)
    end
  else (not_found, p).

(** The payment [o] is a pending obligation of the customer [cid]. *)
Definition pending_of (cid : string) (o : value) : bool :=
  eq_str (field o "customer") cid && eq_str (field o "status") "PENDING".

Definition is_boleto (o : value) : bool := eq_str (field o "billingType") "BOLETO".

End Asaas.

(** Settings and clock readings used in the examples.  The addresses are
    the defaults of [Settings]; the keys stand for those of a deployment. *)
Definition example_settings : Settings :=
  mkSettings "https://partner-api.flexge.com/external" "flexge-key"
             "zaia-key" "https://api.zaia.app/v1.1/api" 34790
             "asaas-key" "https://api.asaas.com/v3".

Definition example_clock : Clock :=
  mkClock (DT.mkDT 2025 3 12 9 0 0 0 None) (DT.mkDT 2025 3 12 0 0 0 0 None)
          "1741770000.0".

(** A scripted remote for the examples: the enrollment platform serves
    the given pages of students, every other kind of call gets the answer
    set for it. *)
Module Script.

Record script : Type := mkScript {
  student_pages : list value;       (* the JSON of page 1, page 2, ... *)
  on_patch : outcome;
  on_customer_lookup : outcome;
  on_customer_creation : outcome;
  on_payment_creation : outcome;
  on_payment_listing : outcome;
  on_subscription_listing : outcome;
  on_subscription_update : outcome;
  on_zaia : outcome
}.

Definition no_more : outcome :=
  Scripted.json_reply 200 (VDict [("docs", VList [])]).

Fixpoint page_answer (base : string) (pages : list value) (n : Z) (u : string) : outcome :=
  match pages with
  | [] => no_more
  | p :: r =>
      if String.eqb u (base ++ "/students?page=" ++ PyStr.of_Z n)
      then Scripted.json_reply 200 p
      else page_answer base r (n + 1) u
  end.

Definition answers (st : Settings) (sc : script) (rq : request) : outcome :=
  let u := url rq in
  if String.eqb u (customers_url st) then
    match meth rq with GET => on_customer_lookup sc | _ => on_customer_creation sc end
  else if String.eqb u (payments_url st) then
    match meth rq with GET => on_payment_listing sc | _ => on_payment_creation sc end
  else if String.eqb u (subscriptions_url st) then on_subscription_listing sc
  else if String.prefix (subscriptions_url st ++ "/") u then on_subscription_update sc
  else if String.eqb u (zaia_url st) then on_zaia sc
  else match meth rq with
       | PATCH => on_patch sc
       | _ => page_answer (FLEXGE_API_BASE st) (student_pages sc) 1 u
       end.

Definition serve (st : Settings) (sc : script) : unit -> request -> outcome * unit :=
  Scripted.serve (answers st sc).

Definition ok_empty : outcome := Scripted.json_reply 200 (VDict []).

Definition no_data : outcome := Scripted.json_reply 200 (VDict [("data", VList [])]).

(** One page holding the students [l]. *)
Definition one_page (l : list value) : list value := [VDict [("docs", VList l)]].

Definition student (id email name phone : string) (last : value) : value :=
  VDict [ ("id", VStr id); ("email", VStr email); ("name", VStr name);
          ("phone", VStr phone); ("lastAccess", last) ].

End Script.

(* ================================================================= *)
(** ** Vocabulary of the properties *)

Section Observations.

Variable W : Type.

(** What one call does to the state. *)
Definition sent (s : state W) (rq : request) (w : W) : state W :=
  mkState w (trace s ++ [rq]) (log s) (tasks s).

(** What [print] does to the state. *)
Definition printed (s : state W) (lines : list string) : state W :=
  mkState (remote s) (trace s) (log s ++ lines) (tasks s).

(** Every call that [m] issues satisfies [Q]. *)
Definition calls {A} (Q : request -> Prop) (m : M W A) : Prop :=
  forall s, exists l, trace (snd (m s)) = (trace s ++ l)%list /\ Forall Q l.

(** [m] needs no fuel. *)
Definition total {A} (m : M W A) : Prop :=
  forall s, fst (m s) <> OutOfFuel.

End Observations.

Arguments calls {W A} Q m.
Arguments total {W A} m.

(** The three standings of the specification, from the whole days since
    the last access and the thresholds [w < d]. *)
Module Spec.

Inductive standing : Type := active | warned | disabled.

Definition classify (w d days : Z) : standing :=
  if d <=? days then disabled
  else if w <=? days then warned
  else active.

End Spec.

(** What Python raises on the difference of a naive and an aware
    [datetime]. *)
Definition subtract_error : exn :=
  TypeError "can't subtract offset-naive and offset-aware datetimes".

(** [needle in hay] *)
Fixpoint mentions (needle hay : string) : bool :=
  String.prefix needle hay
  || match hay with
     | EmptyString => false
     | String _ r => mentions needle r
     end.

(** The error [e] carries the status code and the body of the response
    [r]: both can be read in it. *)
Definition carries_remote_failure (e : exn) (r : response) : bool :=
  mentions (PyStr.of_Z (status_code r)) (str_exn e) && mentions (text r) (str_exn e).

(** The line [create_payment] prints on a response that is not a 200. *)
Definition erro_line (r : response) : string :=
  "[ERRO] Asaas POST /payments " ++ PyStr.of_Z (status_code r) ++ " - " ++ text r.

(** The notification call came back with a usable answer: a response
    outside the 4xx and 5xx statuses whose text is JSON. *)
Definition delivered (o : outcome) : bool :=
  match o with
  | Reply r =>
      negb ((400 <=? status_code r) && (status_code r <? 600))
      && match body r with Some _ => true | None => false end
  | NoReply _ => false
  end.

(** The answer of [enviar_boleto] on success. *)
Definition enviado (link : value) : value :=
  VDict [("status", VStr "enviado"); ("link", link)].

(** The lookup came back with a customer: status 200 and a non-empty
    [data]. *)
Definition finds (o : outcome) : bool :=
  match o with
  | Reply r =>
      (status_code r =? 200)
      && match body r with
         | Some data =>
             match Py.get data "data" VNone with
             | inr d => Py.truthy d
             | inl _ => false
             end
         | None => false
         end
  | NoReply _ => false
  end.




(** [raise_for_status] lets the response [r] pass. *)
Definition no_error (r : response) : Prop :=
  (400 <=? status_code r) && (status_code r <? 600) = false.

(** A call that only reads, or the creation of a customer. *)
Definition read_or_customer_creation (settings : Settings) (rq : request) : Prop :=
  meth rq = GET \/ exists payload, rq = customer_creation settings payload.

(** A call that only reads. *)
Definition is_read (rq : request) : bool :=
  match meth rq with GET => true | _ => false end.

(* ================================================================= *)
(** ** Scenarios *)

(** Ana last entered eleven days before the clock of the examples
    (2025-03-12 09:00 UTC); the enrollment platform writes the instant in
    UTC with the [Z] suffix. *)
Definition ana_utc : value :=
  Script.student "s1" "ana@x.com" "Ana Souza" "+55 11 91234-5678"
                 (VStr "2025-03-01T08:00:00.000Z").

(** The same instant written without a zone. *)
Definition ana_naive : value :=
  Script.student "s1" "ana@x.com" "Ana Souza" "+55 11 91234-5678"
                 (VStr "2025-03-01T08:00:00.000").

(** Bob last entered nine days before, written without a zone. *)
Definition bob_naive : value :=
  Script.student "s2" "bob@x.com" "Bob Lima" ""
                 (VStr "2025-03-03T08:00:00").

(** An enrollment platform listing [students] on one page. *)
Definition enrollment_of (students : list value) : Script.script :=
  Script.mkScript (Script.one_page students)
    Script.ok_empty Script.no_data Script.ok_empty Script.ok_empty
    Script.no_data Script.no_data Script.ok_empty Script.ok_empty.

(** The inactivity scan over [students]. *)
Definition scan (students : list value) : result value * state unit :=
  check_inatividade unit (Script.serve example_settings (enrollment_of students))
    example_settings example_clock 5 Scripted.start.

(** The billing platform knows Ana as customer [cus_1]. *)
Definition ana_customer : outcome :=
  Scripted.json_reply 200 (VDict [("data", VList [VDict [("id", VStr "cus_1")]])]).

(** A refusal of the billing platform. *)
Definition refusal : response := mkResp 400 "invalid dueDate" None.

(** Ana is enrolled and known to the billing platform, which refuses the
    creation of payments. *)
Definition refusing_billing : Script.script :=
  Script.mkScript (Script.one_page [ana_naive])
    Script.ok_empty ana_customer Script.ok_empty (Reply refusal)
    Script.no_data Script.no_data Script.ok_empty Script.ok_empty.

(** A due date after the clock of the examples. *)
Definition first_of_april : DT.datetime := DT.mkDT 2025 4 1 0 0 0 0 None.

(** The answer of the billing platform to a created boleto. *)
Definition boleto_created : outcome :=
  Scripted.json_reply 200
    (VDict [ ("id", VStr "pay_1"); ("status", VStr "PENDING");
             ("bankSlipUrl", VStr "https://www.asaas.com/b/pdf/pay_1");
             ("invoiceUrl", VStr "https://www.asaas.com/i/pay_1") ]).

(** Ana is enrolled and known to the billing platform, which creates the
    payment; the messaging platform answers with [zaia]. *)
Definition issuing (zaia : outcome) : Script.script :=
  Script.mkScript (Script.one_page [ana_naive])
    Script.ok_empty ana_customer Script.ok_empty boleto_created
    Script.no_data Script.no_data Script.ok_empty zaia.

(** The messaging platform is down. *)
Definition zaia_down : outcome := Scripted.text_reply 503 "Service Unavailable".

(** A boleto of 150.00 due on 2025-04-01 is issued to Ana. *)
Definition issue_to_ana (zaia : outcome) : result value * state unit :=
  enviar_boleto unit (Script.serve example_settings (issuing zaia))
    example_settings example_clock 5 "ana@x.com" 15000 "2025-04-01" Scripted.start.

(** Ana is enrolled; the billing platform has no customer for her email
    yet, creates one on request, and lists what it is given. *)
Definition unknown_to_billing (subscriptions pending : outcome) : Script.script :=
  Script.mkScript (Script.one_page [ana_naive])
    Script.ok_empty Script.no_data
    (Scripted.json_reply 200 (VDict [("id", VStr "cus_9")]))
    boleto_created pending subscriptions Script.ok_empty Script.ok_empty.

(** The pending charge of Ana is asked for. *)
Definition resend_to_ana (subscriptions pending : outcome) : result value * state unit :=
  zaia_reenviar_boleto unit
    (Script.serve example_settings (unknown_to_billing subscriptions pending))
    example_settings "ana@x.com" Scripted.start.


(** A listing of subscriptions, the second of which is active. *)
Definition one_active_subscription : outcome :=
  Scripted.json_reply 200
    (VDict [("data", VList [ VDict [("id", VStr "sub_0"); ("status", VStr "INACTIVE")];
                             VDict [("id", VStr "sub_1"); ("status", VStr "ACTIVE")] ])]).

(** A listing of one pending payment. *)
Definition one_pending_payment : outcome :=
  Scripted.json_reply 200
    (VDict [("data", VList [ VDict [ ("id", VStr "pay_7"); ("dueDate", VStr "2025-04-10");
                                     ("value", VFloat 15000);
                                     ("invoiceUrl", VStr "https://www.asaas.com/i/pay_7") ] ])]).

(** Ana is enrolled, the billing platform has no customer for her and no
    subscription. *)
Definition switch_for_ana : result value * state unit :=
  trocar_assinatura_cartao unit
    (Script.serve example_settings (unknown_to_billing Script.no_data Script.no_data))
    example_settings example_clock 5 "ana@x.com" Scripted.start.

(** A payment as the billing platform stores it. *)
Definition payment_of (id customer billing status due : string) : value :=
  VDict [ ("id", VStr id); ("customer", VStr customer); ("billingType", VStr billing);
          ("status", VStr status); ("dueDate", VStr due) ].

(** A billing state on 2025-03-12: customer [cus_1] has paid a boleto,
    customer [cus_2] has one pending. *)
Definition settled_platform : Asaas.platform :=
  Asaas.mkPlatform
    [ VDict [("id", VStr "cus_1"); ("email", VStr "ana@x.com")];
      VDict [("id", VStr "cus_2"); ("email", VStr "bob@x.com")] ]
    [ payment_of "pay_1" "cus_1" "BOLETO" "RECEIVED" "2025-03-05";
      payment_of "pay_2" "cus_2" "BOLETO" "PENDING" "2025-03-20" ]
    3 "2025-03-12".

(** A billing state where [cus_1] has pending payments, by card and of
    undefined billing type. *)
Definition card_platform : Asaas.platform :=
  Asaas.mkPlatform
    [ VDict [("id", VStr "cus_1"); ("email", VStr "ana@x.com")] ]
    [ payment_of "pay_1" "cus_1" "CREDIT_CARD" "PENDING" "2025-03-20";
      payment_of "pay_2" "cus_1" "UNDEFINED" "PENDING" "2025-03-25" ]
    3 "2025-03-12".

(** The start of a run against the billing state [p]. *)
Definition on_platform (p : Asaas.platform) : state Asaas.platform :=
  mkState p [] [] [].

(* ================================================================= *)
(** ** Further functions of the file *)

(** *** File names *)

(** [Settings.ALLOWED_EXTENSIONS] and [Settings.MAX_FILE_SIZE] *)
Definition ALLOWED_EXTENSIONS : list string := ["png"; "jpg"; "jpeg"; "gif"].

Definition MAX_FILE_SIZE : Z := 5 * 1024 * 1024.

(** [s.rsplit(".", 1)[1]] when [s] holds a dot: the text after the last
    dot. *)
Fixpoint after_last_dot (s : string) : option string :=
  match s with
  | EmptyString => None
  | String c r =>
      match after_last_dot r with
      | Some e => Some e
      | None => if Ascii.eqb c "."%char then Some r else None
      end
  end.

(** [x in ALLOWED_EXTENSIONS] *)
Definition is_allowed_extension (x : string) : bool :=
  existsb (String.eqb x) ALLOWED_EXTENSIONS.

Definition allowed_file (filename : string) : bool :=
  match after_last_dot filename with
  | None => false
  | Some ext => is_allowed_extension (PyStr.lower ext)
  end.

(** [s.endswith(e)] *)
Definition endswith (s e : string) : bool :=
  Nat.leb (String.length e) (String.length s)
  && String.eqb (substring (String.length s - String.length e) (String.length e) s) e.

(** The test of the upload route:
    [any(filename.lower().endswith(ext) for ext in ALLOWED_EXTENSIONS)]. *)
Definition has_allowed_ending (filename : string) : bool :=
  existsb (endswith (PyStr.lower filename)) ALLOWED_EXTENSIONS.

(** *** The JSON object inside the text of the generative model *)

(** The text from the first opening brace on. *)
Fixpoint from_first_open (s : string) : option string :=
  match s with
  | EmptyString => None
  | String c r => if Ascii.eqb c "{"%char then Some s else from_first_open r
  end.

(** The text up to the last closing brace. *)
Fixpoint upto_last_close (s : string) : option string :=
  match s with
  | EmptyString => None
  | String c r =>
      match upto_last_close r with
      | Some t => Some (String c t)
      | None => if Ascii.eqb c "}"%char then Some (String c "") else None
      end
  end.

(** [re.search(r'{.*}', raw, re.DOTALL)]: the leftmost match starts at the
    first opening brace that a closing brace follows, and is greedy. *)
Definition search_braces (raw : string) : option string :=
  match from_first_open raw with
  | None => None
  | Some t => upto_last_close t
  end.

(** [k in v] *)
Definition contains (k : string) (v : value) : exn + bool :=
  match v with
  | VDict d => inr (match Py.assoc k d with Some _ => true | None => false end)
  | VList l => inr (existsb (fun x => eq_str x k) l)
  | VStr s => inr (mentions k s)
  | _ => inl (TypeError "argument is not iterable")
  end.

Definition dq : string := String (ascii_of_nat 34) "".

(** The instruction sent along with the image. *)
Definition image_prompt : string :=
  "Analise esta imagem e responda apenas em JSON puro com a seguinte estrutura:" ++ nl
  ++ "{" ++ nl
  ++ "  " ++ dq ++ "categoria" ++ dq ++ ": " ++ dq ++ "1" ++ dq ++ "," ++ nl
  ++ "  " ++ dq ++ "descricao" ++ dq ++ ": " ++ dq ++ "texto explicando o que é" ++ dq ++ "," ++ nl
  ++ "  " ++ dq ++ "acoes" ++ dq ++ ": [" ++ dq ++ "ação sugerida 1" ++ dq ++ ", "
  ++ dq ++ "ação sugerida 2" ++ dq ++ "]" ++ nl
  ++ "}" ++ nl
  ++ "Categorias:" ++ nl
  ++ "1. Comprovante de pagamento" ++ nl
  ++ "2. Print Flexge" ++ nl
  ++ "3. Print Notion/App" ++ nl
  ++ "4. Outros".

Definition image_messages (image_base64 : string) : value :=
  VList [ VDict [ ("role", VStr "user");
                  ("content",
                   VList [ VDict [("type", VStr "text"); ("text", VStr image_prompt)];
                           VDict [ ("type", VStr "image_url");
                                   ("image_url",
                                    VDict [ ("url", VStr ("data:image/jpeg;base64,"
                                                          ++ image_base64));
                                            ("detail", VStr "high") ]) ] ]) ] ].

Section Upload.

Variable W : Type.

(** The collaborators of the upload route that lie outside the file:
    [client.chat.completions.create(model="gpt-4o", messages=..., max_tokens=600)]
    followed by [.choices[0].message.content], which answers with the
    content or raises and may change the remote state; [json.loads]; and
    the decoding and scaling of the image by PIL, [resize_image] (lines
    277-283), a function of the bytes. *)
Variable chat : W -> value -> (exn + value) * W.
Variable json_loads : string -> exn + value.
Variable resize_image : string -> exn + string.

Definition chat_completion (messages : value) : M W value :=
  fun st =>
    let '(r, w) := chat (remote st) messages in
    (match r with inr v => Val v | inl e => Exc e end,
     mkState w (trace st) (log st) (tasks st)).

Definition analyze_image_with_gpt4 (image_base64 : string) : M W value :=
  content <- chat_completion (image_messages image_base64) ;;
  text <- lift (Py.as_str content) ;;
  match search_braces (PyStr.strip text) with
  | Some found => lift (json_loads found)
  | None => ret (VDict [("error", VStr "JSON não encontrado")])
  end.

(** POST /analisar-imagem, on the name and the bytes of the upload. *)
Definition analisar_imagem (filename contents : string) : M W value :=
  try_except
    (if negb (has_allowed_ending filename)
     then raise (HTTPException 400 "Formato não suportado")
     else if MAX_FILE_SIZE <? Z.of_nat (String.length contents)
     then raise (HTTPException 400 "Arquivo excede 5MB")
     else
       image_base64 <- lift (resize_image contents) ;;
       analysis <- analyze_image_with_gpt4 image_base64 ;;
       failed <- lift (contains "error" analysis) ;;
       if (failed : bool) then
         detail <- lift (Py.getitem analysis "error") ;;
         raise (HTTPException 500 (Py.str detail))
       else
         categoria <- lift (Py.getitem analysis "categoria") ;;
         if eq_str categoria "2" then
           ret (VDict [ ("resposta",
                         VStr "📸 Print do Flexge detectado! Analisando desempenho...");
                        ("proximo_passo", VStr "/explicacao-gramatica");
                        ("detalhes", analysis) ])
         else
           ret (VDict [ ("resposta", VStr "✅ Imagem processada com sucesso!");
                        ("detalhes", analysis) ]))
    (fun e => raise (HTTPException 500 (str_exn e))).

End Upload.

Section Enrollment.

Variable W : Type.
Variable serve : W -> request -> outcome * W.
Variable settings : Settings.
Variable clock : Clock.

(** The request of [get_students] for one page. *)
Definition students_page (page : Z) : request :=
  mkReq GET (FLEXGE_API_BASE settings ++ "/students?page=" ++ PyStr.of_Z page)
        (generate_headers settings clock) [] None (Some 10).

(** The request of [patch_student_action]. *)
Definition student_action (student_id : value) (action : string) : request :=
  mkReq PATCH (FLEXGE_API_BASE settings ++ "/students/" ++ action)
        (generate_headers settings clock) []
        (Some (VDict [("students", VList [student_id])])) (Some 10).

Definition buscar_erros_gramatica (aluno_id : value) : M W value :=
  let url := FLEXGE_API_BASE settings ++ "/students/" ++ Py.str aluno_id
             ++ "/studied-grammars?page=1" in
  resp <- requests serve (mkReq GET url (generate_headers settings clock) [] None (Some 10)) ;;
  if status_code resp =? 200 then resp_json resp else ret VNone.

(** POST /habilitar-aluno *)
Definition habilitar_aluno (fuel : nat) (email : string) : M W value :=
  try_except
    (print ("[DEBUG] E-mail recebido: " ++ email) ;;
     aluno <- buscar_aluno_por_email W serve settings clock fuel email ;;
     if negb (Py.truthy aluno) then
       print ("[ERRO] Aluno não encontrado: " ++ email) ;;
       raise (HTTPException 404 "Aluno não encontrado")
     else
       id <- lift (Py.getitem aluno "id") ;;
       print ("[AÇÃO] Habilitando aluno: " ++ Py.str id) ;;
       id' <- lift (Py.getitem aluno "id") ;;
       resp <- patch_student_action W serve settings clock id' "enable" ;;
       if status_code resp =? 200
       then ret (VDict [("status", VStr "Aluno habilitado com sucesso")])
       else
         print ("[ERRO Flexge] " ++ text resp) ;;
         raise (HTTPException 400 (text resp)))
    (fun e =>
       print ("[ERRO GERAL] " ++ str_exn e) ;;
       raise (HTTPException 500 (str_exn e))).

(** The listing of the active subscriptions of a customer, as
    [listar_cobrancas_assinatura] asks for it. *)
Definition active_listing (cid : value) : request :=
  mkReq GET (subscriptions_url settings) (asaas_headers settings)
        [("customer", cid); ("status", VStr "ACTIVE")] None (Some 10).

(** The listing of the payments of a subscription. *)
Definition subscription_payments (sub_id : value) : request :=
  mkReq GET (subscriptions_url settings ++ "/" ++ Py.str sub_id ++ "/payments")
        (asaas_headers settings) [] None (Some 10).

Definition listar_cobrancas_assinatura (fuel : nat) (email : string) : M W value :=
  aluno <- buscar_aluno_por_email W serve settings clock fuel email ;;
  if negb (Py.truthy aluno) then ret (erro "Aluno não encontrado")
  else
    cid <- get_or_create_customer W serve settings aluno ;;
    r <- requests serve (active_listing cid) ;;
    assinatura <- resp_json r ;;
    d <- lift (Py.get assinatura "data" VNone) ;;
    if negb (Py.truthy d) then ret (erro "Nenhuma assinatura ativa")
    else
      d' <- lift (Py.getitem assinatura "data") ;;
      s <- lift (Py.first d') ;;
      sub_id <- lift (Py.getitem s "id") ;;
      r' <- requests serve (subscription_payments sub_id) ;;
      resp_json r'.

End Enrollment.

(** *** Vocabulary of the further properties *)

(** The requests for [n] consecutive pages of students, from [page] on. *)
Definition pages_from (settings : Settings) (clock : Clock) (page : Z) (n : nat)
  : list request :=
  map (fun i => students_page settings clock (page + Z.of_nat i)) (seq 0 n).

(** A call that changes a student. *)
Definition is_patch (rq : request) : bool :=
  match meth rq with PATCH => true | _ => false end.

(** The calls of the inactivity scan: the listing of a page and the
    disabling of a student. *)
Definition scan_call (settings : Settings) (clock : Clock) (rq : request) : Prop :=
  (exists page, rq = students_page settings clock page)
  \/ (exists id, rq = student_action settings clock id "disable").

(** A text of digits only. *)
Definition all_digits (s : string) : bool := forallb PyStr.is_digit (DT.chars s).

(** What the resolver may send as phone or tax number: nothing, or
    between one and [n] digits. *)
Definition digits_or_none (n : nat) (v : value) : Prop :=
  v = VNone
  \/ exists d, v = VStr d /\ d <> "" /\ all_digits d = true
               /\ (String.length d <= n)%nat.

(** The enrollment, billing and messaging platforms all answer 503. *)
Definition outage : request -> outcome :=
  fun _ => Scripted.text_reply 503 "Service Unavailable".

(** From the counters [c] and the state [s] to the counters [c'] and the
    state [s'], the scan issued only its own calls, and the counters grew by
    the number of disable calls issued and of warning tasks added. *)
Definition accounted {W : Type} (settings : Settings) (clock : Clock)
           (c : Z * Z) (s : state W) (c' : Z * Z) (s' : state W) : Prop :=
  exists l ts,
    trace s' = (trace s ++ l)%list
    /\ tasks s' = (tasks s ++ ts)%list
    /\ Forall (scan_call settings clock) l
    /\ fst c' = fst c + Z.of_nat (List.length (filter is_patch l))
    /\ snd c' = snd c + Z.of_nat (List.length ts).

(** The billing platform knows no customer and refuses to create one. *)
Definition closed_billing : Script.script :=
  Script.mkScript (Script.one_page [ana_naive])
    Script.ok_empty Script.no_data (Scripted.text_reply 422 "invalid cpfCnpj")
    Script.ok_empty Script.no_data Script.no_data Script.ok_empty Script.ok_empty.

(** Ana's only subscription, active. *)
Definition ana_subscription : value :=
  VDict [("id", VStr "sub_1"); ("status", VStr "ACTIVE"); ("billingType", VStr "BOLETO")].

(** The subscription after the switch to card, as the billing platform
    answers the update. *)
Definition switched_subscription : value :=
  VDict [("id", VStr "sub_1"); ("status", VStr "ACTIVE");
         ("billingType", VStr "CREDIT_CARD"); ("nextDueDate", VStr "2025-03-12")].

(** Ana is enrolled, known to the billing platform and holds one active
    subscription, which the platform updates on request. *)
Definition switching : Script.script :=
  Script.mkScript (Script.one_page [ana_naive])
    Script.ok_empty ana_customer Script.ok_empty Script.ok_empty Script.no_data
    (Scripted.json_reply 200 (VDict [("data", VList [ana_subscription])]))
    (Scripted.json_reply 200 switched_subscription) Script.ok_empty.

(** The body of the billing platform's refusal of an invalid access token. *)
Definition invalid_token : value :=
  VDict [("errors", VList [VDict [("code", VStr "invalid_access_token")]])].

(** Ana is enrolled and known to the billing platform, which refuses to
    list subscriptions. *)
Definition unauthorized_listing : Script.script :=
  Script.mkScript (Script.one_page [ana_naive])
    Script.ok_empty ana_customer Script.ok_empty Script.ok_empty Script.no_data
    (Scripted.json_reply 401 invalid_token) Script.ok_empty Script.ok_empty.

(** A deployment without a key for the messaging platform. *)
Definition unconfigured_settings : Settings :=
  mkSettings "https://partner-api.flexge.com/external" "flexge-key"
             "" "https://api.zaia.app/v1.1/api" 34790
             "asaas-key" "https://api.asaas.com/v3".

(** Cy is enrolled with a phone and a blank name. *)
Definition cy_nameless : value :=
  Script.student "s3" "cy@x.com" "  " "+55 11 98888-7777" VNone.

(** Cy is enrolled and known to the billing platform, which creates the
    payment. *)
Definition issuing_to_cy : Script.script :=
  Script.mkScript (Script.one_page [cy_nameless])
    Script.ok_empty ana_customer Script.ok_empty boleto_created
    Script.no_data Script.no_data Script.ok_empty Script.ok_empty.

(** The reference billing platform behind a rate limit: it refuses the
    next [n] requests with status 429 and leaves its state as it is, then
    serves as usual. *)
Definition throttled (settings : Settings) (st : nat * Asaas.platform) (rq : request)
  : outcome * (nat * Asaas.platform) :=
  match fst st with
  | S n => (Scripted.text_reply 429 "Too Many Requests", (n, snd st))
  | O => let '(o, p) := Asaas.serve settings (snd st) rq in (o, (O, p))
  end.

(** The ids of the customers that the billing state [p] holds under
    [email]. *)
Definition customers_under (email : string) (p : Asaas.platform) : list value :=
  map (fun c => Asaas.field c "id")
      (filter (Asaas.has_email (VStr email)) (Asaas.customers p)).

(** Ana is enrolled; the enrollment platform refuses every change of a
    student. *)
Definition locked_enrollment : Script.script :=
  Script.mkScript (Script.one_page [ana_naive])
    (Scripted.text_reply 403 "Forbidden") Script.no_data Script.ok_empty Script.ok_empty
    Script.no_data Script.no_data Script.ok_empty Script.ok_empty.

(** The answer of the enable route to a student it enabled. *)
Definition habilitado : value :=
  VDict [("status", VStr "Aluno habilitado com sucesso")].

(* ================================================================= *)
(** * Properties *)

(** ** Strings and timestamps *)

Example lower_ex : PyStr.lower "Ana@X.com" = "ana@x.com".
Proof. reflexivity. Qed.

Example strip_ex : PyStr.strip "  ana maria " = "ana maria".
Proof. reflexivity. Qed.

Example split_first_ex : PyStr.split_first " Ana Maria" = Some "Ana".
Proof. reflexivity. Qed.

Example split_first_blank : PyStr.split_first "   " = None.
Proof. reflexivity. Qed.

Example digits_only_ex : PyStr.digits_only "+55 (11) 91234-5678" = "5511912345678".
Proof. reflexivity. Qed.

Example last_n_ex : PyStr.last_n 11 "5511912345678" = "11912345678".
Proof. reflexivity. Qed.

Example last_n_short : PyStr.last_n 11 "123" = "123".
Proof. reflexivity. Qed.

Example replace_Z_ex :
  PyStr.replace_Z "2025-01-01T00:00:00Z" = "2025-01-01T00:00:00+00:00".
Proof. reflexivity. Qed.

Example of_Z_ex : PyStr.of_Z 404 = "404" /\ PyStr.of_Z 0 = "0" /\ PyStr.of_Z (-7) = "-7".
Proof. repeat split; reflexivity. Qed.

Example zfill_ex : PyStr.zfill 2 3 = "03" /\ PyStr.zfill 4 2025 = "2025".
Proof. split; reflexivity. Qed.

Example toordinal_ex :
  DT.toordinal (DT.mkDT 2025 3 1 0 0 0 0 None) = 739311.
Proof. reflexivity. Qed.

Example fromisoformat_naive :
  DT.fromisoformat "2025-03-01T12:30:00" = inr (DT.mkDT 2025 3 1 12 30 0 0 None).
Proof. reflexivity. Qed.

Example fromisoformat_utc :
  DT.fromisoformat (PyStr.replace_Z "2025-03-01T12:30:00.250Z")
  = inr (DT.mkDT 2025 3 1 12 30 0 250000 (Some 0)).
Proof. reflexivity. Qed.

Example fromisoformat_bad :
  DT.fromisoformat "yesterday" = inl (DT.invalid "yesterday").
Proof. reflexivity. Qed.

Example days_floor :
  DT.days (- 1) = -1 /\ DT.days (10 * DT.us_per_day - 1) = 9.
Proof. split; reflexivity. Qed.

Example strftime_ex :
  DT.strftime_ymd (DT.mkDT 2025 3 1 0 0 0 0 None) = "2025-03-01".
Proof. reflexivity. Qed.

(** ** Stepping through the effect monad *)

Section Laws.

Variable W : Type.
Variable serve : W -> request -> outcome * W.

Lemma bind_Val {A B} (m : M W A) (k : A -> M W B) s a s' :
  m s = (Val a, s') -> bind m k s = k a s'.
Proof. intros H; unfold bind; rewrite H; reflexivity. Qed.

Lemma bind_Exc {A B} (m : M W A) (k : A -> M W B) s e s' :
  m s = (Exc e, s') -> bind m k s = (Exc e, s').
Proof. intros H; unfold bind; rewrite H; reflexivity. Qed.

Lemma try_Val {A} (m : M W A) h s a s' :
  m s = (Val a, s') -> try_except m h s = (Val a, s').
Proof. intros H; unfold try_except; rewrite H; reflexivity. Qed.

Lemma try_Exc {A} (m : M W A) h s e s' :
  m s = (Exc e, s') -> try_except m h s = h e s'.
Proof. intros H; unfold try_except; rewrite H; reflexivity. Qed.

Lemma lift_inr {A} (a : A) (s : state W) : lift (inr a) s = (Val a, s).
Proof. reflexivity. Qed.

Lemma lift_inl {A} (e : exn) (s : state W) : @lift W A (inl e) s = (Exc e, s).
Proof. reflexivity. Qed.

Lemma requests_Reply rq s r w :
  serve (remote s) rq = (Reply r, w) ->
  requests serve rq s = (Val r, sent W s rq w).
Proof. intros H; unfold requests; rewrite H; reflexivity. Qed.

Lemma requests_NoReply rq s msg w :
  serve (remote s) rq = (NoReply msg, w) ->
  requests serve rq s = (Exc (RequestException msg), sent W s rq w).
Proof. intros H; unfold requests; rewrite H; reflexivity. Qed.

End Laws.

(** Unfolds the combinators of the monad and computes what is decided. *)
Ltac run :=
  cbv beta iota zeta delta
      [bind lift ret raise diverge try_except print add_task resp_json
       raise_for_status negb].

(** ** Loading the module *)

(** C1.  Importing [main.py] does not succeed: evaluating its statements
    top to bottom raises [NameError] for [sub_id] inside the module-level
    [try] block, whatever the remote call of that block would have answered;
    the [except] clause does not catch it, six routes are registered at that
    point and the two billing-type routes never are. *)
Theorem main_py_raises_NameError :
  forall answer : outcome,
    (exists st,
        Loader.main_py answer Loader.initial = (inl (NameError "sub_id"), st)
        /\ Loader.routes st = firstn 6 Loader.declared_routes
        /\ ~ In (POST, "/trocar-assinatura-cartao") (Loader.routes st)
        /\ ~ In (POST, "/trocar-assinatura-boleto") (Loader.routes st))
    /\ ~ Loader.loads_fully answer.
Proof.
  intros answer.
  assert (E : exists st,
             Loader.main_py answer Loader.initial = (inl (NameError "sub_id"), st)
             /\ Loader.routes st = firstn 6 Loader.declared_routes).
  { eexists; split; [ vm_compute; reflexivity | reflexivity ]. }
  destruct E as [st [E R]].
  split.
  - exists st. repeat split; trivial; rewrite R; simpl;
      intros H; repeat (destruct H as [H | H]; [ discriminate H | ]); exact H.
  - intros [st' [E' _]]. rewrite E in E'. discriminate E'.
Qed.

(** With [sub_id] bound and the remote call answered, the same statements
    register all eight routes. *)
Example main_py_with_sub_id_bound :
  exists st,
    Loader.main_py (Scripted.json_reply 200 (VDict []))
      (Loader.mkM ("sub_id" :: Loader.builtins) []) = (inr tt, st)
    /\ Loader.routes st = Loader.declared_routes.
Proof. eexists; split; [ vm_compute; reflexivity | reflexivity ]. Qed.

(** ** The inactivity scan *)

Section Scan.

Variable W : Type.
Variable serve : W -> request -> outcome * W.
Variable settings : Settings.
Variable clock : Clock.

Local Abbreviation visit := (visit_aluno W serve settings clock).
Local Abbreviation disable_call id :=
  (mkReq PATCH (FLEXGE_API_BASE settings ++ "/students/" ++ "disable")
         (generate_headers settings clock) []
         (Some (VDict [("students", VList [id])])) (Some 10)).

(** A student without [lastAccess] (absent, null or empty) is skipped. *)
Lemma visit_aluno_skips hoje aluno last counts s :
  Py.get aluno "lastAccess" VNone = inr last ->
  Py.truthy last = false ->
  visit hoje aluno counts s = (Val counts, s).
Proof.
  intros G T. unfold visit_aluno. run. rewrite G. run. rewrite T. reflexivity.
Qed.

Lemma dias_of_naive hoje txt t :
  DT.tzinfo hoje = None ->
  DT.fromisoformat (PyStr.replace_Z txt) = inr t ->
  DT.tzinfo t = None ->
  dias_sem_acesso hoje (VStr txt) = inr (DT.days (DT.wall_us hoje - DT.wall_us t)).
Proof.
  intros Hh P Ht. unfold dias_sem_acesso, DT.sub. simpl. rewrite P, Hh, Ht. reflexivity.
Qed.

Lemma dias_of_aware hoje txt t o :
  DT.tzinfo hoje = None ->
  DT.fromisoformat (PyStr.replace_Z txt) = inr t ->
  DT.tzinfo t = Some o ->
  dias_sem_acesso hoje (VStr txt) = inl subtract_error.
Proof.
  intros Hh P Ht. unfold dias_sem_acesso, DT.sub. simpl. rewrite P, Hh, Ht. reflexivity.
Qed.

(** On a last access read as a naive timestamp the loop body acts by the
    thresholds 8 and 10: at 10 whole days or more it issues the disable
    call and adds no task, from 8 to 9 it adds the warning task and issues
    no call, below 8 it does nothing. *)
Lemma visit_aluno_classifies hoje aluno txt t id email name counts s :
  DT.tzinfo hoje = None ->
  Py.get aluno "lastAccess" VNone = inr (VStr txt) ->
  txt <> "" ->
  DT.fromisoformat (PyStr.replace_Z txt) = inr t ->
  DT.tzinfo t = None ->
  Py.getitem aluno "id" = inr id ->
  Py.getitem aluno "email" = inr email ->
  first_name aluno = inr name ->
  let dias := DT.days (DT.wall_us hoje - DT.wall_us t) in
  match Spec.classify 8 10 dias with
  | Spec.disabled =>
      let '(o, w) := serve (remote s) (disable_call id) in
      visit hoje aluno counts s
      = (match o with
         | Reply _ => Val (fst counts + 1, snd counts)
         | NoReply msg => Exc (RequestException msg)
         end,
         mkState w (trace s ++ [disable_call id]) (log s) (tasks s))
  | Spec.warned =>
      visit hoje aluno counts s
      = (Val (fst counts, snd counts + 1),
         mkState (remote s) (trace s) (log s)
                 (tasks s ++ [send_inactivity_email email name]))
  | Spec.active => visit hoje aluno counts s = (Val counts, s)
  end.
Proof.
  intros Hh G Ne P Ht Gid Gem Gnm dias.
  assert (T : Py.truthy (VStr txt) = true).
  { simpl. destruct (String.eqb_spec txt ""); [ contradiction | reflexivity ]. }
  pose proof (dias_of_naive hoje txt t Hh P Ht) as D. fold dias in D.
  unfold Spec.classify.
  destruct (10 <=? dias) eqn:E10; [ | destruct (8 <=? dias) eqn:E8 ].
  - destruct (serve (remote s) (disable_call id)) as [o w] eqn:Sv.
    unfold visit_aluno. run. rewrite G. run. rewrite T. run.
    rewrite D. run.
    replace (dias >=? 10) with true by (rewrite Z.geb_leb; symmetry; exact E10).
    rewrite Gid. run.
    unfold patch_student_action, requests. run. rewrite Sv.
    destruct o; reflexivity.
  - unfold visit_aluno. run. rewrite G. run. rewrite T. run.
    rewrite D. run.
    replace (dias >=? 10) with false by (rewrite Z.geb_leb; symmetry; exact E10).
    replace (dias >=? 8) with true by (rewrite Z.geb_leb; symmetry; exact E8).
    rewrite Gem, Gnm. reflexivity.
  - unfold visit_aluno. run. rewrite G. run. rewrite T. run.
    rewrite D. run.
    replace (dias >=? 10) with false by (rewrite Z.geb_leb; symmetry; exact E10).
    replace (dias >=? 8) with false by (rewrite Z.geb_leb; symmetry; exact E8).
    reflexivity.
Qed.

(** On a last access read as an aware timestamp (one written with [Z] or
    with an offset) the subtraction from the naive [utcnow()] raises: the
    loop body neither disables nor warns. *)
Lemma visit_aluno_aware hoje aluno txt t o counts s :
  DT.tzinfo hoje = None ->
  Py.get aluno "lastAccess" VNone = inr (VStr txt) ->
  txt <> "" ->
  DT.fromisoformat (PyStr.replace_Z txt) = inr t ->
  DT.tzinfo t = Some o ->
  visit hoje aluno counts s = (Exc subtract_error, s).
Proof.
  intros Hh G Ne P Ht.
  assert (T : Py.truthy (VStr txt) = true).
  { simpl. destruct (String.eqb_spec txt ""); [ contradiction | reflexivity ]. }
  unfold visit_aluno. run. rewrite G. run. rewrite T. run.
  rewrite (dias_of_aware hoje txt t o Hh P Ht). reflexivity.
Qed.

End Scan.

(** C2.  A student whose [lastAccess] is eleven days old and written as a
    UTC instant is not classified: the scan fails with status 500 on the
    subtraction of an aware from a naive timestamp, having issued the
    listing of page 1 only, no disable call and no warning task. *)
Theorem check_inatividade_fails_on_utc_timestamp :
  exists st,
    scan [ana_utc] = (Exc (HTTPException 500 (str_exn subtract_error)), st)
    /\ map meth (trace st) = [GET]
    /\ tasks st = [].
Proof. eexists. split; [ vm_compute; reflexivity | split; reflexivity ]. Qed.

(** The scan on timestamps written without a zone: Ana is disabled, Bob
    is warned, and the walk ends on the empty page 2. *)
Example scan_of_naive_timestamps :
  exists st,
    scan [ana_naive; bob_naive]
    = (Val (VDict [("bloqueados", VInt 1); ("avisados", VInt 1)]), st)
    /\ map meth (trace st) = [GET; PATCH; GET]
    /\ tasks st = [send_inactivity_email (VStr "bob@x.com") "Bob"].
Proof. eexists. split; [ vm_compute; reflexivity | split; reflexivity ]. Qed.

(** ** Creating a payment *)

Section Payment.

Variable W : Type.
Variable serve : W -> request -> outcome * W.
Variable settings : Settings.
Variable clock : Clock.

Local Abbreviation charge := (create_payment W serve settings).
Local Abbreviation issue := (enviar_boleto W serve settings clock).
Local Abbreviation buscar := (buscar_aluno_por_email W serve settings clock).
Local Abbreviation resolve := (get_or_create_customer W serve settings).
Local Abbreviation creation cid valor due desc :=
  (payment_creation settings (payment_payload cid valor due desc)).

(** What [create_payment] does when the remote call does not come back
    with status 200. *)
Lemma create_payment_not_ok cid valor due desc s o w :
  serve (remote s) (creation cid valor due desc) = (o, w) ->
  (forall r, o = Reply r -> status_code r <> 200) ->
  exists lines,
    charge cid valor due desc s
    = (Exc (HTTPException 500 "Erro interno ao gerar pagamento"),
       mkState w (trace s ++ [creation cid valor due desc]) (log s ++ lines) (tasks s))
    /\ forall r, o = Reply r -> In (erro_line r) lines.
Proof.
  intros Sv Hne. unfold create_payment, requests. run. rewrite Sv.
  destruct o as [r | msg].
  - assert (E : (status_code r =? 200) = false)
      by (apply Z.eqb_neq; apply Hne; reflexivity).
    rewrite E. simpl.
    eexists [_; _]. rewrite <- app_assoc. split; [ reflexivity | ].
    intros r' Hr. injection Hr as <-. left. reflexivity.
  - simpl. eexists [_]. split; [ reflexivity | ]. intros r Hr; discriminate Hr.
Qed.

(** C3 (amended).  When the remote payment-creation call does not report
    success (a response whose status is not 200, or no response at all),
    [create_payment] fails with an HTTP 500 error, having logged the remote
    status code and body when a response came; the payment workflow then
    fails with an HTTP 500 error as well and issues no further call: the
    failure is never turned into a success. *)
Theorem payment_failure_is_reported
        fuel email valor vencimento s aluno s1 cid s2 due o w :
  buscar fuel email s = (Val aluno, s1) ->
  Py.truthy aluno = true ->
  resolve aluno s1 = (Val cid, s2) ->
  DT.fromisoformat vencimento = inr due ->
  serve (remote s2) (creation cid valor due "Mensalidade") = (o, w) ->
  (forall r, o = Reply r -> status_code r <> 200) ->
  (exists detail s3,
      charge cid valor due "Mensalidade" s2 = (Exc (HTTPException 500 detail), s3)
      /\ trace s3 = (trace s2 ++ [creation cid valor due "Mensalidade"])%list
      /\ forall r, o = Reply r -> In (erro_line r) (log s3))
  /\ (exists detail s',
         issue fuel email valor vencimento s = (Exc (HTTPException 500 detail), s')
         /\ trace s' = (trace s2 ++ [creation cid valor due "Mensalidade"])%list).
Proof.
  intros Hb Ht Hc Hd Sv Hne.
  destruct (create_payment_not_ok cid valor due "Mensalidade" s2 o w Sv Hne)
    as [lines [E L]].
  split.
  - do 2 eexists. split; [ exact E | ]. split; [ reflexivity | ].
    intros r Hr. simpl. apply in_or_app. right. exact (L r Hr).
  - unfold enviar_boleto.
    rewrite (bind_Val _ _ _ _ _ _ Hb). rewrite Ht. cbn [negb].
    erewrite try_Exc.
    2:{ erewrite bind_Val by exact Hc. rewrite Hd.
        erewrite bind_Val by apply lift_inr.
        erewrite bind_Exc by exact E. reflexivity. }
    do 2 eexists. split; reflexivity.
Qed.

End Payment.

(** C3, as stated, fails: when the billing platform refuses the payment
    with status 400 and a body, the error of [create_payment] carries
    neither, and so does the error the workflow hands to its caller. *)
Lemma create_payment_hides_remote_failure :
  ~ (exists e,
        fst (create_payment unit (Script.serve example_settings refusing_billing)
               example_settings (VStr "cus_1") 15000 first_of_april "Mensalidade"
               Scripted.start) = Exc e
        /\ carries_remote_failure e refusal = true)
  /\ ~ (exists e,
           fst (enviar_boleto unit (Script.serve example_settings refusing_billing)
                  example_settings example_clock 5 "ana@x.com" 15000 "2025-04-01"
                  Scripted.start) = Exc e
           /\ carries_remote_failure e refusal = true).
Proof.
  split; intros [e [H C]]; vm_compute in H; injection H as <-;
    vm_compute in C; discriminate C.
Qed.

Lemma payment_failure_is_reported_witness :
  (exists detail s3,
      create_payment unit (Script.serve example_settings refusing_billing)
        example_settings (VStr "cus_1") 15000 first_of_april "Mensalidade"
        (mkState tt
           [ mkReq GET "https://partner-api.flexge.com/external/students?page=1"
               (generate_headers example_settings example_clock) [] None (Some 10);
             customer_lookup example_settings "ana@x.com" ] [] [])
      = (Exc (HTTPException 500 detail), s3)
      /\ trace s3
         = [ mkReq GET "https://partner-api.flexge.com/external/students?page=1"
               (generate_headers example_settings example_clock) [] None (Some 10);
             customer_lookup example_settings "ana@x.com";
             payment_creation example_settings
               (payment_payload (VStr "cus_1") 15000 first_of_april "Mensalidade") ]
      /\ forall r, Reply refusal = Reply r -> In (erro_line r) (log s3))
  /\ (exists detail s',
         enviar_boleto unit (Script.serve example_settings refusing_billing)
           example_settings example_clock 5 "ana@x.com" 15000 "2025-04-01"
           Scripted.start = (Exc (HTTPException 500 detail), s')
         /\ trace s'
            = [ mkReq GET "https://partner-api.flexge.com/external/students?page=1"
                  (generate_headers example_settings example_clock) [] None (Some 10);
                customer_lookup example_settings "ana@x.com";
                payment_creation example_settings
                  (payment_payload (VStr "cus_1") 15000 first_of_april "Mensalidade") ]).
Proof.
  apply (payment_failure_is_reported unit
           (Script.serve example_settings refusing_billing)
           example_settings example_clock 5 "ana@x.com" 15000 "2025-04-01"
           Scripted.start ana_naive
           (mkState tt
              [ mkReq GET "https://partner-api.flexge.com/external/students?page=1"
                  (generate_headers example_settings example_clock) [] None (Some 10) ]
              [] [])
           (VStr "cus_1")
           (mkState tt
              [ mkReq GET "https://partner-api.flexge.com/external/students?page=1"
                  (generate_headers example_settings example_clock) [] None (Some 10);
                customer_lookup example_settings "ana@x.com" ] [] [])
           first_of_april (Reply refusal) tt).
  - vm_compute; reflexivity.
  - reflexivity.
  - vm_compute; reflexivity.
  - reflexivity.
  - reflexivity.
  - intros r H; injection H as <-; vm_compute; discriminate.
Defined.

(** ** Issuing a boleto and notifying the student *)

Section Delivery.

Variable W : Type.
Variable serve : W -> request -> outcome * W.
Variable settings : Settings.
Variable clock : Clock.

Local Abbreviation charge := (create_payment W serve settings).
Local Abbreviation issue := (enviar_boleto W serve settings clock).
Local Abbreviation buscar := (buscar_aluno_por_email W serve settings clock).
Local Abbreviation resolve := (get_or_create_customer W serve settings).
Local Abbreviation deliver := (deliver_boleto W serve settings).

Hypothesis zaia_key : ZAIA_API_KEY settings <> "".
Hypothesis zaia_agent : ZAIA_AGENT_ID settings <> 0.

Lemma zaia_configured :
  String.eqb (ZAIA_API_KEY settings) "" || (ZAIA_AGENT_ID settings =? 0) = false.
Proof.
  apply orb_false_iff. split.
  - apply String.eqb_neq. exact zaia_key.
  - apply Z.eqb_neq. exact zaia_agent.
Qed.

(** The notification step, once the payment exists. *)
Lemma deliver_boleto_notifies aluno pay link whatsapp name s o w :
  link_of pay = inr link ->
  whatsapp_of aluno = inr whatsapp ->
  whatsapp <> "" ->
  first_name aluno = inr name ->
  let rq := zaia_message settings whatsapp (boleto_message name link) None in
  serve (remote s) rq = (o, w) ->
  exists r,
    deliver aluno pay s = (r, sent W s rq w)
    /\ if delivered o then r = Val (enviado link) else exists e, r = Exc e.
Proof.
  intros Hl Hw Hne Hn rq Sv.
  unfold deliver_boleto, send_whatsapp_via_zaia. rewrite zaia_configured.
  unfold requests. run. rewrite Hl, Hw. run.
  replace (String.eqb whatsapp "") with false
    by (symmetry; apply String.eqb_neq; exact Hne).
  run. rewrite Hn. fold rq. rewrite Sv.
  destruct o as [r | msg]; simpl.
  - destruct ((400 <=? status_code r) && (status_code r <? 600)); simpl.
    + eexists; split; [ reflexivity | eexists; reflexivity ].
    + destruct (body r); simpl.
      * eexists; split; reflexivity.
      * eexists; split; [ reflexivity | eexists; reflexivity ].
  - eexists; split; [ reflexivity | eexists; reflexivity ].
Qed.

(** Without a digit in the phone nothing is sent and the link is
    returned. *)
Lemma deliver_boleto_without_phone aluno pay link s :
  link_of pay = inr link ->
  whatsapp_of aluno = inr "" ->
  deliver aluno pay s = (Val (enviado link), s).
Proof.
  intros Hl Hw. unfold deliver_boleto. run. rewrite Hl, Hw. reflexivity.
Qed.

(** C4 (amended).  When student resolution, customer resolution and
    payment creation all succeed and a notification is due, exactly one call
    follows the creation of the payment, the notification, so that the
    payment is never rolled back; the operation reports success with the
    payment link when the notification send succeeds and an HTTP 500 error
    when it fails. *)
Theorem enviar_boleto_depends_on_notification
        fuel email valor vencimento s aluno s1 cid s2 due pay s3
        link whatsapp name o w :
  buscar fuel email s = (Val aluno, s1) ->
  Py.truthy aluno = true ->
  resolve aluno s1 = (Val cid, s2) ->
  DT.fromisoformat vencimento = inr due ->
  charge cid valor due "Mensalidade" s2 = (Val pay, s3) ->
  link_of pay = inr link ->
  whatsapp_of aluno = inr whatsapp ->
  whatsapp <> "" ->
  first_name aluno = inr name ->
  let rq := zaia_message settings whatsapp (boleto_message name link) None in
  serve (remote s3) rq = (o, w) ->
  exists r,
    issue fuel email valor vencimento s = (r, sent W s3 rq w)
    /\ if delivered o then r = Val (enviado link)
       else exists detail, r = Exc (HTTPException 500 detail).
Proof.
  intros Hb Ht Hc Hd Hp Hl Hw Hne Hn rq Sv.
  destruct (deliver_boleto_notifies aluno pay link whatsapp name s3 o w
              Hl Hw Hne Hn Sv) as [r [E R]].
  fold rq in E.
  unfold enviar_boleto.
  rewrite (bind_Val _ _ _ _ _ _ Hb). rewrite Ht. cbn [negb].
  assert (Inner :
    bind (resolve aluno)
      (fun cid0 => bind (lift (DT.fromisoformat vencimento))
         (fun due0 => bind (charge cid0 valor due0 "Mensalidade")
            (fun pay0 => deliver aluno pay0))) s1
    = (r, sent W s3 rq w)).
  { erewrite bind_Val by exact Hc. rewrite Hd.
    erewrite bind_Val by apply lift_inr.
    erewrite bind_Val by exact Hp. exact E. }
  destruct (delivered o).
  - subst r. erewrite try_Val by exact Inner. eexists; split; reflexivity.
  - destruct R as [e ->]. erewrite try_Exc by exact Inner.
    eexists; split; [ reflexivity | eexists; reflexivity ].
Qed.

End Delivery.

(** C4, as stated, fails: the student is found, the customer is resolved
    and the payment is created (the call is issued and answered with status
    200), yet with the messaging platform down the operation does not report
    success and returns no link. *)
Lemma enviar_boleto_fails_when_notification_fails :
  In (payment_creation example_settings
        (payment_payload (VStr "cus_1") 15000 first_of_april "Mensalidade"))
     (trace (snd (issue_to_ana zaia_down)))
  /\ Script.on_payment_creation (issuing zaia_down) = boleto_created
  /\ ~ (exists answer, fst (issue_to_ana zaia_down) = Val answer).
Proof.
  split; [ | split ].
  - vm_compute. right; right; left. reflexivity.
  - reflexivity.
  - intros [answer H]. vm_compute in H. discriminate H.
Qed.

(** With the messaging platform up the same request succeeds. *)
Example enviar_boleto_succeeds_when_notified :
  fst (issue_to_ana Script.ok_empty)
  = Val (enviado (VStr "https://www.asaas.com/b/pdf/pay_1")).
Proof. vm_compute. reflexivity. Qed.

Lemma enviar_boleto_depends_on_notification_witness :
  exists r st,
    issue_to_ana zaia_down = (r, st)
    /\ exists detail, r = Exc (HTTPException 500 detail).
Proof.
  pose (serve := Script.serve example_settings (issuing zaia_down)).
  pose (s1 := snd (buscar_aluno_por_email unit serve example_settings example_clock
                     5 "ana@x.com" Scripted.start)).
  pose (s2 := snd (get_or_create_customer unit serve example_settings ana_naive s1)).
  pose (s3 := snd (create_payment unit serve example_settings (VStr "cus_1") 15000
                     first_of_april "Mensalidade" s2)).
  assert (H : exists r,
             enviar_boleto unit serve example_settings example_clock
               5 "ana@x.com" 15000 "2025-04-01" Scripted.start
             = (r, sent unit s3
                     (zaia_message example_settings "5511912345678"
                        (boleto_message "Ana"
                           (VStr "https://www.asaas.com/b/pdf/pay_1")) None) tt)
             /\ if delivered zaia_down then
                  r = Val (enviado (VStr "https://www.asaas.com/b/pdf/pay_1"))
                else exists detail, r = Exc (HTTPException 500 detail)).
  { apply (enviar_boleto_depends_on_notification unit serve example_settings
             example_clock) with (aluno := ana_naive) (s1 := s1) (cid := VStr "cus_1")
             (s2 := s2) (due := first_of_april)
             (pay := VDict [ ("id", VStr "pay_1"); ("status", VStr "PENDING");
                             ("bankSlipUrl", VStr "https://www.asaas.com/b/pdf/pay_1");
                             ("invoiceUrl", VStr "https://www.asaas.com/i/pay_1") ]).
    - vm_compute; discriminate.
    - vm_compute; discriminate.
    - vm_compute; reflexivity.
    - reflexivity.
    - vm_compute; reflexivity.
    - reflexivity.
    - vm_compute; reflexivity.
    - reflexivity.
    - reflexivity.
    - vm_compute; discriminate.
    - reflexivity.
    - vm_compute; reflexivity. }
  destruct H as [r [E R]].
  exists r. eexists. split; [ exact E | exact R ].
Defined.

(** ** Which calls a computation issues *)

Section Calls.

Variable W : Type.
Variable serve : W -> request -> outcome * W.

Lemma calls_ret {A} Q (a : A) : calls Q (@ret W A a).
Proof. intros s. exists []. rewrite app_nil_r. split; [ reflexivity | constructor ]. Qed.

Lemma calls_raise {A} Q e : calls Q (@raise W A e).
Proof. intros s. exists []. rewrite app_nil_r. split; [ reflexivity | constructor ]. Qed.

Lemma calls_diverge {A} Q : calls Q (@diverge W A).
Proof. intros s. exists []. rewrite app_nil_r. split; [ reflexivity | constructor ]. Qed.

Lemma calls_lift {A} Q (r : exn + A) : calls Q (@lift W A r).
Proof. destruct r; [ apply calls_raise | apply calls_ret ]. Qed.

Lemma calls_print Q line : calls Q (@print W line).
Proof. intros s. exists []. simpl. rewrite app_nil_r. split; [ reflexivity | constructor ]. Qed.

Lemma calls_add_task Q t : calls Q (@add_task W t).
Proof. intros s. exists []. simpl. rewrite app_nil_r. split; [ reflexivity | constructor ]. Qed.

Lemma calls_requests (Q : request -> Prop) rq : Q rq -> calls Q (requests serve rq).
Proof.
  intros H s. exists [rq]. unfold requests.
  destruct (serve (remote s) rq) as [[r | msg] w]; simpl;
    (split; [ reflexivity | constructor; [ exact H | constructor ] ]).
Qed.

Lemma calls_bind {A B} Q (m : M W A) (k : A -> M W B) :
  calls Q m -> (forall a, calls Q (k a)) -> calls Q (bind m k).
Proof.
  intros Hm Hk s. unfold bind. destruct (Hm s) as [l [E F]].
  destruct (m s) as [[a | e | ] s'] eqn:R; simpl in *.
  - destruct (Hk a s') as [l' [E' F']]. exists (l ++ l')%list.
    rewrite E', E, app_assoc. split; [ reflexivity | apply Forall_app; split; assumption ].
  - exists l. split; assumption.
  - exists l. split; assumption.
Qed.

Lemma calls_try {A} Q (m : M W A) h :
  calls Q m -> (forall e, calls Q (h e)) -> calls Q (try_except m h).
Proof.
  intros Hm Hh s. unfold try_except. destruct (Hm s) as [l [E F]].
  destruct (m s) as [[a | e | ] s'] eqn:R; simpl in *.
  - exists l. split; assumption.
  - destruct (Hh e s') as [l' [E' F']]. exists (l ++ l')%list.
    rewrite E', E, app_assoc. split; [ reflexivity | apply Forall_app; split; assumption ].
  - exists l. split; assumption.
Qed.

Lemma calls_resp_json Q r : calls Q (@resp_json W r).
Proof. unfold resp_json. destruct (body r); [ apply calls_ret | apply calls_raise ]. Qed.

Lemma calls_raise_for_status Q u r : calls Q (@raise_for_status W u r).
Proof.
  unfold raise_for_status.
  destruct ((400 <=? status_code r) && (status_code r <? 600));
    [ apply calls_raise | apply calls_ret ].
Qed.

Lemma calls_weaken {A} (Q Q' : request -> Prop) (m : M W A) :
  (forall rq, Q rq -> Q' rq) -> calls Q m -> calls Q' m.
Proof.
  intros I H s. destruct (H s) as [l [E F]]. exists l. split; [ exact E | ].
  eapply Forall_impl; [ exact I | exact F ].
Qed.

Lemma total_ret {A} (a : A) : total (@ret W A a).
Proof. intros s; discriminate. Qed.

Lemma total_raise {A} e : total (@raise W A e).
Proof. intros s; discriminate. Qed.

Lemma total_lift {A} (r : exn + A) : total (@lift W A r).
Proof. destruct r; [ apply total_raise | apply total_ret ]. Qed.

Lemma total_print line : total (@print W line).
Proof. intros s; discriminate. Qed.

Lemma total_requests rq : total (requests serve rq).
Proof.
  intros s. unfold requests.
  destruct (serve (remote s) rq) as [[r | msg] w]; discriminate.
Qed.

Lemma total_bind {A B} (m : M W A) (k : A -> M W B) :
  total m -> (forall a, total (k a)) -> total (bind m k).
Proof.
  intros Hm Hk s. unfold bind. specialize (Hm s).
  destruct (m s) as [[a | e | ] s']; simpl in *.
  - apply Hk.
  - discriminate.
  - congruence.
Qed.

Lemma total_try {A} (m : M W A) h :
  total m -> (forall e, total (h e)) -> total (try_except m h).
Proof.
  intros Hm Hh s. unfold try_except. specialize (Hm s).
  destruct (m s) as [[a | e | ] s']; simpl in *.
  - discriminate.
  - apply Hh.
  - congruence.
Qed.

Lemma total_resp_json r : total (@resp_json W r).
Proof. unfold resp_json. destruct (body r); [ apply total_ret | apply total_raise ]. Qed.

Lemma total_raise_for_status u r : total (@raise_for_status W u r).
Proof.
  unfold raise_for_status.
  destruct ((400 <=? status_code r) && (status_code r <? 600));
    [ apply total_raise | apply total_ret ].
Qed.

End Calls.


(** Decomposes a goal [calls Q m] or [total m] along the structure of
    [m]; what remains are the calls themselves. *)
Ltac walk :=
  repeat
    match goal with
    | |- calls _ (bind _ _) => apply calls_bind; [ | intros ? ]
    | |- calls _ (try_except _ _) => apply calls_try; [ | intros ? ]
    | |- calls _ (ret _) => apply calls_ret
    | |- calls _ (raise _) => apply calls_raise
    | |- calls _ diverge => apply calls_diverge
    | |- calls _ (lift _) => apply calls_lift
    | |- calls _ (print _) => apply calls_print
    | |- calls _ (add_task _) => apply calls_add_task
    | |- calls _ (resp_json _) => apply calls_resp_json
    | |- calls _ (raise_for_status _ _) => apply calls_raise_for_status
    | |- total (bind _ _) => apply total_bind; [ | intros ? ]
    | |- total (try_except _ _) => apply total_try; [ | intros ? ]
    | |- total (ret _) => apply total_ret
    | |- total (raise _) => apply total_raise
    | |- total (lift _) => apply total_lift
    | |- total (print _) => apply total_print
    | |- total (requests _ _) => apply total_requests
    | |- total (resp_json _) => apply total_resp_json
    | |- total (raise_for_status _ _) => apply total_raise_for_status
    | |- calls _ (if ?b then _ else _) => destruct b
    | |- total (if ?b then _ else _) => destruct b
    | |- calls _ (match ?x with _ => _ end) => destruct x
    | |- total (match ?x with _ => _ end) => destruct x
    end.

(** ** The customer resolver *)

Lemma is_space_lower c : PyStr.is_space (PyStr.lower_char c) = PyStr.is_space c.
Proof. destruct c as [[] [] [] [] [] [] [] []]; reflexivity. Qed.

Lemma lstrip_lower s : PyStr.lstrip (PyStr.lower s) = PyStr.lower (PyStr.lstrip s).
Proof.
  induction s as [ | c s IH]; simpl; [ reflexivity | ].
  rewrite is_space_lower. destruct (PyStr.is_space c); [ exact IH | reflexivity ].
Qed.

Lemma rev_string_lower s acc :
  PyStr.rev_string (PyStr.lower s) (PyStr.lower acc)
  = PyStr.lower (PyStr.rev_string s acc).
Proof.
  revert acc. induction s as [ | c s IH]; intros acc; simpl; [ reflexivity | ].
  rewrite <- IH. reflexivity.
Qed.

(** Lower-casing and trimming commute: "lower case, then trim" of the
    code is "trim, then lower case". *)
Lemma strip_lower s : PyStr.strip (PyStr.lower s) = PyStr.lower (PyStr.strip s).
Proof.
  assert (R : forall t, PyStr.rev_string (PyStr.lower t) ""
                        = PyStr.lower (PyStr.rev_string t ""))
    by (intros t; exact (rev_string_lower t "")).
  unfold PyStr.strip, PyStr.rstrip.
  rewrite lstrip_lower, R, lstrip_lower, R. reflexivity.
Qed.

Lemma get_of_getitem v k d default :
  Py.getitem v k = inr d -> Py.get v k default = inr d.
Proof.
  destruct v; simpl; try discriminate.
  destruct (Py.assoc k d0); [ trivial | discriminate ].
Qed.

Section Resolver.

Variable W : Type.
Variable serve : W -> request -> outcome * W.
Variable settings : Settings.

Local Abbreviation resolve := (get_or_create_customer W serve settings).
Local Abbreviation lookup := (customer_lookup settings).
Local Abbreviation creation := (customer_creation settings).

(** A lookup that finds a customer is the only call of the resolver. *)
Lemma resolve_found student email s r w data d c cid :
  customer_email student = inr email ->
  serve (remote s) (lookup email) = (Reply r, w) ->
  status_code r = 200 ->
  body r = Some data ->
  Py.getitem data "data" = inr d ->
  Py.truthy d = true ->
  Py.first d = inr c ->
  Py.getitem c "id" = inr cid ->
  resolve student s = (Val cid, sent W s (lookup email) w).
Proof.
  intros He Sv St Bd Gd Td Fc Gi.
  unfold get_or_create_customer, requests. run. rewrite He. run. rewrite Sv.
  rewrite St. simpl Z.eqb. run. rewrite Bd. run.
  rewrite (get_of_getitem _ _ _ VNone Gd). run. rewrite Td. run.
  rewrite Gd. run. rewrite Fc. run. rewrite Gi. reflexivity.
Qed.

(** The creation adds one call, whatever comes back. *)
Lemma post_customer_trace payload (s : state W) :
  trace (snd (post_customer W serve settings payload s))
  = (trace s ++ [creation payload])%list.
Proof.
  unfold post_customer, requests. run.
  destruct (serve (remote s) (creation payload)) as [[r | msg] w]; [ | reflexivity ].
  destruct ((400 <=? status_code r) && (status_code r <? 600)); [ reflexivity | ].
  destruct (body r) as [v | ]; [ | reflexivity ].
  destruct (Py.getitem v "id"); reflexivity.
Qed.

(** The calls of the resolver: none when the student has no usable
    email; otherwise the lookup, followed by a creation only when the
    lookup did not find a customer. *)
Lemma resolve_calls student s :
  match customer_email student with
  | inl _ => trace (snd (resolve student s)) = trace s
  | inr email =>
      trace (snd (resolve student s)) = (trace s ++ [lookup email])%list
      \/ (finds (fst (serve (remote s) (lookup email))) = false
          /\ exists payload,
               customer_payload student email = inr payload
               /\ trace (snd (resolve student s))
                  = (trace s ++ [lookup email; creation payload])%list)
  end.
Proof.
  unfold get_or_create_customer, requests. run.
  destruct (customer_email student) as [e | email]; [ reflexivity | ].
  run. destruct (serve (remote s) (lookup email)) as [[r | msg] w] eqn:Sv;
    [ | left; reflexivity ].
  unfold finds, fst.
  destruct (status_code r =? 200) eqn:St; run.
  - destruct (body r) as [data | ]; run; [ | left; reflexivity ].
    destruct (Py.get data "data" VNone) as [e | d]; run; [ left; reflexivity | ].
    destruct (Py.truthy d) eqn:Td; run.
    + left.
      destruct (Py.getitem data "data") as [e | d']; run; [ reflexivity | ].
      destruct (Py.first d') as [e | c]; run; [ reflexivity | ].
      destruct (Py.getitem c "id"); reflexivity.
    + destruct (customer_payload student email) as [e | payload]; run;
        [ left; reflexivity | ].
      right. split; [ reflexivity | ]. exists payload. split; [ reflexivity | ].
      rewrite post_customer_trace. simpl. rewrite <- app_assoc. reflexivity.
  - destruct (customer_payload student email) as [e | payload]; run;
      [ left; reflexivity | ].
    right. split; [ reflexivity | ]. exists payload. split; [ reflexivity | ].
    rewrite post_customer_trace. simpl. rewrite <- app_assoc. reflexivity.
Qed.

(** C6 (amended).  The resolver matches on the student's email in lower
    case and trimmed; the lookup by that email is its first call; at most
    one creation is issued, and only after a lookup that did not answer with
    a customer; and whenever the lookup answers with a customer, the
    resolver returns that customer's id and the lookup is its only call. *)
Theorem resolver_never_duplicates student raw s :
  Py.getitem student "email" = inr (VStr raw) ->
  let email := PyStr.strip (PyStr.lower raw) in
  email = PyStr.lower (PyStr.strip raw)
  /\ customer_email student = inr email
  /\ params (lookup email) = [("email", VStr email)]
  /\ (exists rest,
        trace (snd (resolve student s)) = (trace s ++ lookup email :: rest)%list
        /\ (rest = []
            \/ (finds (fst (serve (remote s) (lookup email))) = false
                /\ exists payload,
                     customer_payload student email = inr payload
                     /\ rest = [creation payload])))
  /\ (forall r w data d c cid,
        serve (remote s) (lookup email) = (Reply r, w) ->
        status_code r = 200 ->
        body r = Some data ->
        Py.getitem data "data" = inr d ->
        Py.truthy d = true ->
        Py.first d = inr c ->
        Py.getitem c "id" = inr cid ->
        resolve student s = (Val cid, sent W s (lookup email) w)).
Proof.
  intros G email.
  assert (He : customer_email student = inr email).
  { unfold customer_email. rewrite G. reflexivity. }
  split; [ apply strip_lower | ].
  split; [ exact He | ]. split; [ reflexivity | ]. split.
  - pose proof (resolve_calls student s) as C. rewrite He in C.
    destruct C as [C | [F [payload [Hp C]]]].
    + exists []. split; [ exact C | left; reflexivity ].
    + exists [creation payload]. split; [ exact C | ].
      right. split; [ exact F | exists payload; split; [ exact Hp | reflexivity ] ].
  - intros r w data d c cid. apply resolve_found. exact He.
Qed.

(** The resolver issues reads and, at most, the creation of a customer. *)
Lemma resolve_calls_only student :
  calls (fun rq => meth rq = GET \/ exists payload, rq = creation payload)
        (resolve student).
Proof.
  intros s. pose proof (resolve_calls student s) as C.
  destruct (customer_email student) as [e | email].
  - exists []. rewrite app_nil_r. split; [ exact C | constructor ].
  - destruct C as [C | [_ [payload [_ C]]]].
    + exists [lookup email]. split; [ exact C | ].
      constructor; [ left; reflexivity | constructor ].
    + exists [lookup email; creation payload]. split; [ exact C | ].
      constructor; [ left; reflexivity | ].
      constructor; [ right; exists payload; reflexivity | constructor ].
Qed.

End Resolver.

(** ** Resending the pending charge *)

Section Resend.

Variable W : Type.
Variable serve : W -> request -> outcome * W.
Variable settings : Settings.

Local Abbreviation resolve := (get_or_create_customer W serve settings).
Local Abbreviation reenviar := (zaia_reenviar_boleto W serve settings).











End Resend.


(** The resend workflow when there is something to resend. *)
Example resend_finds_pending_charge :
  fst (resend_to_ana one_active_subscription one_pending_payment)
  = Val (VDict [ ("nome", VStr "ana@x.com"); ("vencimento", VStr "2025-04-10");
                 ("valor", VFloat 15000);
                 ("boleto_url", VStr "https://www.asaas.com/i/pay_7") ]).
Proof. vm_compute. reflexivity. Qed.


(** ** Timeouts *)

(** C9.  The calls of the customer resolver and of the resend workflow
    are made without the [timeout] argument: the lookup and the creation of
    the customer, the listing of subscriptions and the listing of pending
    payments; a run of the resend workflow issues four calls, none of them
    bounded. *)
Theorem resolver_and_resend_calls_are_unbounded :
  (forall settings email payload cid sid,
      timeout (customer_lookup settings email) = None
      /\ timeout (customer_creation settings payload) = None
      /\ timeout (subscription_listing settings cid) = None
      /\ timeout (pending_listing settings sid) = None)
  /\ map timeout (trace (snd (resend_to_ana one_active_subscription one_pending_payment)))
     = [None; None; None; None].
Proof.
  split.
  - intros. repeat split.
  - vm_compute. reflexivity.
Qed.

(** ** Switching the billing type *)

Section Switch.

Variable W : Type.
Variable serve : W -> request -> outcome * W.
Variable settings : Settings.
Variable clock : Clock.

Local Abbreviation buscar := (buscar_aluno_por_email W serve settings clock).
Local Abbreviation resolve := (get_or_create_customer W serve settings).
Local Abbreviation switch := (trocar_assinatura W serve settings clock).
Local Abbreviation query := (active_subscription_query settings).

Lemma get_students_reads page :
  calls (fun rq => meth rq = GET) (get_students W serve settings clock page).
Proof. unfold get_students. walk. apply calls_requests. reflexivity. Qed.

(** The search of a student only reads. *)
Lemma buscar_reads fuel email : calls (fun rq => meth rq = GET) (buscar fuel email).
Proof.
  unfold buscar_aluno_por_email. generalize 1.
  induction fuel as [ | fuel IH]; intros page; simpl.
  - apply calls_diverge.
  - walk; [ apply get_students_reads | apply IH ].
Qed.

(** C5 (amended).  For a student found in enrollment whose customer has
    no active subscription, the switch fails with an HTTP error after the
    listing of active subscriptions, without any call that updates a
    subscription: every call of the run is a read, except for the creation
    of the customer that the resolver issues when its lookup found none. *)
Theorem switch_without_subscription
        billing_type mensagem fuel email s aluno s1 cid s2 r w data d :
  buscar fuel email s = (Val aluno, s1) ->
  Py.truthy aluno = true ->
  resolve aluno s1 = (Val cid, s2) ->
  serve (remote s2) (query cid) = (Reply r, w) ->
  no_error r ->
  body r = Some data ->
  Py.get data "data" VNone = inr d ->
  Py.truthy d = false ->
  exists status detail s',
    switch billing_type mensagem fuel email s = (Exc (HTTPException status detail), s')
    /\ trace s' = (trace s2 ++ [query cid])%list
    /\ exists l, trace s' = (trace s ++ l)%list
                 /\ Forall (read_or_customer_creation settings) l.
Proof.
  intros Hb Ht Hc Sv Hr Hbd Hd Htd.
  assert (E : switch billing_type mensagem fuel email s
              = (Exc (HTTPException 500
                        ("Erro inesperado: "
                         ++ str_exn (HTTPException 404 "Assinatura ativa não encontrada"))),
                 printed W (sent W s2 (query cid) w)
                   ["[ERRO GERAL] "
                    ++ str_exn (HTTPException 404 "Assinatura ativa não encontrada")])).
  { unfold trocar_assinatura.
    erewrite try_Exc.
    2:{ erewrite bind_Val by exact Hb. rewrite Ht. cbn [negb].
        erewrite bind_Val by exact Hc.
        erewrite bind_Val by (apply requests_Reply; exact Sv).
        unfold raise_for_status. rewrite Hr.
        erewrite bind_Val by reflexivity.
        unfold resp_json. rewrite Hbd.
        erewrite bind_Val by reflexivity.
        rewrite Hd. erewrite bind_Val by reflexivity.
        rewrite Htd. reflexivity. }
    reflexivity. }
  do 3 eexists. split; [ exact E | ]. split; [ reflexivity | ].
  destruct (buscar_reads fuel email s) as [l1 [E1 F1]]. rewrite Hb in E1.
  destruct (resolve_calls_only W serve settings aluno s1) as [l2 [E2 F2]].
  rewrite Hc in E2. simpl in E1, E2.
  exists (l1 ++ l2 ++ [query cid])%list. split.
  - simpl. rewrite E2, E1, <- !app_assoc. reflexivity.
  - apply Forall_app. split.
    + eapply Forall_impl; [ | exact F1 ]. intros rq G. left. exact G.
    + apply Forall_app. split; [ exact F2 | ].
      constructor; [ left; reflexivity | constructor ].
Qed.

End Switch.

(** C5, as stated, fails: for an enrolled student without active
    subscription the switch does not fail with status 404 but with status
    500, and it has issued one state-changing call to the billing platform,
    the creation of the customer. *)
Lemma switch_reports_500_and_creates_customer :
  ~ (exists detail, fst switch_for_ana = Exc (HTTPException 404 detail))
  /\ map url (filter (fun rq => negb (is_read rq)) (trace (snd switch_for_ana)))
     = ["https://api.asaas.com/v3/customers"]
  /\ exists detail, fst switch_for_ana = Exc (HTTPException 500 detail).
Proof.
  split; [ | split ].
  - intros [detail H]. vm_compute in H. discriminate H.
  - vm_compute. reflexivity.
  - eexists. vm_compute. reflexivity.
Qed.

Lemma switch_without_subscription_witness :
  exists status detail s',
    switch_for_ana = (Exc (HTTPException status detail), s')
    /\ Forall (read_or_customer_creation example_settings) (trace s').
Proof.
  pose (serve := Script.serve example_settings
                   (unknown_to_billing Script.no_data Script.no_data)).
  pose (s1 := snd (buscar_aluno_por_email unit serve example_settings example_clock
                     5 "ana@x.com" Scripted.start)).
  pose (s2 := snd (get_or_create_customer unit serve example_settings ana_naive s1)).
  destruct (switch_without_subscription unit serve example_settings example_clock
              "CREDIT_CARD" "Assinatura atualizada para cartão com sucesso."
              5 "ana@x.com" Scripted.start ana_naive s1 (VStr "cus_9") s2
              (mkResp 200 "" (Some (VDict [("data", VList [])]))) tt
              (VDict [("data", VList [])]) (VList []))
    as [status [detail [s' [E [_ [l [T F]]]]]]];
    try (vm_compute; reflexivity).
  exists status, detail, s'. split; [ exact E | ].
  rewrite T. exact F.
Defined.

(** ** The program against the reference billing platform *)

Lemma filter_none {A} (f : A -> bool) (l : list A) :
  (forall x, In x l -> f x = false) -> filter f l = [].
Proof.
  induction l as [ | x l IH]; intros H; simpl; [ reflexivity | ].
  rewrite (H x (or_introl eq_refl)). apply IH. intros y Hy. apply H. right. exact Hy.
Qed.

Lemma eqb_append_left (b x y : string) :
  String.eqb (b ++ x) (b ++ y) = String.eqb x y.
Proof.
  induction b as [ | c b IH]; simpl; [ reflexivity | ].
  rewrite Ascii.eqb_refl. exact IH.
Qed.

Section Billing.

Variable settings : Settings.

Local Abbreviation serve := (Asaas.serve settings).
Local Abbreviation charge := (create_payment Asaas.platform serve settings).
Local Abbreviation latest := (get_latest_unpaid_payment Asaas.platform serve settings).
Local Abbreviation resolve := (get_or_create_customer Asaas.platform serve settings).
Local Abbreviation query := (latest_unpaid_query settings).

(** What the query of [get_latest_unpaid_payment] selects. *)
Lemma query_selects cid o :
  Asaas.selected (params (query (VStr cid))) o
  = Asaas.pending_of cid o && Asaas.is_boleto o.
Proof.
  unfold Asaas.selected, Asaas.meets, Asaas.pending_of, Asaas.is_boleto. simpl.
  rewrite andb_true_r. reflexivity.
Qed.

Lemma query_listing cid l :
  Asaas.listing (params (query (VStr cid))) l
  = VDict [("object", VStr "list");
           ("data", VList (firstn 1 (Asaas.sort_by_due
                                        (filter (fun o => Asaas.pending_of cid o
                                                          && Asaas.is_boleto o) l))))].
Proof.
  unfold Asaas.listing. simpl.
  rewrite (filter_ext _ _ (query_selects cid)). reflexivity.
Qed.

Lemma serve_query cid p :
  serve p (query (VStr cid))
  = (Asaas.reply 200 (Asaas.listing (params (query (VStr cid))) (Asaas.payments p)), p).
Proof.
  unfold Asaas.serve. simpl url. rewrite String.eqb_refl. reflexivity.
Qed.

Lemma serve_creation payload p :
  serve p (payment_creation settings payload)
  = (Asaas.reply 200 (Asaas.new_payment p payload),
     Asaas.mkPlatform (Asaas.customers p)
       (Asaas.payments p ++ [Asaas.new_payment p payload])
       (Asaas.counter p + 1) (Asaas.current_date p)).
Proof.
  unfold Asaas.serve. simpl url. rewrite String.eqb_refl. reflexivity.
Qed.

Lemma in_insert_by_due x o l :
  In x (Asaas.insert_by_due o l) <-> x = o \/ In x l.
Proof.
  induction l as [ | y l IH]; simpl.
  - split; intros [H | H]; auto.
  - destruct (String.leb (Asaas.due_of o) (Asaas.due_of y)); simpl.
    + split; intros [H | H]; auto.
    + rewrite IH. split; intros H; intuition auto.
Qed.

Lemma in_sort_by_due x l : In x (Asaas.sort_by_due l) <-> In x l.
Proof.
  induction l as [ | y l IH]; simpl; [ reflexivity | ].
  rewrite in_insert_by_due, IH. split; intros [H | H]; auto.
Qed.

(** C10.  The search for the latest unpaid payment issues one call, the
    listing of the customer's pending payments of billing type [BOLETO], and
    returns what that listing holds: when none of the customer's pending
    payments is a boleto it returns nothing, whether or not the customer has
    pending payments of another billing type; what it returns otherwise is a
    pending boleto of the customer, and it returns one whenever there is
    one. *)
Theorem latest_unpaid_sees_boletos_only cid s :
  exists v lines,
    latest (VStr cid) s
    = (Val v, mkState (remote s) (trace s ++ [query (VStr cid)])
                      (log s ++ lines) (tasks s))
    /\ Py.assoc "customer" (params (query (VStr cid))) = Some (VStr cid)
    /\ Py.assoc "status" (params (query (VStr cid))) = Some (VStr "PENDING")
    /\ Py.assoc "billingType" (params (query (VStr cid))) = Some (VStr "BOLETO")
    /\ ((forall o, In o (Asaas.payments (remote s)) ->
                   Asaas.pending_of cid o = true -> Asaas.is_boleto o = false) ->
        v = VNone)
    /\ (v <> VNone ->
        In v (Asaas.payments (remote s))
        /\ Asaas.pending_of cid v = true /\ Asaas.is_boleto v = true)
    /\ ((exists o, In o (Asaas.payments (remote s))
                   /\ Asaas.pending_of cid o = true /\ Asaas.is_boleto o = true) ->
        v <> VNone).
Proof.
  unfold get_latest_unpaid_payment, requests. run.
  rewrite serve_query, query_listing.
  set (hits := filter (fun o => Asaas.pending_of cid o && Asaas.is_boleto o)
                      (Asaas.payments (remote s))).
  assert (Sel : forall o, In o (Asaas.sort_by_due hits) ->
                          In o (Asaas.payments (remote s))
                          /\ Asaas.pending_of cid o = true /\ Asaas.is_boleto o = true).
  { intros o Ho. apply (proj1 (in_sort_by_due _ _)) in Ho. unfold hits in Ho.
    apply (proj1 (filter_In _ _ _)) in Ho. destruct Ho as [Ho B].
    apply andb_true_iff in B. tauto. }
  assert (Found : forall o, In o (Asaas.payments (remote s)) ->
                            Asaas.pending_of cid o = true -> Asaas.is_boleto o = true ->
                            In o (Asaas.sort_by_due hits)).
  { intros o Ho P B. apply (proj2 (in_sort_by_due _ _)). unfold hits.
    apply (proj2 (filter_In _ _ _)).
    split; [ exact Ho | ]. rewrite P, B. reflexivity. }
  destruct (Asaas.sort_by_due hits) as [ | x rest].
  - exists VNone, ["[INFO] Nenhum boleto pendente encontrado para esse cliente."].
    split; [ reflexivity | ]. do 3 (split; [ reflexivity | ]).
    split; [ reflexivity | ]. split.
    + intros N. contradiction N. reflexivity.
    + intros [o [Ho [P B]]]. destruct (Found o Ho P B).
  - exists x, []. rewrite app_nil_r.
    split; [ reflexivity | ]. do 3 (split; [ reflexivity | ]).
    destruct (Sel x (or_introl eq_refl)) as [Hx [P B]].
    split; [ | split ].
    + intros H. rewrite (H x Hx P) in B. discriminate B.
    + intros _. auto.
    + intros _ E. rewrite E in P. discriminate P.
Qed.

(** C8.  On a billing state where the customer has no pending payment, a
    payment created with a due date not before the platform's date is the
    one the search for the latest unpaid payment returns next. *)
Theorem latest_unpaid_after_creation cid valor due desc s :
  (forall o, In o (Asaas.payments (remote s)) -> Asaas.pending_of cid o = false) ->
  String.leb (Asaas.current_date (remote s)) (DT.strftime_ymd due) = true ->
  exists ob s1 s2,
    charge (VStr cid) valor due desc s = (Val ob, s1)
    /\ Asaas.payments (remote s1) = (Asaas.payments (remote s) ++ [ob])%list
    /\ latest (VStr cid) s1 = (Val ob, s2).
Proof.
  intros Hnone Hdue.
  set (ob := Asaas.new_payment (remote s) (payment_payload (VStr cid) valor due desc)).
  assert (Sel : Asaas.pending_of cid ob && Asaas.is_boleto ob = true).
  { unfold ob, Asaas.pending_of, Asaas.is_boleto, Asaas.new_payment, Asaas.due_of.
    simpl. rewrite Hdue. simpl. rewrite String.eqb_refl. reflexivity. }
  exists ob. do 2 eexists. split; [ | split ].
  - unfold create_payment, requests. run. rewrite serve_creation. reflexivity.
  - reflexivity.
  - unfold get_latest_unpaid_payment, requests. run. cbn [remote].
    rewrite serve_query, query_listing. cbn [Asaas.payments].
    rewrite filter_app. rewrite filter_none.
    + simpl filter. fold ob. rewrite Sel. reflexivity.
    + intros o Ho. rewrite (Hnone o Ho). reflexivity.
Qed.

(** On a billing state that holds a customer under the normalized email,
    the resolver returns the id of the first such customer and leaves the
    state as it is. *)
Lemma resolve_on_platform student email s c rest cid :
  customer_email student = inr email ->
  filter (Asaas.has_email (VStr email)) (Asaas.customers (remote s)) = c :: rest ->
  Py.getitem c "id" = inr cid ->
  resolve student s = (Val cid, sent Asaas.platform s (customer_lookup settings email) (remote s)).
Proof.
  intros He Hf Hid.
  apply (resolve_found Asaas.platform serve settings student email s
           (mkResp 200 "" (Some (VDict [("object", VStr "list");
                                        ("data", VList (c :: rest))])))
           (remote s)
           (VDict [("object", VStr "list"); ("data", VList (c :: rest))])
           (VList (c :: rest)) c cid);
    try reflexivity; try assumption.
  unfold Asaas.serve. simpl url.
  unfold customers_url, payments_url. rewrite eqb_append_left. simpl String.eqb.
  rewrite String.eqb_refl. simpl. rewrite Hf. reflexivity.
Qed.

End Billing.

Lemma latest_unpaid_after_creation_witness :
  exists ob s1 s2,
    create_payment Asaas.platform (Asaas.serve example_settings) example_settings
      (VStr "cus_1") 15000 first_of_april "Mensalidade" (on_platform settled_platform)
    = (Val ob, s1)
    /\ Asaas.payments (remote s1) = (Asaas.payments settled_platform ++ [ob])%list
    /\ get_latest_unpaid_payment Asaas.platform (Asaas.serve example_settings)
         example_settings (VStr "cus_1") s1 = (Val ob, s2).
Proof.
  apply (latest_unpaid_after_creation example_settings "cus_1" 15000 first_of_april
           "Mensalidade" (on_platform settled_platform)).
  - intros o [<- | [<- | []]]; reflexivity.
  - reflexivity.
Defined.

(** The obligation found is the one created, a pending boleto. *)
Example latest_unpaid_after_creation_run :
  let '(ob, s1) :=
    create_payment Asaas.platform (Asaas.serve example_settings) example_settings
      (VStr "cus_1") 15000 first_of_april "Mensalidade" (on_platform settled_platform) in
  fst (get_latest_unpaid_payment Asaas.platform (Asaas.serve example_settings)
         example_settings (VStr "cus_1") s1) = ob
  /\ ob = Val (VDict [ ("object", VStr "payment"); ("id", VStr "pay_3");
                       ("customer", VStr "cus_1"); ("billingType", VStr "BOLETO");
                       ("value", VFloat 15000); ("dueDate", VStr "2025-04-01");
                       ("description", VStr "Mensalidade"); ("status", VStr "PENDING");
                       ("invoiceUrl", VStr "https://www.asaas.com/i/pay_3");
                       ("bankSlipUrl", VStr "https://www.asaas.com/b/pdf/pay_3") ]).
Proof. vm_compute. split; reflexivity. Qed.

Lemma latest_unpaid_sees_boletos_only_witness :
  (exists o, In o (Asaas.payments card_platform) /\ Asaas.pending_of "cus_1" o = true)
  /\ exists s',
       get_latest_unpaid_payment Asaas.platform (Asaas.serve example_settings)
         example_settings (VStr "cus_1") (on_platform card_platform) = (Val VNone, s')
       /\ remote s' = card_platform
       /\ trace s' = [latest_unpaid_query example_settings (VStr "cus_1")].
Proof.
  split.
  - eexists. split; [ left; reflexivity | reflexivity ].
  - destruct (latest_unpaid_sees_boletos_only example_settings "cus_1"
                (on_platform card_platform))
      as [v [lines [E [_ [_ [_ [N _]]]]]]].
    rewrite N in E.
    + eexists. split; [ exact E | split; reflexivity ].
    + intros o [<- | [<- | []]] _; reflexivity.
Defined.

Lemma resolver_never_duplicates_witness :
  get_or_create_customer unit
    (Script.serve example_settings (issuing Script.ok_empty)) example_settings
    (VDict [("email", VStr "  Ana@X.com "); ("name", VStr "Ana Souza")]) Scripted.start
  = (Val (VStr "cus_1"),
     sent unit Scripted.start (customer_lookup example_settings "ana@x.com") tt).
Proof.
  destruct (resolver_never_duplicates unit
              (Script.serve example_settings (issuing Script.ok_empty)) example_settings
              (VDict [("email", VStr "  Ana@X.com "); ("name", VStr "Ana Souza")])
              "  Ana@X.com " Scripted.start eq_refl)
    as [_ [_ [_ [_ H]]]].
  apply (H (mkResp 200 "" (Some (VDict [("data", VList [VDict [("id", VStr "cus_1")]])])))
           tt
           (VDict [("data", VList [VDict [("id", VStr "cus_1")]])])
           (VList [VDict [("id", VStr "cus_1")]])
           (VDict [("id", VStr "cus_1")]));
    reflexivity.
Defined.

(** C6, as first stated, fails.  The billing state holds Ana as customer
    [cus_1]; the platform refuses the lookup with status 429 and serves the
    next request.  The resolver takes the refused lookup for a lookup that
    found nothing, asks for a creation and returns the new id: the billing
    state then holds two customers under Ana's email. *)
Lemma resolver_duplicates_after_refused_lookup :
  exists s',
    customers_under "ana@x.com" settled_platform = [VStr "cus_1"]
    /\ get_or_create_customer (nat * Asaas.platform) (throttled example_settings)
         example_settings ana_naive (mkState (1%nat, settled_platform) [] [] [])
       = (Val (VStr "cus_3"), s')
    /\ map meth (trace s') = [GET; POST]
    /\ customers_under "ana@x.com" (snd (remote s')) = [VStr "cus_1"; VStr "cus_3"].
Proof.
  eexists. split; [ reflexivity | ].
  split; [ vm_compute; reflexivity | ].
  split; reflexivity.
Qed.

(** The resolver on the reference platform: Ana is known, nothing is
    created. *)
Example resolve_known_customer :
  exists s',
    get_or_create_customer Asaas.platform (Asaas.serve example_settings) example_settings
      ana_naive (on_platform settled_platform) = (Val (VStr "cus_1"), s')
    /\ remote s' = settled_platform
    /\ map meth (trace s') = [GET].
Proof. eexists. split; [ vm_compute; reflexivity | split; reflexivity ]. Qed.

(** The resolver on the reference platform: a new student is created
    once, and found afterwards. *)
Example resolve_new_customer_once :
  let student := Script.student "s3" "Caio@X.com " "Caio Reis" "(11) 98888-7777" VNone in
  let run1 := get_or_create_customer Asaas.platform (Asaas.serve example_settings)
                example_settings student (on_platform settled_platform) in
  let run2 := get_or_create_customer Asaas.platform (Asaas.serve example_settings)
                example_settings student (snd run1) in
  fst run1 = Val (VStr "cus_3") /\ fst run2 = Val (VStr "cus_3")
  /\ map meth (trace (snd run2)) = [GET; POST; GET]
  /\ List.length (Asaas.customers (remote (snd run2))) = 3%nat.
Proof. vm_compute. repeat split; reflexivity. Qed.

(* ================================================================= *)
(** * Further properties *)

(** ** File names *)

Lemma after_last_dot_app base ext :
  after_last_dot ext = None ->
  after_last_dot (base ++ "." ++ ext) = Some ext.
Proof.
  intros H. induction base as [ | c base IH]; simpl.
  - rewrite H. reflexivity.
  - simpl in IH. rewrite IH. reflexivity.
Qed.

Lemma after_last_dot_inv f ext :
  after_last_dot f = Some ext ->
  exists base, f = base ++ "." ++ ext /\ after_last_dot ext = None.
Proof.
  revert ext. induction f as [ | c r IH]; intros ext H; simpl in H; [ discriminate | ].
  destruct (after_last_dot r) as [e | ] eqn:E.
  - injection H as <-. destruct (IH e eq_refl) as [base [-> N]].
    exists (String c base). split; [ reflexivity | exact N ].
  - destruct (Ascii.eqb_spec c "."%char) as [-> | ]; [ | discriminate ].
    injection H as <-. exists "". split; [ reflexivity | exact E ].
Qed.

Lemma is_allowed_extension_In x :
  is_allowed_extension x = true <-> In x ALLOWED_EXTENSIONS.
Proof.
  unfold is_allowed_extension. rewrite existsb_exists. split.
  - intros [y [Hy E]]. apply String.eqb_eq in E. subst y. exact Hy.
  - intros H. exists x. split; [ exact H | apply String.eqb_refl ].
Qed.

(** X1.  [allowed_file] accepts exactly the names that end in a dot
    followed by an extension without dot which, in lower case, is one of
    png, jpg, jpeg and gif; a name without dot is refused. *)
Theorem allowed_file_spec filename :
  allowed_file filename = true
  <-> exists base ext,
        filename = base ++ "." ++ ext
        /\ after_last_dot ext = None
        /\ In (PyStr.lower ext) ALLOWED_EXTENSIONS.
Proof.
  unfold allowed_file. split.
  - destruct (after_last_dot filename) as [ext | ] eqn:E; [ | discriminate ].
    intros H. destruct (after_last_dot_inv _ _ E) as [base [-> N]].
    exists base, ext. split; [ reflexivity | ]. split; [ exact N | ].
    apply is_allowed_extension_In. exact H.
  - intros [base [ext [-> [N H]]]]. rewrite (after_last_dot_app base ext N).
    apply is_allowed_extension_In. exact H.
Qed.

Example allowed_file_examples :
  allowed_file "Foto.de.Perfil.JPEG" = true
  /\ allowed_file ".png" = true
  /\ allowed_file "png" = false
  /\ allowed_file "foto.png.exe" = false
  /\ allowed_file "foto." = false.
Proof. repeat split; reflexivity. Qed.

Lemma lower_app a b : PyStr.lower (a ++ b) = PyStr.lower a ++ PyStr.lower b.
Proof. induction a as [ | c a IH]; simpl; [ reflexivity | rewrite IH; reflexivity ]. Qed.

Lemma string_length_app a b : String.length (a ++ b) = (String.length a + String.length b)%nat.
Proof. induction a as [ | c a IH]; simpl; [ reflexivity | rewrite IH; reflexivity ]. Qed.

Lemma substring_whole e : substring 0 (String.length e) e = e.
Proof. induction e as [ | c e IH]; simpl; [ reflexivity | rewrite IH; reflexivity ]. Qed.

Lemma substring_skip a e n : substring (String.length a) n (a ++ e) = substring 0 n e.
Proof. induction a as [ | c a IH]; simpl; [ reflexivity | exact IH ]. Qed.

Lemma append_assoc (a b c : string) : (a ++ b) ++ c = a ++ b ++ c.
Proof. induction a as [ | x a IH]; simpl; [ reflexivity | rewrite IH; reflexivity ]. Qed.

Lemma endswith_app a e : endswith (a ++ e) e = true.
Proof.
  unfold endswith. rewrite string_length_app. apply andb_true_intro. split.
  - apply Nat.leb_le. lia.
  - replace (String.length a + String.length e - String.length e)%nat
      with (String.length a) by lia.
    rewrite substring_skip, substring_whole. apply String.eqb_refl.
Qed.

(** X2.  The test of the upload route is weaker than [allowed_file]:
    every name [allowed_file] accepts passes it, and it also lets pass a
    name without any dot that merely ends in the letters of an extension. *)
Theorem allowed_file_has_allowed_ending :
  (forall filename, allowed_file filename = true -> has_allowed_ending filename = true)
  /\ has_allowed_ending "resumepng" = true
  /\ allowed_file "resumepng" = false.
Proof.
  split; [ | split; reflexivity ].
  intros filename H. apply allowed_file_spec in H.
  destruct H as [base [ext [-> [_ H]]]].
  unfold has_allowed_ending. apply existsb_exists.
  exists (PyStr.lower ext). split; [ exact H | ].
  rewrite !lower_app, <- append_assoc. apply endswith_app.
Qed.

Lemma allowed_file_has_allowed_ending_witness :
  has_allowed_ending "Foto.de.Perfil.JPEG" = true.
Proof.
  apply (proj1 allowed_file_has_allowed_ending). reflexivity.
Defined.

(** ** The JSON object inside the text of the generative model *)

Lemma from_first_open_app pre rest :
  from_first_open pre = None ->
  from_first_open (pre ++ "{" ++ rest) = Some ("{" ++ rest).
Proof.
  induction pre as [ | c pre IH]; simpl; intros H; [ reflexivity | ].
  destruct (Ascii.eqb c "{"%char); [ discriminate | ]. apply IH. exact H.
Qed.

Lemma upto_last_close_app x post :
  upto_last_close post = None ->
  upto_last_close (x ++ "}" ++ post) = Some (x ++ "}").
Proof.
  intros H. induction x as [ | c x IH]; simpl.
  - rewrite H. reflexivity.
  - simpl in IH. rewrite IH. reflexivity.
Qed.

Lemma upto_last_close_ends s t :
  upto_last_close s = Some t -> exists x, t = x ++ "}".
Proof.
  revert t. induction s as [ | c s IH]; intros t H; simpl in H; [ discriminate | ].
  destruct (upto_last_close s) as [u | ].
  - injection H as <-. destruct (IH u eq_refl) as [x ->].
    exists (String c x). reflexivity.
  - destruct (Ascii.eqb_spec c "}"%char) as [-> | ]; [ | discriminate ].
    injection H as <-. exists "". reflexivity.
Qed.

Lemma from_first_open_starts s u :
  from_first_open s = Some u -> exists r, u = String "{"%char r.
Proof.
  induction s as [ | c s IH]; simpl; intros H; [ discriminate | ].
  destruct (Ascii.eqb_spec c "{"%char) as [-> | ].
  - injection H as <-. exists s. reflexivity.
  - apply IH. exact H.
Qed.

(** X3.  The search for the JSON object in the text of the generative
    model takes the text from the first opening brace to the last closing
    brace, whatever surrounds them (prose, a fenced code block); what it
    hands to [json.loads] always starts with an opening and ends with a
    closing brace. *)
Theorem search_braces_spec :
  (forall pre mid post,
      from_first_open pre = None ->
      upto_last_close post = None ->
      search_braces (pre ++ "{" ++ mid ++ "}" ++ post) = Some ("{" ++ mid ++ "}"))
  /\ (forall raw found,
         search_braces raw = Some found -> exists mid, found = "{" ++ mid ++ "}").
Proof.
  split.
  - intros pre mid post Hpre Hpost. unfold search_braces.
    rewrite (from_first_open_app pre _ Hpre).
    apply (upto_last_close_app ("{" ++ mid) post Hpost).
  - intros raw found. unfold search_braces.
    destruct (from_first_open raw) as [u | ] eqn:E; [ | discriminate ].
    destruct (from_first_open_starts _ _ E) as [r ->]. simpl.
    destruct (upto_last_close r) as [t | ] eqn:U; [ | discriminate ].
    intros H. injection H as <-.
    destruct (upto_last_close_ends _ _ U) as [x ->].
    exists x. reflexivity.
Qed.

Lemma search_braces_spec_witness :
  search_braces ("Here it is: ```json " ++ "{" ++ "categoria: 2, acoes: [{}]" ++ "}" ++ " ``` ok")
  = Some ("{" ++ "categoria: 2, acoes: [{}]" ++ "}")
  /\ exists mid, "{categoria: 2, acoes: [{}]}" = "{" ++ mid ++ "}".
Proof.
  split.
  - apply (proj1 search_braces_spec); reflexivity.
  - apply (proj2 search_braces_spec "x {categoria: 2, acoes: [{}]} y"). reflexivity.
Defined.

(** ** The upload route *)

(** X4.  An upload whose name has no accepted ending, or whose content
    exceeds 5 MB, is rejected before the image is decoded and before the
    generative model is called; the status 400 raised for it is caught by
    the route itself and answered as status 500. *)
Theorem analisar_imagem_rejects_with_500
        (W : Type) (chat : W -> value -> (exn + value) * W)
        (json_loads : string -> exn + value) (resize_image : string -> exn + string)
        filename contents (s : state W) :
  has_allowed_ending filename = false
  \/ MAX_FILE_SIZE < Z.of_nat (String.length contents) ->
  exists detail,
    analisar_imagem W chat json_loads resize_image filename contents s
    = (Exc (HTTPException 500 detail), s).
Proof.
  intros H. unfold analisar_imagem. run.
  destruct (has_allowed_ending filename) eqn:E.
  - destruct H as [H | H]; [ discriminate H | ].
    apply Z.ltb_lt in H. rewrite H. eexists. reflexivity.
  - eexists. reflexivity.
Qed.

Lemma analisar_imagem_rejects_with_500_witness :
  exists detail,
    analisar_imagem unit (fun w _ => (inr (VStr "{}"), w)) (fun _ => inr (VDict []))
      (fun b => inr b) "notas.txt" "abc" Scripted.start
    = (Exc (HTTPException 500 detail), Scripted.start).
Proof.
  apply analisar_imagem_rejects_with_500. left. reflexivity.
Defined.

(** ** The search of a student *)

Section Search.

Variable W : Type.
Variable serve : W -> request -> outcome * W.
Variable settings : Settings.
Variable clock : Clock.

Local Abbreviation buscar := (buscar_aluno_por_email W serve settings clock).
Local Abbreviation buscar_from := (buscar_aluno_from W serve settings clock).
Local Abbreviation page_of := (students_page settings clock).

Lemma bind_inv {A B} (m : M W A) (k : A -> M W B) s b s' :
  bind m k s = (Val b, s') ->
  exists a s1, m s = (Val a, s1) /\ k a s1 = (Val b, s').
Proof.
  unfold bind. destruct (m s) as [[a | e | ] s1]; intros H; try discriminate H.
  exists a, s1. split; [ reflexivity | exact H ].
Qed.

Lemma lift_inv {A} (r : exn + A) (s : state W) a s1 :
  lift r s = (Val a, s1) -> r = inr a /\ s1 = s.
Proof.
  destruct r as [e | x]; simpl; intros H; [ discriminate H | ].
  injection H as <- <-. split; reflexivity.
Qed.

Lemma bind_ext {A B} (m : M W A) (k1 k2 : A -> M W B) s :
  (forall a s1, k1 a s1 = k2 a s1) -> bind m k1 s = bind m k2 s.
Proof.
  intros H. unfold bind. destruct (m s) as [[a | e | ] s1]; [ apply H | | ]; reflexivity.
Qed.

Lemma find_aluno_sound email docs a :
  find_aluno email docs = inr (Some a) ->
  In a docs
  /\ exists raw, Py.getitem a "email" = inr (VStr raw)
                 /\ PyStr.lower raw = PyStr.lower email.
Proof.
  induction docs as [ | x docs IH]; simpl; [ discriminate | ].
  destruct (Py.getitem x "email") as [e | em] eqn:G; [ discriminate | ].
  destruct em; simpl; try discriminate.
  destruct (String.eqb_spec (PyStr.lower s) (PyStr.lower email)) as [E | _].
  - intros H. injection H as <-. split; [ left; reflexivity | ].
    exists s. split; [ exact G | exact E ].
  - intros H. destruct (IH H) as [I R]. split; [ right; exact I | exact R ].
Qed.

(** X5.  What the search returns is either nothing or a student whose
    email is the one asked for, up to the case of the letters. *)
Theorem buscar_returns_match fuel email s a s' :
  buscar fuel email s = (Val a, s') ->
  a = VNone
  \/ exists raw, Py.getitem a "email" = inr (VStr raw)
                 /\ PyStr.lower raw = PyStr.lower email.
Proof.
  unfold buscar_aluno_por_email. generalize 1. revert s.
  induction fuel as [ | fuel IH]; intros s page H; simpl in H; [ discriminate H | ].
  apply bind_inv in H as [data [s1 [_ H]]].
  apply bind_inv in H as [stop [s2 [_ H]]].
  destruct stop.
  - injection H as <- _. left. reflexivity.
  - apply bind_inv in H as [docs [s3 [_ H]]].
    apply bind_inv in H as [l [s4 [_ H]]].
    apply bind_inv in H as [hit [s5 [F H]]].
    apply lift_inv in F as [F _].
    destruct hit as [aluno | ].
    + injection H as <- _. right. apply (find_aluno_sound email l aluno F).
    + apply (IH _ _ H).
Qed.

Lemma find_aluno_ext e1 e2 docs :
  PyStr.lower e1 = PyStr.lower e2 -> find_aluno e1 docs = find_aluno e2 docs.
Proof.
  intros E. induction docs as [ | x docs IH]; simpl; [ reflexivity | ].
  destruct (Py.getitem x "email") as [e | em]; [ reflexivity | ].
  destruct (Py.as_str em) as [e | t]; [ reflexivity | ].
  rewrite E, IH. reflexivity.
Qed.

(** X6.  The search does not depend on the case of the letters of the
    email asked for: two emails that agree in lower case give the same run,
    call for call. *)
Theorem buscar_case_insensitive e1 e2 fuel s :
  PyStr.lower e1 = PyStr.lower e2 ->
  buscar fuel e1 s = buscar fuel e2 s.
Proof.
  intros E. unfold buscar_aluno_por_email. generalize 1. revert s.
  induction fuel as [ | fuel IH]; intros s page; simpl; [ reflexivity | ].
  apply bind_ext; intros data s1.
  apply bind_ext; intros stop s2.
  destruct stop; [ reflexivity | ].
  apply bind_ext; intros docs s3.
  apply bind_ext; intros l s4.
  rewrite (find_aluno_ext e1 e2 l E).
  apply bind_ext; intros hit s5.
  destruct hit; [ reflexivity | apply IH ].
Qed.

(** The listing of a page issues its call, whatever comes back, and
    needs no fuel. *)
Lemma get_students_call page s :
  snd (get_students W serve settings clock page s)
  = sent W s (page_of page) (snd (serve (remote s) (page_of page)))
  /\ fst (get_students W serve settings clock page s) <> OutOfFuel.
Proof.
  unfold get_students, requests. run. fold (page_of page).
  destruct (serve (remote s) (page_of page)) as [[r | msg] w]; simpl.
  - destruct (status_code r =? 200); [ | split; [ reflexivity | discriminate ] ].
    destruct (body r); split; (reflexivity || discriminate).
  - split; [ reflexivity | discriminate ].
Qed.

Lemma pages_from_S page n :
  pages_from settings clock page (S n)
  = page_of page :: pages_from settings clock (page + 1) n.
Proof.
  unfold pages_from. simpl. rewrite Z.add_0_r. f_equal.
  rewrite <- seq_shift, map_map. apply map_ext. intros i.
  f_equal. lia.
Qed.

Lemma buscar_from_pages fuel email page s :
  exists n,
    (n <= fuel)%nat
    /\ trace (snd (buscar_from fuel email page s))
       = (trace s ++ pages_from settings clock page n)%list.
Proof.
  revert page s. induction fuel as [ | fuel IH]; intros page s.
  - exists 0%nat. split; [ lia | ]. simpl. rewrite app_nil_r. reflexivity.
  - destruct (get_students_call page s) as [St _].
    assert (One : forall (r : result value),
               exists n, (n <= S fuel)%nat
                         /\ trace (snd (r, snd (get_students W serve settings clock page s)))
                            = (trace s ++ pages_from settings clock page n)%list).
    { intros r. exists 1%nat. split; [ lia | ].
      simpl snd. rewrite St, pages_from_S. reflexivity. }
    simpl. unfold bind at 1.
    destruct (get_students W serve settings clock page s) as [[data | e | ] s1] eqn:G;
      [ | apply (One (Exc e)) | apply (One OutOfFuel) ].
    simpl in St. run.
    destruct (no_docs data) as [e | stop]; [ apply (One (Exc e)) | ].
    destruct stop; [ apply (One (Val VNone)) | ].
    destruct (Py.getitem data "docs") as [e | docs]; [ apply (One (Exc e)) | ].
    destruct (iter_values docs) as [e | l]; [ apply (One (Exc e)) | ].
    destruct (find_aluno email l) as [e | [aluno | ]];
      [ apply (One (Exc e)) | apply (One (Val aluno)) | ].
    destruct (IH (page + 1) s1) as [n [Hn T]].
    exists (S n). split; [ lia | ].
    rewrite T, St, pages_from_S. simpl. rewrite <- app_assoc. reflexivity.
Qed.

(** X7.  The search reads the pages of students in order, from page 1 on
    and without gaps, each with a timeout of 10, and issues no other call;
    it stops at the first page that settles the search. *)
Theorem buscar_reads_pages_in_order fuel email s :
  exists n,
    (n <= fuel)%nat
    /\ trace (snd (buscar fuel email s))
       = (trace s ++ pages_from settings clock 1 n)%list
    /\ Forall (fun rq => meth rq = GET /\ timeout rq = Some 10)
              (pages_from settings clock 1 n).
Proof.
  destruct (buscar_from_pages fuel email 1 s) as [n [Hn T]].
  exists n. split; [ exact Hn | ]. split; [ exact T | ].
  unfold pages_from. apply Forall_map. apply Forall_forall.
  intros i _. split; reflexivity.
Qed.

(** X8.  A page that the enrollment platform refuses (any status other
    than 200) is read as the end of the list: the search answers "not
    found" instead of failing, so that [enviar_boleto] answers 404 for
    every email while the platform is failing. *)
Theorem refused_page_reads_as_not_found fuel email valor vencimento s r w :
  serve (remote s) (page_of 1) = (Reply r, w) ->
  status_code r <> 200 ->
  buscar (S fuel) email s = (Val VNone, sent W s (page_of 1) w)
  /\ enviar_boleto W serve settings clock (S fuel) email valor vencimento s
     = (Exc (HTTPException 404 "Aluno não encontrado"), sent W s (page_of 1) w).
Proof.
  intros Sv Hs.
  assert (B : buscar (S fuel) email s = (Val VNone, sent W s (page_of 1) w)).
  { unfold buscar_aluno_por_email. simpl. unfold get_students, requests. run.
    fold (page_of 1). rewrite Sv.
    replace (status_code r =? 200) with false
      by (symmetry; apply Z.eqb_neq; exact Hs).
    reflexivity. }
  split; [ exact B | ].
  unfold enviar_boleto. rewrite (bind_Val _ _ _ _ _ _ B). reflexivity.
Qed.

End Search.

Lemma buscar_case_insensitive_witness :
  buscar_aluno_por_email unit (Script.serve example_settings (enrollment_of [ana_naive]))
    example_settings example_clock 5 "ANA@X.COM" Scripted.start
  = buscar_aluno_por_email unit (Script.serve example_settings (enrollment_of [ana_naive]))
      example_settings example_clock 5 "ana@x.com" Scripted.start.
Proof. apply buscar_case_insensitive. reflexivity. Defined.

Lemma buscar_returns_match_witness :
  exists raw, Py.getitem ana_naive "email" = inr (VStr raw)
              /\ PyStr.lower raw = PyStr.lower "ANA@X.COM".
Proof.
  destruct (buscar_returns_match unit
              (Script.serve example_settings (enrollment_of [bob_naive; ana_naive]))
              example_settings example_clock 5 "ANA@X.COM" Scripted.start
              ana_naive
              (snd (buscar_aluno_por_email unit
                      (Script.serve example_settings (enrollment_of [bob_naive; ana_naive]))
                      example_settings example_clock 5 "ANA@X.COM" Scripted.start)))
    as [H | H].
  - vm_compute. reflexivity.
  - discriminate H.
  - exact H.
Defined.

Lemma refused_page_reads_as_not_found_witness :
  fst (enviar_boleto unit (Scripted.serve outage) example_settings example_clock
         5 "ana@x.com" 15000 "2025-04-01" Scripted.start)
  = Exc (HTTPException 404 "Aluno não encontrado").
Proof.
  destruct (refused_page_reads_as_not_found unit (Scripted.serve outage)
              example_settings example_clock 4 "ana@x.com" 15000 "2025-04-01"
              Scripted.start (mkResp 503 "Service Unavailable" None) tt)
    as [_ H].
  - reflexivity.
  - discriminate.
  - rewrite H. reflexivity.
Defined.

(** ** The counters of the inactivity scan *)

Section Counters.

Variable W : Type.
Variable serve : W -> request -> outcome * W.
Variable settings : Settings.
Variable clock : Clock.

Local Abbreviation visit := (visit_aluno W serve settings clock).
Local Abbreviation ok := (@accounted W settings clock).

Lemma accounted_refl c s : ok c s c s.
Proof.
  exists [], []. rewrite !app_nil_r. simpl. rewrite !Z.add_0_r.
  repeat split; auto.
Qed.

Lemma accounted_trans c1 s1 c2 s2 c3 s3 :
  ok c1 s1 c2 s2 -> ok c2 s2 c3 s3 -> ok c1 s1 c3 s3.
Proof.
  intros [l [ts [T [K [F [B A]]]]]] [l' [ts' [T' [K' [F' [B' A']]]]]].
  exists (l ++ l')%list, (ts ++ ts')%list.
  rewrite T', T, K', K, <- !app_assoc.
  rewrite filter_app, !List.length_app, !Nat2Z.inj_add.
  repeat split; trivial; [ apply Forall_app; split; assumption | lia | lia ].
Qed.

Lemma visit_aluno_accounted hoje aluno c s c' s' :
  visit hoje aluno c s = (Val c', s') -> ok c s c' s'.
Proof.
  unfold visit_aluno. intros H.
  apply bind_inv in H as [last [s1 [L H]]]. apply lift_inv in L as [_ ->].
  destruct (negb (Py.truthy last)).
  { injection H as <- <-. apply accounted_refl. }
  apply bind_inv in H as [dias [s1 [L H]]]. apply lift_inv in L as [_ ->].
  destruct (dias >=? 10).
  { apply bind_inv in H as [id [s1 [L H]]]. apply lift_inv in L as [_ ->].
    apply bind_inv in H as [resp [s1 [P H]]]. injection H as <- <-.
    unfold patch_student_action, requests in P.
    change (mkReq PATCH (FLEXGE_API_BASE settings ++ "/students/" ++ "disable")
              (generate_headers settings clock) []
              (Some (VDict [("students", VList [id])])) (Some 10))
      with (student_action settings clock id "disable") in P.
    destruct (serve (remote s) (student_action settings clock id "disable"))
      as [[r | msg] w]; [ | discriminate P ].
    injection P as _ <-.
    exists [student_action settings clock id "disable"], [].
    simpl. rewrite app_nil_r, Z.add_0_r.
    repeat split; trivial.
    constructor; [ right; exists id; reflexivity | constructor ]. }
  destruct (dias >=? 8).
  { apply bind_inv in H as [email [s1 [L H]]]. apply lift_inv in L as [_ ->].
    apply bind_inv in H as [name [s1 [L H]]]. apply lift_inv in L as [_ ->].
    injection H as <- <-.
    exists [], [send_inactivity_email email name].
    simpl. rewrite app_nil_r, Z.add_0_r.
    repeat split; auto. }
  injection H as <- <-. apply accounted_refl.
Qed.

Lemma visit_page_accounted hoje docs c s c' s' :
  visit_page W serve settings clock hoje docs c s = (Val c', s') -> ok c s c' s'.
Proof.
  revert c s. induction docs as [ | aluno docs IH]; intros c s H; simpl in H.
  - injection H as <- <-. apply accounted_refl.
  - apply bind_inv in H as [c1 [s1 [V H]]].
    eapply accounted_trans; [ apply (visit_aluno_accounted _ _ _ _ _ _ V) | ].
    apply IH. exact H.
Qed.

Lemma scan_from_accounted fuel hoje page c s c' s' :
  scan_from W serve settings clock fuel hoje page c s = (Val c', s') -> ok c s c' s'.
Proof.
  revert page c s. induction fuel as [ | fuel IH]; intros page c s H; simpl in H;
    [ discriminate H | ].
  apply bind_inv in H as [dados [s1 [G H]]].
  assert (P : ok c s c s1).
  { destruct (get_students_call W serve settings clock page s) as [St _].
    rewrite G in St. simpl in St. subst s1.
    exists [students_page settings clock page], [].
    simpl. rewrite app_nil_r, !Z.add_0_r.
    repeat split; trivial.
    constructor; [ left; exists page; reflexivity | constructor ]. }
  apply bind_inv in H as [stop [s2 [L H]]]. apply lift_inv in L as [_ ->].
  destruct stop.
  { injection H as <- <-. exact P. }
  apply bind_inv in H as [docs [s2 [L H]]]. apply lift_inv in L as [_ ->].
  apply bind_inv in H as [l [s2 [L H]]]. apply lift_inv in L as [_ ->].
  apply bind_inv in H as [c1 [s2 [V H]]].
  eapply accounted_trans; [ exact P | ].
  eapply accounted_trans; [ apply (visit_page_accounted _ _ _ _ _ _ V) | ].
  apply (IH _ _ _ H).
Qed.

(** X9.  When the inactivity scan succeeds, its two counters are exact:
    [bloqueados] is the number of disable calls it issued and [avisados] the
    number of warning e-mails it queued; besides the disable calls it issued
    only listings of pages. *)
Theorem check_inatividade_counts_its_actions fuel s v s' :
  check_inatividade W serve settings clock fuel s = (Val v, s') ->
  exists l ts,
    trace s' = (trace s ++ l)%list
    /\ tasks s' = (tasks s ++ ts)%list
    /\ Forall (scan_call settings clock) l
    /\ v = VDict [ ("bloqueados", VInt (Z.of_nat (List.length (filter is_patch l))));
                   ("avisados", VInt (Z.of_nat (List.length ts))) ].
Proof.
  unfold check_inatividade, try_except. intros H.
  destruct (bind (scan_from W serve settings clock fuel (DT.naive (utcnow clock)) 1 (0, 0))
              (fun counts =>
                 ret (VDict [("bloqueados", VInt (fst counts));
                             ("avisados", VInt (snd counts))])) s)
    as [[v0 | e | ] s0] eqn:E; try discriminate H.
  injection H as <- <-.
  apply bind_inv in E as [c' [s1 [S E]]]. injection E as <- <-.
  destruct (scan_from_accounted _ _ _ _ _ _ _ S) as [l [ts [T [K [F [B A]]]]]].
  exists l, ts. simpl in B, A. rewrite B, A.
  repeat split; trivial.
Qed.

(** X10.  The days without access are whole days of 24 hours elapsed
    between the last access and now, both read as naive timestamps: the
    count is at least [n] exactly when at least [n] times 24 hours went by,
    so that a student is disabled from the 240th hour on and warned from
    the 192nd. *)
Theorem dias_sem_acesso_counts_elapsed_days hoje txt t :
  DT.tzinfo hoje = None ->
  DT.fromisoformat (PyStr.replace_Z txt) = inr t ->
  DT.tzinfo t = None ->
  exists dias,
    dias_sem_acesso hoje (VStr txt) = inr dias
    /\ forall n, n <= dias <-> n * DT.us_per_day <= DT.wall_us hoje - DT.wall_us t.
Proof.
  intros Hh P Ht. unfold dias_sem_acesso, DT.sub. simpl. rewrite P, Hh, Ht.
  eexists. split; [ reflexivity | ].
  intros n. unfold DT.days.
  assert (K : 0 < DT.us_per_day) by reflexivity.
  set (d := DT.wall_us hoje - DT.wall_us t).
  pose proof (Z.mul_div_le d _ K). pose proof (Z.mul_succ_div_gt d _ K).
  split; intros; nia.
Qed.

End Counters.

Lemma check_inatividade_counts_its_actions_witness :
  exists l ts,
    trace (snd (scan [ana_naive; bob_naive])) = ([] ++ l)%list
    /\ tasks (snd (scan [ana_naive; bob_naive])) = ([] ++ ts)%list
    /\ Forall (scan_call example_settings example_clock) l
    /\ VDict [("bloqueados", VInt 1); ("avisados", VInt 1)]
       = VDict [ ("bloqueados", VInt (Z.of_nat (List.length (filter is_patch l))));
                 ("avisados", VInt (Z.of_nat (List.length ts))) ].
Proof.
  apply (check_inatividade_counts_its_actions unit
           (Script.serve example_settings (enrollment_of [ana_naive; bob_naive]))
           example_settings example_clock 5 Scripted.start).
  vm_compute. reflexivity.
Defined.

Lemma dias_sem_acesso_counts_elapsed_days_witness :
  exists dias,
    dias_sem_acesso (DT.naive (utcnow example_clock)) (VStr "2025-03-02T09:00:00.000001")
    = inr dias
    /\ ~ 10 <= dias /\ 9 <= dias.
Proof.
  destruct (dias_sem_acesso_counts_elapsed_days
              (DT.naive (utcnow example_clock)) "2025-03-02T09:00:00.000001"
              (DT.mkDT 2025 3 2 9 0 0 1 None) eq_refl eq_refl eq_refl)
    as [dias [E H]].
  exists dias. split; [ exact E | ]. split.
  - intros G. apply H in G. vm_compute in G. apply G. reflexivity.
  - apply H. vm_compute. discriminate.
Defined.

(** ** What the resolver sends and how it fails *)

Lemma digits_only_all_digits s : all_digits (PyStr.digits_only s) = true.
Proof.
  induction s as [ | c s IH]; simpl; [ reflexivity | ].
  destruct (PyStr.is_digit c) eqn:D; [ | exact IH ].
  unfold all_digits. simpl. rewrite D. exact IH.
Qed.

Lemma substring_all_digits s k n :
  all_digits s = true -> all_digits (substring k n s) = true.
Proof.
  revert k n. induction s as [ | c s IH]; intros k n H.
  - destruct k, n; reflexivity.
  - unfold all_digits in H. simpl in H. apply andb_prop in H as [Hc Hs].
    destruct k as [ | k]; simpl.
    + destruct n as [ | n]; [ reflexivity | ].
      unfold all_digits. simpl. rewrite Hc. apply (IH 0%nat n Hs).
    + apply (IH k n Hs).
Qed.

Lemma substring_length s k n : (String.length (substring k n s) <= n)%nat.
Proof.
  revert k n. induction s as [ | c s IH]; intros k n.
  - destruct k, n; simpl; lia.
  - destruct k as [ | k]; simpl.
    + destruct n as [ | n]; simpl; [ lia | ]. specialize (IH 0%nat n). lia.
    + apply IH.
Qed.

Lemma digits_field_normalised student key n v :
  digits_field student key n = inr v -> digits_or_none n v.
Proof.
  unfold digits_field. destruct (Py.get student key VNone) as [e | x]; [ discriminate | ].
  intros H. injection H as <-. unfold Py.str_or_none, PyStr.last_n.
  set (d := PyStr.digits_only (Py.str (Py.or_ x (VStr "")))).
  destruct (String.eqb_spec (substring (String.length d - n) n d) "") as [E | E].
  - left. reflexivity.
  - right. eexists. split; [ reflexivity | ]. split; [ exact E | ]. split.
    + apply substring_all_digits. apply digits_only_all_digits.
    + apply substring_length.
Qed.

Section ResolverEdges.

Variable W : Type.
Variable serve : W -> request -> outcome * W.
Variable settings : Settings.

Local Abbreviation resolve := (get_or_create_customer W serve settings).
Local Abbreviation lookup := (customer_lookup settings).
Local Abbreviation creation := (customer_creation settings).

(** X11.  The customer that the resolver asks the billing platform to
    create carries the trimmed name, the normalized email, and as phone and
    tax number either nothing or digits only: at most the last 11 digits of
    the phone and the last 14 of the tax number. *)
Theorem customer_payload_is_normalised student email payload :
  customer_payload student email = inr payload ->
  exists name phone cpf,
    Py.getitem student "name" = inr (VStr name)
    /\ payload = VDict [ ("name", VStr (PyStr.strip name)); ("email", VStr email);
                         ("mobilePhone", phone); ("cpfCnpj", cpf) ]
    /\ digits_or_none 11 phone
    /\ digits_or_none 14 cpf.
Proof.
  unfold customer_payload.
  destruct (Py.getitem student "name") as [e | nm]; [ discriminate | ].
  destruct nm; simpl; try discriminate.
  destruct (digits_field student "phone" 11) as [e | phone] eqn:P; [ discriminate | ].
  destruct (digits_field student "cpf" 14) as [e | cpf] eqn:C; [ discriminate | ].
  intros H. injection H as <-.
  exists s, phone, cpf. split; [ reflexivity | ]. split; [ reflexivity | ].
  split; eapply digits_field_normalised; eassumption.
Qed.

(** X12.  A lookup that the billing platform refuses (any status other
    than 200) is taken for a lookup that found nothing: the resolver goes
    on to ask for the creation of the customer. *)
Theorem refused_lookup_leads_to_creation student email payload s r w :
  customer_email student = inr email ->
  customer_payload student email = inr payload ->
  serve (remote s) (lookup email) = (Reply r, w) ->
  status_code r <> 200 ->
  resolve student s
  = post_customer W serve settings payload (sent W s (lookup email) w)
  /\ trace (snd (resolve student s))
     = (trace s ++ [lookup email; creation payload])%list.
Proof.
  intros He Hp Sv Hs.
  assert (E : resolve student s
              = post_customer W serve settings payload (sent W s (lookup email) w)).
  { unfold get_or_create_customer, requests. run. rewrite He. run. rewrite Sv.
    replace (status_code r =? 200) with false
      by (symmetry; apply Z.eqb_neq; exact Hs).
    run. rewrite Hp. reflexivity. }
  split; [ exact E | ].
  rewrite E, post_customer_trace. simpl. rewrite <- app_assoc. reflexivity.
Qed.

(** X13.  When the lookup finds no customer and the billing platform
    refuses the creation with a 4xx or 5xx status, the resolver fails with
    the [HTTPError] of that status: the refusal is not swallowed and no id
    is made up. *)
Theorem refused_creation_is_raised student email payload s r w r' w' :
  customer_email student = inr email ->
  customer_payload student email = inr payload ->
  serve (remote s) (lookup email) = (Reply r, w) ->
  finds (Reply r) = false ->
  (status_code r = 200 -> exists data d, body r = Some data
                                         /\ Py.get data "data" VNone = inr d) ->
  serve w (creation payload) = (Reply r', w') ->
  (400 <=? status_code r') && (status_code r' <? 600) = true ->
  resolve student s
  = (Exc (HTTPError (status_code r') (customers_url settings)),
     sent W (sent W s (lookup email) w) (creation payload) w').
Proof.
  intros He Hp Sv Hf Hd Sv' Hr.
  unfold get_or_create_customer, post_customer, requests. run. rewrite He. run.
  rewrite Sv. unfold finds in Hf.
  destruct (status_code r =? 200) eqn:St.
  - apply Z.eqb_eq in St. destruct (Hd St) as [data [d [Hb Hg]]].
    rewrite Hb, Hg in Hf. simpl in Hf.
    rewrite Hb. run. rewrite Hg. run. rewrite Hf. rewrite Hp. run.
    cbn [remote]. rewrite Sv'. rewrite Hr. reflexivity.
  - run. rewrite Hp. run. cbn [remote]. rewrite Sv'. rewrite Hr. reflexivity.
Qed.

End ResolverEdges.

Lemma customer_payload_is_normalised_witness :
  exists name phone cpf,
    Py.getitem ana_naive "name" = inr (VStr name)
    /\ VDict [ ("name", VStr "Ana Souza"); ("email", VStr "ana@x.com");
               ("mobilePhone", VStr "11912345678"); ("cpfCnpj", VNone) ]
       = VDict [ ("name", VStr (PyStr.strip name)); ("email", VStr "ana@x.com");
                 ("mobilePhone", phone); ("cpfCnpj", cpf) ]
    /\ digits_or_none 11 phone
    /\ digits_or_none 14 cpf.
Proof.
  apply (customer_payload_is_normalised ana_naive "ana@x.com"). reflexivity.
Defined.

Lemma refused_lookup_leads_to_creation_witness :
  map meth (trace (snd (get_or_create_customer unit (Scripted.serve outage)
                          example_settings ana_naive Scripted.start)))
  = [GET; POST].
Proof.
  destruct (refused_lookup_leads_to_creation unit (Scripted.serve outage)
              example_settings ana_naive "ana@x.com"
              (VDict [ ("name", VStr "Ana Souza"); ("email", VStr "ana@x.com");
                       ("mobilePhone", VStr "11912345678"); ("cpfCnpj", VNone) ])
              Scripted.start (mkResp 503 "Service Unavailable" None) tt
              eq_refl eq_refl eq_refl)
    as [_ T].
  - discriminate.
  - rewrite T. reflexivity.
Defined.

Lemma refused_creation_is_raised_witness :
  fst (get_or_create_customer unit (Script.serve example_settings closed_billing)
         example_settings ana_naive Scripted.start)
  = Exc (HTTPError 422 "https://api.asaas.com/v3/customers").
Proof.
  rewrite (refused_creation_is_raised unit
             (Script.serve example_settings closed_billing) example_settings
             ana_naive "ana@x.com"
             (VDict [ ("name", VStr "Ana Souza"); ("email", VStr "ana@x.com");
                      ("mobilePhone", VStr "11912345678"); ("cpfCnpj", VNone) ])
             Scripted.start
             (mkResp 200 "" (Some (VDict [("data", VList [])]))) tt
             (mkResp 422 "invalid cpfCnpj" None) tt);
    try reflexivity.
  intros _. exists (VDict [("data", VList [])]), (VList []). split; reflexivity.
Defined.

(** ** Enabling a student *)

Section Enable.

Variable W : Type.
Variable serve : W -> request -> outcome * W.
Variable settings : Settings.
Variable clock : Clock.

Local Abbreviation buscar := (buscar_aluno_por_email W serve settings clock).
Local Abbreviation habilitar := (habilitar_aluno W serve settings clock).
Local Abbreviation enable id := (student_action settings clock id "enable").

(** X14.  The enable route answers with success or fails with status
    500, and nothing else: it never answers 404 or 400.  A student that is
    not found makes it fail with status 500, the 404 raised for it being
    caught by the route itself, without any call to enable.  For a student
    that is found it issues exactly one enable call, answers with success
    when that call comes back with status 200, and fails with status 500
    when it comes back with any other status, the 400 raised for it being
    caught too, or does not come back. *)
Theorem habilitar_aluno_outcomes fuel email s :
  match fst (habilitar fuel email s) with
  | Val v => v = habilitado
  | Exc e => exists detail, e = HTTPException 500 detail
  | OutOfFuel =>
      fst (buscar fuel email (printed W s ["[DEBUG] E-mail recebido: " ++ email]))
      = OutOfFuel
  end
  /\ forall aluno s1,
       buscar fuel email (printed W s ["[DEBUG] E-mail recebido: " ++ email])
       = (Val aluno, s1) ->
       (Py.truthy aluno = false ->
        exists s',
          habilitar fuel email s
          = (Exc (HTTPException 500 (str_exn (HTTPException 404 "Aluno não encontrado"))),
             s')
          /\ trace s' = trace s1)
       /\ (forall id o w,
              Py.truthy aluno = true ->
              Py.getitem aluno "id" = inr id ->
              serve (remote s1) (enable id) = (o, w) ->
              exists res s',
                habilitar fuel email s = (res, s')
                /\ trace s' = (trace s1 ++ [enable id])%list
                /\ match o with
                   | Reply r =>
                       res = if status_code r =? 200
                             then Val habilitado
                             else Exc (HTTPException 500
                                         (str_exn (HTTPException 400 (text r))))
                   | NoReply msg =>
                       res = Exc (HTTPException 500 (str_exn (RequestException msg)))
                   end).
Proof.
  split.
  - unfold habilitar_aluno, try_except, patch_student_action, requests, printed. run.
    destruct (buscar_aluno_por_email W serve settings clock fuel email _)
      as [[aluno | e | ] s1]; cbn [fst]; [ | eexists; reflexivity | reflexivity ].
    destruct (Py.truthy aluno); cbn [negb fst]; [ | eexists; reflexivity ].
    destruct (Py.getitem aluno "id") as [e | id]; cbn [fst];
      [ eexists; reflexivity | ].
    cbn [remote].
    destruct (serve (remote s1) _) as [[r | msg] w]; cbn [fst];
      [ | eexists; reflexivity ].
    destruct (status_code r =? 200); cbn [fst]; [ reflexivity | eexists; reflexivity ].
  - intros aluno s1 Hb. split.
    + intros Ht. unfold habilitar_aluno.
      erewrite try_Exc.
      2:{ erewrite bind_Val by reflexivity.
          erewrite bind_Val by exact Hb.
          rewrite Ht. cbn [negb]. reflexivity. }
      eexists. split; reflexivity.
    + intros id o w Ht Hid Sv. unfold habilitar_aluno.
      destruct o as [r | msg].
      * assert (P : patch_student_action W serve settings clock id "enable"
                      (printed W s1 ["[AÇÃO] Habilitando aluno: " ++ Py.str id])
                    = (Val r, sent W (printed W s1 ["[AÇÃO] Habilitando aluno: "
                                                    ++ Py.str id])
                                (enable id) w)).
        { unfold patch_student_action. apply requests_Reply. exact Sv. }
        destruct (status_code r =? 200) eqn:St.
        -- erewrite try_Val.
           2:{ erewrite bind_Val by reflexivity.
               erewrite bind_Val by exact Hb.
               rewrite Ht. cbn [negb]. rewrite Hid.
               erewrite bind_Val by reflexivity.
               erewrite bind_Val by reflexivity.
               erewrite bind_Val by reflexivity.
               erewrite bind_Val by exact P.
               rewrite St. reflexivity. }
           do 2 eexists. split; [ reflexivity | ]. split; reflexivity.
        -- erewrite try_Exc.
           2:{ erewrite bind_Val by reflexivity.
               erewrite bind_Val by exact Hb.
               rewrite Ht. cbn [negb]. rewrite Hid.
               erewrite bind_Val by reflexivity.
               erewrite bind_Val by reflexivity.
               erewrite bind_Val by reflexivity.
               erewrite bind_Val by exact P.
               rewrite St. reflexivity. }
           do 2 eexists. split; [ reflexivity | ]. split; reflexivity.
      * assert (P : patch_student_action W serve settings clock id "enable"
                      (printed W s1 ["[AÇÃO] Habilitando aluno: " ++ Py.str id])
                    = (Exc (RequestException msg),
                       sent W (printed W s1 ["[AÇÃO] Habilitando aluno: " ++ Py.str id])
                            (enable id) w)).
        { unfold patch_student_action. apply requests_NoReply. exact Sv. }
        erewrite try_Exc.
        2:{ erewrite bind_Val by reflexivity.
            erewrite bind_Val by exact Hb.
            rewrite Ht. cbn [negb]. rewrite Hid.
            erewrite bind_Val by reflexivity.
            erewrite bind_Val by reflexivity.
            erewrite bind_Val by reflexivity.
            erewrite bind_Exc by exact P.
            reflexivity. }
        do 2 eexists. split; [ reflexivity | ]. split; reflexivity.
Qed.

End Enable.

Lemma habilitar_aluno_outcomes_witness :
  (exists s',
      habilitar_aluno unit (Script.serve example_settings (enrollment_of [ana_naive]))
        example_settings example_clock 5 "zed@x.com" Scripted.start
      = (Exc (HTTPException 500 "404: Aluno não encontrado"), s')
      /\ Forall (fun rq => meth rq = GET) (trace s'))
  /\ (exists s',
         habilitar_aluno unit (Script.serve example_settings locked_enrollment)
           example_settings example_clock 5 "ana@x.com" Scripted.start
         = (Exc (HTTPException 500 "400: Forbidden"), s')
         /\ trace s' = [ students_page example_settings example_clock 1;
                         student_action example_settings example_clock
                                        (VStr "s1") "enable" ])
  /\ (exists s',
         habilitar_aluno unit (Script.serve example_settings (enrollment_of [ana_naive]))
           example_settings example_clock 5 "ana@x.com" Scripted.start
         = (Val habilitado, s')
         /\ trace s' = [ students_page example_settings example_clock 1;
                         student_action example_settings example_clock
                                        (VStr "s1") "enable" ]).
Proof.
  split; [ | split ].
  - pose (serve := Script.serve example_settings (enrollment_of [ana_naive])).
    pose (s1 := snd (buscar_aluno_por_email unit serve example_settings example_clock
                       5 "zed@x.com"
                       (printed unit Scripted.start ["[DEBUG] E-mail recebido: zed@x.com"]))).
    destruct (proj1 (proj2 (habilitar_aluno_outcomes unit serve example_settings
                              example_clock 5 "zed@x.com" Scripted.start)
                           VNone s1 eq_refl) eq_refl)
      as [s' [E T]].
    exists s'. split; [ exact E | ].
    rewrite T. vm_compute. repeat constructor.
  - pose (serve := Script.serve example_settings locked_enrollment).
    pose (s1 := snd (buscar_aluno_por_email unit serve example_settings example_clock
                       5 "ana@x.com"
                       (printed unit Scripted.start ["[DEBUG] E-mail recebido: ana@x.com"]))).
    destruct (proj2 (proj2 (habilitar_aluno_outcomes unit serve example_settings
                              example_clock 5 "ana@x.com" Scripted.start)
                           ana_naive s1 eq_refl)
                    (VStr "s1") (Scripted.text_reply 403 "Forbidden") tt
                    eq_refl eq_refl eq_refl)
      as [res [s' [E [T C]]]].
    cbn in C. subst res. exists s'. split; [ exact E | ].
    rewrite T. vm_compute. reflexivity.
  - pose (serve := Script.serve example_settings (enrollment_of [ana_naive])).
    pose (s1 := snd (buscar_aluno_por_email unit serve example_settings example_clock
                       5 "ana@x.com"
                       (printed unit Scripted.start ["[DEBUG] E-mail recebido: ana@x.com"]))).
    destruct (proj2 (proj2 (habilitar_aluno_outcomes unit serve example_settings
                              example_clock 5 "ana@x.com" Scripted.start)
                           ana_naive s1 eq_refl)
                    (VStr "s1") Script.ok_empty tt eq_refl eq_refl eq_refl)
      as [res [s' [E [T C]]]].
    cbn in C. subst res. exists s'. split; [ exact E | ].
    rewrite T. vm_compute. reflexivity.
Defined.

(** ** Switching the billing type: the update *)

Section Update.

Variable W : Type.
Variable serve : W -> request -> outcome * W.
Variable settings : Settings.
Variable clock : Clock.

Local Abbreviation buscar := (buscar_aluno_por_email W serve settings clock).
Local Abbreviation resolve := (get_or_create_customer W serve settings).
Local Abbreviation switch := (trocar_assinatura W serve settings clock).
Local Abbreviation query := (active_subscription_query settings).
Local Abbreviation update := (subscription_update settings clock).

(** X15.  When the student is found and the customer has an active
    subscription, the switch issues exactly one update after the listing,
    on the first subscription listed; the update sets the billing type asked
    for, asks the platform to update the pending payments too, keeps the
    subscription active and moves the next due date to today.  The answer
    carries the subscription's id and echoes the next due date and the
    billing type of the platform's answer. *)
Theorem switch_updates_first_subscription
        billing_type mensagem fuel email s aluno s1 cid s2
        r w data d sub sub_id r' w' answer next tipo :
  buscar fuel email s = (Val aluno, s1) ->
  Py.truthy aluno = true ->
  resolve aluno s1 = (Val cid, s2) ->
  serve (remote s2) (query cid) = (Reply r, w) ->
  no_error r ->
  body r = Some data ->
  Py.getitem data "data" = inr d ->
  Py.truthy d = true ->
  Py.first d = inr sub ->
  Py.getitem sub "id" = inr sub_id ->
  serve w (update sub_id billing_type) = (Reply r', w') ->
  no_error r' ->
  body r' = Some answer ->
  Py.get answer "nextDueDate" VNone = inr next ->
  Py.get answer "billingType" VNone = inr tipo ->
  switch billing_type mensagem fuel email s
  = (Val (VDict [ ("mensagem", VStr mensagem); ("assinatura_id", sub_id);
                  ("proxima_cobranca", next); ("tipo_pagamento", tipo) ]),
     sent W (sent W s2 (query cid) w) (update sub_id billing_type) w')
  /\ json (update sub_id billing_type)
     = Some (VDict [ ("billingType", VStr billing_type);
                     ("updatePendingPayments", VBool true);
                     ("status", VStr "ACTIVE");
                     ("nextDueDate", VStr (DT.strftime_ymd (today clock))) ]).
Proof.
  intros Hb Ht Hc Sv Hr Hbd Hd Htd Hf Hid Sv' Hr' Hbd' Hn Hty.
  split; [ | reflexivity ].
  unfold trocar_assinatura.
  erewrite try_Val; [ reflexivity | ].
  erewrite bind_Val by exact Hb. rewrite Ht. cbn [negb].
  erewrite bind_Val by exact Hc.
  erewrite bind_Val by (apply requests_Reply; exact Sv).
  unfold raise_for_status. rewrite Hr.
  erewrite bind_Val by reflexivity.
  unfold resp_json. rewrite Hbd.
  erewrite bind_Val by reflexivity.
  rewrite (get_of_getitem _ _ _ VNone Hd).
  erewrite bind_Val by reflexivity.
  rewrite Htd. cbn [negb]. rewrite Hd.
  erewrite bind_Val by reflexivity.
  rewrite Hf. erewrite bind_Val by reflexivity.
  rewrite Hid. erewrite bind_Val by reflexivity.
  erewrite bind_Val by (apply requests_Reply; exact Sv').
  rewrite Hr'. erewrite bind_Val by reflexivity.
  rewrite Hbd'. erewrite bind_Val by reflexivity.
  rewrite Hn. erewrite bind_Val by reflexivity.
  rewrite Hty. reflexivity.
Qed.

End Update.

Lemma switch_updates_first_subscription_witness :
  exists s',
    trocar_assinatura_cartao unit (Script.serve example_settings switching)
      example_settings example_clock 5 "ana@x.com" Scripted.start
    = (Val (VDict [ ("mensagem", VStr "Assinatura atualizada para cartão com sucesso.");
                    ("assinatura_id", VStr "sub_1");
                    ("proxima_cobranca", VStr "2025-03-12");
                    ("tipo_pagamento", VStr "CREDIT_CARD") ]), s').
Proof.
  pose (serve := Script.serve example_settings switching).
  pose (s1 := snd (buscar_aluno_por_email unit serve example_settings example_clock
                     5 "ana@x.com" Scripted.start)).
  pose (s2 := snd (get_or_create_customer unit serve example_settings ana_naive s1)).
  eexists.
  apply (proj1 (switch_updates_first_subscription unit serve example_settings example_clock
                  "CREDIT_CARD" "Assinatura atualizada para cartão com sucesso."
                  5 "ana@x.com" Scripted.start ana_naive s1 (VStr "cus_1") s2
                  (mkResp 200 "" (Some (VDict [("data", VList [ana_subscription])]))) tt
                  (VDict [("data", VList [ana_subscription])]) (VList [ana_subscription])
                  ana_subscription (VStr "sub_1")
                  (mkResp 200 "" (Some switched_subscription)) tt switched_subscription
                  (VStr "2025-03-12") (VStr "CREDIT_CARD")
                  eq_refl eq_refl eq_refl eq_refl eq_refl eq_refl eq_refl eq_refl
                  eq_refl eq_refl eq_refl eq_refl eq_refl eq_refl eq_refl)).
Defined.

(** ** Listing the payments of a subscription *)

Section Listing.

Variable W : Type.
Variable serve : W -> request -> outcome * W.
Variable settings : Settings.
Variable clock : Clock.

Local Abbreviation buscar := (buscar_aluno_por_email W serve settings clock).
Local Abbreviation resolve := (get_or_create_customer W serve settings).
Local Abbreviation listar := (listar_cobrancas_assinatura W serve settings clock).

Lemma listar_calls fuel email :
  calls (read_or_customer_creation settings) (listar fuel email).
Proof.
  unfold listar_cobrancas_assinatura.
  walk;
    first
      [ apply (calls_weaken W (fun rq => meth rq = GET));
        [ intros rq G; left; exact G | apply buscar_reads ]
      | apply resolve_calls_only
      | apply calls_requests; left; reflexivity ].
Qed.

(** X16.  [listar_cobrancas_assinatura] does not look at the status of the
    billing platform's answers: an answer of any status, be it a refusal,
    whose body holds no subscription is reported as "no active
    subscription".  The function changes nothing on the billing platform
    but for the customer the resolver may create. *)
Theorem listar_cobrancas_ignores_status fuel email s :
  calls (read_or_customer_creation settings) (listar fuel email)
  /\ forall aluno s1 cid s2 r w data d,
       buscar fuel email s = (Val aluno, s1) ->
       Py.truthy aluno = true ->
       resolve aluno s1 = (Val cid, s2) ->
       serve (remote s2) (active_listing settings cid) = (Reply r, w) ->
       body r = Some data ->
       Py.get data "data" VNone = inr d ->
       Py.truthy d = false ->
       listar fuel email s
       = (Val (erro "Nenhuma assinatura ativa"),
          sent W s2 (active_listing settings cid) w).
Proof.
  split; [ apply listar_calls | ].
  intros aluno s1 cid s2 r w data d Hb Ht Hc Sv Hbd Hd Htd.
  unfold listar_cobrancas_assinatura.
  erewrite bind_Val by exact Hb. rewrite Ht. cbn [negb].
  erewrite bind_Val by exact Hc.
  erewrite bind_Val by (apply requests_Reply; exact Sv).
  unfold resp_json. rewrite Hbd.
  erewrite bind_Val by reflexivity.
  rewrite Hd. erewrite bind_Val by reflexivity.
  rewrite Htd. reflexivity.
Qed.

End Listing.

Lemma listar_cobrancas_ignores_status_witness :
  exists s',
    listar_cobrancas_assinatura unit (Script.serve example_settings unauthorized_listing)
      example_settings example_clock 5 "ana@x.com" Scripted.start
    = (Val (erro "Nenhuma assinatura ativa"), s').
Proof.
  pose (serve := Script.serve example_settings unauthorized_listing).
  pose (s1 := snd (buscar_aluno_por_email unit serve example_settings example_clock
                     5 "ana@x.com" Scripted.start)).
  pose (s2 := snd (get_or_create_customer unit serve example_settings ana_naive s1)).
  eexists.
  apply (proj2 (listar_cobrancas_ignores_status unit serve example_settings example_clock
                  5 "ana@x.com" Scripted.start)
               ana_naive s1 (VStr "cus_1") s2
               (mkResp 401 "" (Some invalid_token)) tt invalid_token VNone
               eq_refl eq_refl eq_refl eq_refl eq_refl eq_refl eq_refl).
Defined.

(** ** The search for the latest unpaid payment: its outcomes *)

Section Latest.

Variable W : Type.
Variable serve : W -> request -> outcome * W.
Variable settings : Settings.

Local Abbreviation latest := (get_latest_unpaid_payment W serve settings).
Local Abbreviation query := (latest_unpaid_query settings).


End Latest.

(** ** Issuing a boleto: the order of the steps *)

Section IssueEdges.

Variable W : Type.
Variable serve : W -> request -> outcome * W.
Variable settings : Settings.
Variable clock : Clock.

Local Abbreviation buscar := (buscar_aluno_por_email W serve settings clock).
Local Abbreviation resolve := (get_or_create_customer W serve settings).
Local Abbreviation charge := (create_payment W serve settings).
Local Abbreviation issue := (enviar_boleto W serve settings clock).

(** X18.  The due date is read only after the customer is resolved: a
    due date that is not an ISO date makes the route fail with status 500
    and the parser's message, with no payment requested, but after the calls
    of the resolver, a customer creation among them when the lookup found
    none. *)
Theorem invalid_due_date_fails_after_customer
        fuel email valor vencimento s aluno s1 cid s2 e :
  buscar fuel email s = (Val aluno, s1) ->
  Py.truthy aluno = true ->
  resolve aluno s1 = (Val cid, s2) ->
  DT.fromisoformat vencimento = inl e ->
  issue fuel email valor vencimento s = (Exc (HTTPException 500 (str_exn e)), s2).
Proof.
  intros Hb Ht Hc Hd. unfold enviar_boleto.
  erewrite bind_Val by exact Hb. rewrite Ht. cbn [negb].
  erewrite try_Exc; [ reflexivity | ].
  erewrite bind_Val by exact Hc.
  rewrite Hd. reflexivity.
Qed.

(** X19.  In a deployment without the key or the agent of the messaging
    platform, the route answers "enviado" with the link although nothing is
    sent: the creation of the payment is its last call. *)
Theorem enviar_boleto_without_messaging
        fuel email valor vencimento s aluno s1 cid s2 due pay s3 link whatsapp :
  ZAIA_API_KEY settings = "" \/ ZAIA_AGENT_ID settings = 0 ->
  buscar fuel email s = (Val aluno, s1) ->
  Py.truthy aluno = true ->
  resolve aluno s1 = (Val cid, s2) ->
  DT.fromisoformat vencimento = inr due ->
  charge cid valor due "Mensalidade" s2 = (Val pay, s3) ->
  link_of pay = inr link ->
  whatsapp_of aluno = inr whatsapp ->
  (whatsapp <> "" -> exists name, first_name aluno = inr name) ->
  issue fuel email valor vencimento s = (Val (enviado link), s3).
Proof.
  intros Hz Hb Ht Hc Hd Hp Hl Hw Hn. unfold enviar_boleto.
  erewrite bind_Val by exact Hb. rewrite Ht. cbn [negb].
  erewrite try_Val; [ reflexivity | ].
  erewrite bind_Val by exact Hc.
  rewrite Hd. erewrite bind_Val by reflexivity.
  erewrite bind_Val by exact Hp.
  unfold deliver_boleto.
  rewrite Hl. erewrite bind_Val by reflexivity.
  rewrite Hw. erewrite bind_Val by reflexivity.
  destruct (String.eqb whatsapp "") eqn:E; cbn [negb].
  - reflexivity.
  - destruct Hn as [name Hn].
    { intros ->. discriminate E. }
    rewrite Hn.
    assert (Z0 : (String.eqb (ZAIA_API_KEY settings) "" || (ZAIA_AGENT_ID settings =? 0))
                 = true).
    { destruct Hz as [-> | ->]; [ reflexivity | apply orb_true_r ]. }
    unfold send_whatsapp_via_zaia. rewrite Z0. reflexivity.
Qed.

(** X20.  A student with a phone whose name cannot be read (no name, a
    name that is no text, a blank name) gets the payment created and then
    the route fails with status 500: no message is sent and the link of the
    created payment is not returned. *)
Theorem unreadable_name_fails_after_payment
        fuel email valor vencimento s aluno s1 cid s2 due pay s3 link whatsapp e :
  buscar fuel email s = (Val aluno, s1) ->
  Py.truthy aluno = true ->
  resolve aluno s1 = (Val cid, s2) ->
  DT.fromisoformat vencimento = inr due ->
  charge cid valor due "Mensalidade" s2 = (Val pay, s3) ->
  link_of pay = inr link ->
  whatsapp_of aluno = inr whatsapp ->
  whatsapp <> "" ->
  first_name aluno = inl e ->
  issue fuel email valor vencimento s = (Exc (HTTPException 500 (str_exn e)), s3).
Proof.
  intros Hb Ht Hc Hd Hp Hl Hw Ne Hn. unfold enviar_boleto.
  erewrite bind_Val by exact Hb. rewrite Ht. cbn [negb].
  erewrite try_Exc; [ reflexivity | ].
  erewrite bind_Val by exact Hc.
  rewrite Hd. erewrite bind_Val by reflexivity.
  erewrite bind_Val by exact Hp.
  unfold deliver_boleto.
  rewrite Hl. erewrite bind_Val by reflexivity.
  rewrite Hw. erewrite bind_Val by reflexivity.
  destruct (String.eqb whatsapp "") eqn:E; cbn [negb].
  - apply String.eqb_eq in E. contradiction.
  - rewrite Hn. reflexivity.
Qed.

End IssueEdges.

Lemma invalid_due_date_fails_after_customer_witness :
  exists s',
    enviar_boleto unit
      (Script.serve example_settings (unknown_to_billing Script.no_data Script.no_data))
      example_settings example_clock 5 "ana@x.com" 15000 "01/04/2025" Scripted.start
    = (Exc (HTTPException 500 "Invalid isoformat string: '01/04/2025'"), s')
    /\ (exists payload, In (customer_creation example_settings payload) (trace s'))
    /\ Forall (fun rq => url rq <> payments_url example_settings) (trace s').
Proof.
  pose (serve := Script.serve example_settings
                   (unknown_to_billing Script.no_data Script.no_data)).
  pose (s1 := snd (buscar_aluno_por_email unit serve example_settings example_clock
                     5 "ana@x.com" Scripted.start)).
  pose (s2 := snd (get_or_create_customer unit serve example_settings ana_naive s1)).
  exists s2. split.
  - apply (invalid_due_date_fails_after_customer unit serve example_settings example_clock
             5 "ana@x.com" 15000 "01/04/2025" Scripted.start ana_naive s1 (VStr "cus_9") s2
             (DT.invalid "01/04/2025") eq_refl eq_refl eq_refl eq_refl).
  - split.
    + eexists. cbv. right. right. left. reflexivity.
    + vm_compute. repeat constructor; discriminate.
Defined.

Lemma enviar_boleto_without_messaging_witness :
  exists s',
    enviar_boleto unit (Script.serve unconfigured_settings (issuing zaia_down))
      unconfigured_settings example_clock 5 "ana@x.com" 15000 "2025-04-01" Scripted.start
    = (Val (enviado (VStr "https://www.asaas.com/b/pdf/pay_1")), s')
    /\ Forall (fun rq => url rq <> zaia_url unconfigured_settings) (trace s').
Proof.
  pose (serve := Script.serve unconfigured_settings (issuing zaia_down)).
  pose (s1 := snd (buscar_aluno_por_email unit serve unconfigured_settings example_clock
                     5 "ana@x.com" Scripted.start)).
  pose (s2 := snd (get_or_create_customer unit serve unconfigured_settings ana_naive s1)).
  pose (s3 := snd (create_payment unit serve unconfigured_settings (VStr "cus_1") 15000
                     first_of_april "Mensalidade" s2)).
  exists s3. split.
  - apply (enviar_boleto_without_messaging unit serve unconfigured_settings example_clock
             5 "ana@x.com" 15000 "2025-04-01" Scripted.start ana_naive s1 (VStr "cus_1") s2
             first_of_april
             (VDict [ ("id", VStr "pay_1"); ("status", VStr "PENDING");
                      ("bankSlipUrl", VStr "https://www.asaas.com/b/pdf/pay_1");
                      ("invoiceUrl", VStr "https://www.asaas.com/i/pay_1") ])
             s3 (VStr "https://www.asaas.com/b/pdf/pay_1") "5511912345678"
             (or_introl eq_refl) eq_refl eq_refl eq_refl eq_refl eq_refl eq_refl eq_refl
             (fun _ => ex_intro _ "Ana" eq_refl)).
  - vm_compute. repeat constructor; discriminate.
Defined.

Lemma unreadable_name_fails_after_payment_witness :
  exists s',
    enviar_boleto unit (Script.serve example_settings issuing_to_cy)
      example_settings example_clock 5 "cy@x.com" 15000 "2025-04-01" Scripted.start
    = (Exc (HTTPException 500 "list index out of range"), s')
    /\ exists payload, last (trace s') (students_page example_settings example_clock 1)
                       = payment_creation example_settings payload.
Proof.
  pose (serve := Script.serve example_settings issuing_to_cy).
  pose (s1 := snd (buscar_aluno_por_email unit serve example_settings example_clock
                     5 "cy@x.com" Scripted.start)).
  pose (s2 := snd (get_or_create_customer unit serve example_settings cy_nameless s1)).
  pose (s3 := snd (create_payment unit serve example_settings (VStr "cus_1") 15000
                     first_of_april "Mensalidade" s2)).
  exists s3. split.
  - refine (unreadable_name_fails_after_payment unit serve example_settings example_clock
             5 "cy@x.com" 15000 "2025-04-01" Scripted.start cy_nameless s1 (VStr "cus_1") s2
             first_of_april
             (VDict [ ("id", VStr "pay_1"); ("status", VStr "PENDING");
                      ("bankSlipUrl", VStr "https://www.asaas.com/b/pdf/pay_1");
                      ("invoiceUrl", VStr "https://www.asaas.com/i/pay_1") ])
             s3 (VStr "https://www.asaas.com/b/pdf/pay_1") "5511988887777" IndexError
             eq_refl eq_refl eq_refl eq_refl eq_refl eq_refl eq_refl _ eq_refl).
    discriminate.
  - eexists. vm_compute. reflexivity.
Defined.
